(** * Tinyman V2 pool controller: a shallow embedding of [tinyman/v2/pools.py]

    The development follows the Python module top-down: the value types
    the controller handles, the exceptions it raises, the decoding of a
    pool snapshot from an account-info structure, the [Pool] object with
    its in-place refresh, and the quote-fetching operations.

    Python objects are records, attributes that start as [None] are
    options, dictionaries are [gmap]s or an explicit "empty / full"
    variant, and a method of [Pool] is a computation in a small
    state-and-exception monad whose state is the pool object together
    with a log of the observable steps the method takes. *)

From Stdlib Require Import ZArith QArith Qround Lqa String List Lia.
From stdpp Require Import base option gmap strings.

Local Open Scope Z_scope.
Local Open Scope string_scope.
Local Open Scope list_scope.

(** ** Value types ([tinyman.assets]) *)

Module Asset.
(** The dataclass [Asset(id, name, unit_name, decimals)]. *)
Record t : Type := mk
  { id : Z;
    name : option string;
    unit_name : option string;
    decimals : option Z }.

(** Modelled from the spec: [tinyman/assets.py] is not part of the
    sources at hand; "two assets are equal iff ids are equal". This is
    the [==] the controller uses on assets, and the hash of an asset is
    its id. *)
Definition eqb (a b : t) : bool := Z.eqb (id a) (id b).

Definition of_id (i : Z) : t :=
  {| id := i; name := None; unit_name := None; decimals := None |}.
End Asset.

Module AssetAmount.
(** The dataclass [AssetAmount(asset, amount)]. *)
Record t : Type := mk
  { asset : Asset.t;
    amount : Z }.
End AssetAmount.

(** ** Exceptions *)

(** Modelled from the spec: the errors of the formula library
    ([tinyman/v2/formulas.py] is not part of the sources at hand), section 7:
    "ArithmeticError (DivisionByZero ..., InsufficientLiquidity ...)". *)
Inductive ArithmeticError : Type :=
| DivisionByZero
| InsufficientLiquidity.

(** What a call into [pools.py] can raise: the four exceptions imported from
    [.exceptions], the built-in exceptions of the statements of the module,
    and whatever a formula raises. *)
Inductive exn : Type :=
| AlreadyBootstrapped
| BootstrapIsRequired
| PoolHasNoLiquidity
| PoolAlreadyHasLiquidity
| AssertionError (msg : option string)
| TypeError            (* [raise False]; arithmetic on [None] *)
| KeyError (key : string)
| NotImplementedError
| FormulaError (e : ArithmeticError).

Definition result (A : Type) : Type := exn + A.

Definition Ok {A} (a : A) : result A := inr a.
Definition Raise {A} (e : exn) : result A := inl e.

Definition is_ok {A} (r : result A) : bool :=
  match r with inr _ => true | inl _ => false end.

(** Python truthiness of the values the controller tests with [not]. *)
Definition truthy_int (v : option Z) : bool :=
  match v with
  | None => false
  | Some n => negb (Z.eqb n 0)
  end.

Definition truthy_flag (v : option bool) : bool :=
  match v with
  | None => false
  | Some b => b
  end.

(** An attribute that is still [None] cannot take part in integer
    arithmetic: Python raises [TypeError]. *)
Definition as_int (v : option Z) : result Z :=
  match v with
  | Some n => Ok n
  | None => Raise TypeError
  end.

(** ** The snapshot source: account info and its decoding *)

Module TealValue.
(** One value of an application's local state, [{"bytes": .., "uint": ..}]. *)
Record t : Type := mk
  { bytes : string;
    uint : Z }.
End TealValue.

Module KeyValue.
(** One entry [{"key": .., "value": ..}] of a ["key-value"] list. *)
Record t : Type := mk
  { key : string;
    value : TealValue.t }.
End KeyValue.

Module AppLocalState.
(** One element of [account_info["apps-local-state"]]. *)
Record t : Type := mk
  { id : Z;
    key_value : list KeyValue.t }.
End AppLocalState.

Module AccountInfo.
(** The part of algod's account information that the module reads; the
    keys it reads are taken to be present. *)
Record t : Type := mk
  { apps_local_state : list AppLocalState.t;
    address : string;
    amount : Z;
    round : Z }.
End AccountInfo.

Module LogicSigAccount.
Record t : Type := mk { address : string }.
End LogicSigAccount.

Module Info.
(** The dictionary [pool] that [get_pool_info_from_account_info] returns,
    one field per key. [pool_token_asset_id] is an option because
    [update_from_info] tests it against [None]. *)
Record t : Type := mk
  { address : string;
    asset_1_id : Z;
    asset_2_id : Z;
    pool_token_asset_id : option Z;
    asset_1_reserves : Z;
    asset_2_reserves : Z;
    issued_pool_tokens : Z;
    asset_1_protocol_fees : Z;
    asset_2_protocol_fees : Z;
    asset_1_cumulative_price : Z;
    asset_2_cumulative_price : Z;
    cumulative_price_update_timestamp : Z;
    total_fee_share : Z;
    protocol_fee_ratio : Z;
    validator_app_id : Z;
    algo_balance : Z;
    round : Z }.
End Info.

(** A pool-info dictionary is either [{}] or has all the keys, as the
    decoder builds it. A dictionary with some of the keys only, which a
    caller could hand to [update_from_info] or to the constructor, is not
    covered: on such a dictionary the method assigns the attributes one by
    one up to the first missing key, so that [exists] can be set while
    later attributes are still [None]. Nothing below speaks of such
    dictionaries. *)
Inductive InfoDict : Type :=
| EmptyDict
| FullDict (i : Info.t).

(** [bool(info)] for a dictionary. *)
Definition truthy_dict (d : InfoDict) : bool :=
  match d with
  | EmptyDict => false
  | FullDict _ => true
  end.

(** The helpers of [tinyman.utils] and [.contracts] that the decoder calls.
    Their code is not part of the sources at hand, so the decoder takes
    them as an argument. *)
Record Helpers : Type := mkHelpers
  { get_state_int : gmap string TealValue.t -> string -> Z;
    get_state_bytes : gmap string TealValue.t -> string -> string;
    bytes_to_int : string -> Z;
    get_pool_logicsig : Z -> Z -> Z -> LogicSigAccount.t }.

(** [{x["key"]: x["value"] for x in kvs}]: later entries win. *)
Definition state_of_key_values (kvs : list KeyValue.t) : gmap string TealValue.t :=
  fold_left (fun m x => <[KeyValue.key x := KeyValue.value x]> m) kvs ∅.

Definition get_pool_info_from_account_info
    (h : Helpers) (account_info : AccountInfo.t) : result InfoDict :=
  match AccountInfo.apps_local_state account_info with
  | [] => Ok EmptyDict                      (* except IndexError: return {} *)
  | app :: _ =>
    let validator_app_id := AppLocalState.id app in
    let validator_app_state := state_of_key_values (AppLocalState.key_value app) in
    let asset_1_id := get_state_int h validator_app_state "asset_1_id" in
    let asset_2_id := get_state_int h validator_app_state "asset_2_id" in
    let pool_logicsig := get_pool_logicsig h validator_app_id asset_1_id asset_2_id in
    let pool_address := LogicSigAccount.address pool_logicsig in
    if String.eqb (AccountInfo.address account_info) pool_address then
      Ok (FullDict
        {| Info.address := pool_address;
           Info.asset_1_id := asset_1_id;
           Info.asset_2_id := asset_2_id;
           Info.pool_token_asset_id :=
             Some (get_state_int h validator_app_state "pool_token_asset_id");
           Info.asset_1_reserves := get_state_int h validator_app_state "asset_1_reserves";
           Info.asset_2_reserves := get_state_int h validator_app_state "asset_2_reserves";
           Info.issued_pool_tokens := get_state_int h validator_app_state "issued_pool_tokens";
           Info.asset_1_protocol_fees :=
             get_state_int h validator_app_state "asset_1_protocol_fees";
           Info.asset_2_protocol_fees :=
             get_state_int h validator_app_state "asset_2_protocol_fees";
           Info.asset_1_cumulative_price :=
             bytes_to_int h (get_state_bytes h validator_app_state "asset_1_cumulative_price");
           Info.asset_2_cumulative_price :=
             bytes_to_int h (get_state_bytes h validator_app_state "asset_2_cumulative_price");
           Info.cumulative_price_update_timestamp :=
             get_state_int h validator_app_state "cumulative_price_update_timestamp";
           Info.total_fee_share := get_state_int h validator_app_state "total_fee_share";
           Info.protocol_fee_ratio := get_state_int h validator_app_state "protocol_fee_ratio";
           Info.validator_app_id := validator_app_id;
           Info.algo_balance := AccountInfo.amount account_info;
           Info.round := AccountInfo.round account_info |})
    else Raise (AssertionError None)        (* assert account_info["address"] == pool_address *)
  end.

(** [client.account_info(address)]: the ledger as the algod client shows it
    at the time of the call. *)
Definition Algod : Type := string -> AccountInfo.t.

Definition get_pool_info
    (h : Helpers) (client : Algod) (validator_app_id asset_1_id asset_2_id : Z)
    : result InfoDict :=
  let pool_logicsig := get_pool_logicsig h validator_app_id asset_1_id asset_2_id in
  let pool_address := LogicSigAccount.address pool_logicsig in
  let account_info := client pool_address in
  get_pool_info_from_account_info h account_info.

(** ** The formula library and the quote types *)

(** The five entry points of [tinyman/v2/formulas.py] that the controller
    calls, with the arguments in the order the call sites name them. The
    module is not part of the sources at hand, so the controller is
    parameterised by it; a formula either raises or returns its tuple.
    Prices and slippage are Python floats; they are only stored and passed
    on here, and are kept as rationals. *)
Record Formulas : Type := mkFormulas
  { (* asset_1_reserves, asset_2_reserves, issued_pool_tokens,
       total_fee_share, asset_1_amount, asset_2_amount *)
    calculate_subsequent_add_liquidity :
      Z -> Z -> Z -> Z -> Z -> Z -> ArithmeticError + (Z * bool * Z * Z * Z * Q);
    (* asset_1_amount, asset_2_amount *)
    calculate_initial_add_liquidity : Z -> Z -> ArithmeticError + Z;
    (* input_supply, output_supply, swap_input_amount, total_fee_share *)
    calculate_fixed_input_swap : Z -> Z -> Z -> Z -> ArithmeticError + (Z * Z * Q);
    (* pool_token_asset_amount, asset_1_reserves, asset_2_reserves,
       issued_pool_tokens *)
    calculate_remove_liquidity_output_amounts :
      Z -> Z -> Z -> Z -> ArithmeticError + (Z * Z);
    (* input_supply, output_supply, swap_output_amount, total_fee_share *)
    calculate_fixed_output_swap : Z -> Z -> Z -> Z -> ArithmeticError + (Z * Z * Q) }.

Inductive FormulaName : Type :=
| SubsequentAdd
| InitialAdd
| FixedInputSwap
| RemoveOutputs
| FixedOutputSwap.

Module InternalSwapQuote.
Record t : Type := mk
  { amount_in : AssetAmount.t;
    amount_out : AssetAmount.t;
    swap_fees : AssetAmount.t;
    price_impact : Q }.
End InternalSwapQuote.

Module FlexibleAddLiquidityQuote.
(** [amounts_in] is a dictionary keyed by asset, that is by asset id. *)
Record t : Type := mk
  { amounts_in : gmap Z AssetAmount.t;
    pool_token_asset_amount : AssetAmount.t;
    slippage : Q;
    internal_swap_quote : InternalSwapQuote.t }.
End FlexibleAddLiquidityQuote.

Module SingleAssetAddLiquidityQuote.
Record t : Type := mk
  { amount_in : AssetAmount.t;
    pool_token_asset_amount : AssetAmount.t;
    slippage : Q;
    internal_swap_quote : InternalSwapQuote.t }.
End SingleAssetAddLiquidityQuote.

Module InitialAddLiquidityQuote.
Record t : Type := mk
  { amounts_in : gmap Z AssetAmount.t;
    pool_token_asset_amount : AssetAmount.t }.
End InitialAddLiquidityQuote.

Module RemoveLiquidityQuote.
Record t : Type := mk
  { amounts_out : gmap Z AssetAmount.t;
    pool_token_asset_amount : AssetAmount.t;
    slippage : Q }.
End RemoveLiquidityQuote.

Module SingleAssetRemoveLiquidityQuote.
Record t : Type := mk
  { amount_out : AssetAmount.t;
    pool_token_asset_amount : AssetAmount.t;
    slippage : Q;
    internal_swap_quote : InternalSwapQuote.t }.
End SingleAssetRemoveLiquidityQuote.

Module SwapQuote.
Record t : Type := mk
  { swap_type : string;
    amount_in : AssetAmount.t;
    amount_out : AssetAmount.t;
    swap_fees : AssetAmount.t;
    slippage : Q;
    price_impact : Q }.
End SwapQuote.

(** The dictionary literal [{k1: v1, k2: v2}] over assets. *)
Definition asset_dict (k1 : Asset.t) (v1 : AssetAmount.t)
    (k2 : Asset.t) (v2 : AssetAmount.t) : gmap Z AssetAmount.t :=
  <[Asset.id k2 := v2]> (<[Asset.id k1 := v1]> ∅).

(** The set literal [{a, b}] over assets. *)
Definition asset_set (a b : Asset.t) : gset Z :=
  {[Asset.id a]} ∪ {[Asset.id b]}.

(** ** The pool object *)

Module Client.
(** The attributes of [TinymanV2Client] that the pool uses. The asset
    registry is taken as a total lookup: its network failures are outside
    the controller. *)
Record t : Type := mk
  { algod : Algod;
    validator_app_id : Z;
    fetch_asset : option Z -> Asset.t;
    user_address : option string }.
End Client.

Module Pool.
(** The attributes [Pool.__init__] creates. [exists] is a keyword here,
    hence [exists_]. *)
Record t : Type := mk
  { client : Client.t;
    validator_app_id : Z;
    asset_1 : Asset.t;
    asset_2 : Asset.t;
    exists_ : option bool;
    pool_token_asset : option Asset.t;
    asset_1_reserves : option Z;
    asset_2_reserves : option Z;
    issued_pool_tokens : option Z;
    asset_1_protocol_fees : option Z;
    asset_2_protocol_fees : option Z;
    total_fee_share : option Z;
    protocol_fee_ratio : option Z;
    last_refreshed_round : option Z;
    algo_balance : option Z }.
End Pool.

(** ** The monad of the methods *)

(** The steps of a method that the temporal properties speak about: the
    refresh, the tests of the state attributes [exists] and
    [issued_pool_tokens], and the calls of the formulas. The assertion on
    the asset pair of the arguments reads no snapshot attribute and is not
    a step. *)
Inductive Event : Type :=
| EvRefresh                       (* a call of [self.refresh()] *)
| EvCheckExists                   (* [self.exists] is tested *)
| EvCheckLiquidity                (* [self.issued_pool_tokens] is tested *)
| EvFormula (f : FormulaName).    (* a formula is called *)

Record World : Type := mkWorld
  { self : Pool.t;
    trace : list Event }.

Definition M (A : Type) : Type := World -> result A * World.

Definition ret {A} (a : A) : M A := fun w => (Ok a, w).

Definition bind {A B} (m : M A) (k : A -> M B) : M B :=
  fun w =>
    match m w with
    | (inr a, w') => k a w'
    | (inl e, w') => (inl e, w')
    end.

Definition raise {A} (e : exn) : M A := fun w => (Raise e, w).

Definition lift {A} (r : result A) : M A := fun w => (r, w).

Definition get_self : M Pool.t := fun w => (Ok (self w), w).

Definition set_self (p : Pool.t) : M unit :=
  fun w => (Ok tt, {| self := p; trace := trace w |}).

Definition log (e : Event) : M unit :=
  fun w => (Ok tt, {| self := self w; trace := trace w ++ [e] |}).

Notation "'let!' x ':=' m 'in' k" := (bind m (fun x => k))
  (at level 10, x pattern, m at level 100, k at level 200).

(** Exceptions without state, for the pure parts of a method. *)
Definition rbind {A B} (r : result A) (k : A -> result B) : result B :=
  match r with
  | inr a => k a
  | inl e => inl e
  end.

Definition of_formula {A} (r : ArithmeticError + A) : result A :=
  match r with
  | inr a => Ok a
  | inl e => Raise (FormulaError e)
  end.

(** A call of a formula: the call is logged, then the formula runs on its
    arguments. An argument read from an attribute that is still [None]
    makes the formula's arithmetic raise [TypeError]. *)
Definition call {A} (f : FormulaName) (r : result A) : M A :=
  let! _ := log (EvFormula f) in
  lift r.

Definition args4 {A} (f : Z -> Z -> Z -> Z -> ArithmeticError + A)
    (a b c d : option Z) : result A :=
  rbind (as_int a) (fun a =>
  rbind (as_int b) (fun b =>
  rbind (as_int c) (fun c =>
  rbind (as_int d) (fun d =>
  of_formula (f a b c d))))).

Definition args6 {A} (f : Z -> Z -> Z -> Z -> Z -> Z -> ArithmeticError + A)
    (a b c d : option Z) (x y : Z) : result A :=
  rbind (as_int a) (fun a =>
  rbind (as_int b) (fun b =>
  rbind (as_int c) (fun c =>
  rbind (as_int d) (fun d =>
  of_formula (f a b c d x y))))).

(** The pool object seen through a client whose ledger is [algod]. *)
Definition with_ledger (algod : Algod) (w : World) : World :=
  let p := self w in
  let c := Pool.client p in
  {| self :=
       {| Pool.client :=
            {| Client.algod := algod;
               Client.validator_app_id := Client.validator_app_id c;
               Client.fetch_asset := Client.fetch_asset c;
               Client.user_address := Client.user_address c |};
          Pool.validator_app_id := Pool.validator_app_id p;
          Pool.asset_1 := Pool.asset_1 p;
          Pool.asset_2 := Pool.asset_2 p;
          Pool.exists_ := Pool.exists_ p;
          Pool.pool_token_asset := Pool.pool_token_asset p;
          Pool.asset_1_reserves := Pool.asset_1_reserves p;
          Pool.asset_2_reserves := Pool.asset_2_reserves p;
          Pool.issued_pool_tokens := Pool.issued_pool_tokens p;
          Pool.asset_1_protocol_fees := Pool.asset_1_protocol_fees p;
          Pool.asset_2_protocol_fees := Pool.asset_2_protocol_fees p;
          Pool.total_fee_share := Pool.total_fee_share p;
          Pool.protocol_fee_ratio := Pool.protocol_fee_ratio p;
          Pool.last_refreshed_round := Pool.last_refreshed_round p;
          Pool.algo_balance := Pool.algo_balance p |};
     trace := trace w |}.

(** ** [class Pool] *)

Section Controller.

Context (h : Helpers) (F : Formulas).

(** The assignments of [update_from_info] on an info dictionary that has
    its keys. *)
Definition updated (p : Pool.t) (i : Info.t) : Pool.t :=
  {| Pool.client := Pool.client p;
     Pool.validator_app_id := Pool.validator_app_id p;
     Pool.asset_1 := Pool.asset_1 p;
     Pool.asset_2 := Pool.asset_2 p;
     Pool.exists_ :=
       match Info.pool_token_asset_id i with
       | Some _ => Some true          (* if info[..] is not None: self.exists = True *)
       | None => Pool.exists_ p
       end;
     Pool.pool_token_asset :=
       Some (Client.fetch_asset (Pool.client p) (Info.pool_token_asset_id i));
     Pool.asset_1_reserves := Some (Info.asset_1_reserves i);
     Pool.asset_2_reserves := Some (Info.asset_2_reserves i);
     Pool.issued_pool_tokens := Some (Info.issued_pool_tokens i);
     Pool.asset_1_protocol_fees := Some (Info.asset_1_protocol_fees i);
     Pool.asset_2_protocol_fees := Some (Info.asset_2_protocol_fees i);
     Pool.total_fee_share := Some (Info.total_fee_share i);
     Pool.protocol_fee_ratio := Some (Info.protocol_fee_ratio i);
     Pool.last_refreshed_round := Some (Info.round i);
     Pool.algo_balance := Some (Info.algo_balance i) |}.

Definition update_from_info (info : InfoDict) : M unit :=
  match info with
  | EmptyDict => raise (KeyError "pool_token_asset_id")
  | FullDict i =>
    let! p := get_self in
    set_self (updated p i)
  end.

(** The snapshot source as the pool [p] reads it in [refresh]. *)
Definition snapshot_source (p : Pool.t) : result InfoDict :=
  get_pool_info h (Client.algod (Pool.client p)) (Pool.validator_app_id p)
    (Asset.id (Pool.asset_1 p)) (Asset.id (Pool.asset_2 p)).

Definition refresh (info : option InfoDict) : M unit :=
  let! _ := log EvRefresh in
  match info with
  | None =>
    let! p := get_self in
    let! info := lift (snapshot_source p) in
    if truthy_dict info then update_from_info info
    else ret tt                                   (* if not info: return *)
  | Some info => update_from_info info
  end.

(** An argument of the constructor is an [Asset] or an asset id. *)
Inductive AssetArg : Type :=
| ByAsset (a : Asset.t)
| ById (i : Z).

Definition resolve_asset (client : Client.t) (a : AssetArg) : Asset.t :=
  match a with
  | ByAsset a => a
  | ById i => Client.fetch_asset client (Some i)
  end.

(** The assignments of [Pool.__init__], up to the first refresh. *)
Definition Pool_attributes (client : Client.t) (asset_a asset_b : AssetArg)
    (validator_app_id : option Z) : Pool.t :=
  let asset_a := resolve_asset client asset_a in
  let asset_b := resolve_asset client asset_b in
  let ordered := Z.gtb (Asset.id asset_a) (Asset.id asset_b) in
  {| Pool.client := client;
     Pool.validator_app_id :=
       match validator_app_id with
       | Some v => v
       | None => Client.validator_app_id client
       end;
     Pool.asset_1 := if ordered then asset_a else asset_b;
     Pool.asset_2 := if ordered then asset_b else asset_a;
     Pool.exists_ := None;
     Pool.pool_token_asset := None;
     Pool.asset_1_reserves := None;
     Pool.asset_2_reserves := None;
     Pool.issued_pool_tokens := None;
     Pool.asset_1_protocol_fees := None;
     Pool.asset_2_protocol_fees := None;
     Pool.total_fee_share := None;
     Pool.protocol_fee_ratio := None;
     Pool.last_refreshed_round := None;
     Pool.algo_balance := None |}.

(** [Pool(client, asset_a, asset_b, info, fetch, validator_app_id)]: the
    outcome of the constructor and the object it leaves. *)
Definition Pool_init (client : Client.t) (asset_a asset_b : AssetArg)
    (info : option InfoDict) (fetch : bool) (validator_app_id : option Z)
    : result unit * World :=
  (if fetch then refresh None
   else match info with
        | Some info => update_from_info info
        | None => ret tt
        end)
    {| self := Pool_attributes client asset_a asset_b validator_app_id;
       trace := [] |}.

(** [if not self.exists: raise BootstrapIsRequired()] *)
Definition require_exists : M unit :=
  let! _ := log EvCheckExists in
  let! p := get_self in
  if negb (truthy_flag (Pool.exists_ p)) then raise BootstrapIsRequired
  else ret tt.

(** [if not self.issued_pool_tokens: raise PoolHasNoLiquidity()] *)
Definition require_liquidity : M unit :=
  let! _ := log EvCheckLiquidity in
  let! p := get_self in
  if negb (truthy_int (Pool.issued_pool_tokens p)) then raise PoolHasNoLiquidity
  else ret tt.

(** [if self.issued_pool_tokens: raise PoolAlreadyHasLiquidity()] *)
Definition require_no_liquidity : M unit :=
  let! _ := log EvCheckLiquidity in
  let! p := get_self in
  if truthy_int (Pool.issued_pool_tokens p) then raise PoolAlreadyHasLiquidity
  else ret tt.

(** [AssetAmount(self.pool_token_asset, n)]. The attribute is set by every
    [update_from_info] on a full dictionary; the code builds the amount
    also over a pool token that is still [None], which is outside the value
    types here and is made an error. *)
Definition pool_token_amount (n : Z) : M AssetAmount.t :=
  let! p := get_self in
  match Pool.pool_token_asset p with
  | Some t => ret (AssetAmount.mk t n)
  | None => raise TypeError
  end.

(** The [InternalSwapQuote] both add-liquidity quotes build from the
    outputs of [calculate_subsequent_add_liquidity]. *)
Definition internal_swap_quote_of_add (p : Pool.t)
    (swap_from_asset_1_to_asset_2 : bool)
    (swap_in_amount swap_out_amount swap_total_fee_amount : Z)
    (swap_price_impact : Q) : InternalSwapQuote.t :=
  {| InternalSwapQuote.amount_in :=
       AssetAmount.mk
         (if swap_from_asset_1_to_asset_2 then Pool.asset_1 p else Pool.asset_2 p)
         swap_in_amount;
     InternalSwapQuote.amount_out :=
       AssetAmount.mk
         (if swap_from_asset_1_to_asset_2 then Pool.asset_2 p else Pool.asset_1 p)
         swap_out_amount;
     InternalSwapQuote.swap_fees :=
       AssetAmount.mk
         (if swap_from_asset_1_to_asset_2 then Pool.asset_1 p else Pool.asset_2 p)
         swap_total_fee_amount;             (* int(swap_total_fee_amount) *)
     InternalSwapQuote.price_impact := swap_price_impact |}.

Definition fetch_flexible_add_liquidity_quote
    (amount_a amount_b : AssetAmount.t) (slippage : Q)
    : M FlexibleAddLiquidityQuote.t :=
  let! p := get_self in
  if bool_decide (asset_set (Pool.asset_1 p) (Pool.asset_2 p)
                  = asset_set (AssetAmount.asset amount_a) (AssetAmount.asset amount_b))
  then
    let amount_1 :=
      if Asset.eqb (AssetAmount.asset amount_a) (Pool.asset_1 p)
      then amount_a else amount_b in
    let amount_2 :=
      if Asset.eqb (AssetAmount.asset amount_a) (Pool.asset_2 p)
      then amount_a else amount_b in
    let! _ := refresh None in
    let! _ := require_exists in
    let! _ := require_liquidity in
    let! p := get_self in
    let! (pool_token_asset_amount, swap_from_asset_1_to_asset_2, swap_in_amount,
           swap_out_amount, swap_total_fee_amount, swap_price_impact) :=
      call SubsequentAdd
        (args6 (calculate_subsequent_add_liquidity F)
           (Pool.asset_1_reserves p) (Pool.asset_2_reserves p)
           (Pool.issued_pool_tokens p) (Pool.total_fee_share p)
           (AssetAmount.amount amount_1) (AssetAmount.amount amount_2)) in
    let internal_swap_quote :=
      internal_swap_quote_of_add p swap_from_asset_1_to_asset_2 swap_in_amount
        swap_out_amount swap_total_fee_amount swap_price_impact in
    let! minted := pool_token_amount pool_token_asset_amount in
    ret {| FlexibleAddLiquidityQuote.amounts_in :=
             asset_dict (Pool.asset_1 p) amount_1 (Pool.asset_2 p) amount_2;
           FlexibleAddLiquidityQuote.pool_token_asset_amount := minted;
           FlexibleAddLiquidityQuote.slippage := slippage;
           FlexibleAddLiquidityQuote.internal_swap_quote := internal_swap_quote |}
  else raise (AssertionError (Some "Pool assets and given assets don't match.")).

Definition fetch_single_asset_add_liquidity_quote
    (amount_a : AssetAmount.t) (slippage : Q)
    : M SingleAssetAddLiquidityQuote.t :=
  let! _ := refresh None in
  let! _ := require_exists in
  let! _ := require_liquidity in
  let! p := get_self in
  let! (pool_token_asset_amount, swap_from_asset_1_to_asset_2, swap_in_amount,
         swap_out_amount, swap_total_fee_amount, swap_price_impact) :=
    if Asset.eqb (AssetAmount.asset amount_a) (Pool.asset_1 p) then
      call SubsequentAdd
        (args6 (calculate_subsequent_add_liquidity F)
           (Pool.asset_1_reserves p) (Pool.asset_2_reserves p)
           (Pool.issued_pool_tokens p) (Pool.total_fee_share p)
           (AssetAmount.amount amount_a) 0)
    else if Asset.eqb (AssetAmount.asset amount_a) (Pool.asset_2 p) then
      call SubsequentAdd
        (args6 (calculate_subsequent_add_liquidity F)
           (Pool.asset_1_reserves p) (Pool.asset_2_reserves p)
           (Pool.issued_pool_tokens p) (Pool.total_fee_share p)
           0 (AssetAmount.amount amount_a))
    else
      raise (AssertionError (Some "Given asset doesn't belong to the pool assets.")) in
  let internal_swap_quote :=
    internal_swap_quote_of_add p swap_from_asset_1_to_asset_2 swap_in_amount
      swap_out_amount swap_total_fee_amount swap_price_impact in
  let! minted := pool_token_amount pool_token_asset_amount in
  ret {| SingleAssetAddLiquidityQuote.amount_in := amount_a;
         SingleAssetAddLiquidityQuote.pool_token_asset_amount := minted;
         SingleAssetAddLiquidityQuote.slippage := slippage;
         SingleAssetAddLiquidityQuote.internal_swap_quote := internal_swap_quote |}.

Definition fetch_initial_add_liquidity_quote
    (amount_a amount_b : AssetAmount.t) : M InitialAddLiquidityQuote.t :=
  let! p := get_self in
  if bool_decide (asset_set (Pool.asset_1 p) (Pool.asset_2 p)
                  = asset_set (AssetAmount.asset amount_a) (AssetAmount.asset amount_b))
  then
    let amount_1 :=
      if Asset.eqb (AssetAmount.asset amount_a) (Pool.asset_1 p)
      then amount_a else amount_b in
    let amount_2 :=
      if Asset.eqb (AssetAmount.asset amount_a) (Pool.asset_2 p)
      then amount_a else amount_b in
    let! _ := refresh None in
    let! _ := require_exists in
    let! _ := require_no_liquidity in
    let! p := get_self in
    let! pool_token_asset_amount :=
      call InitialAdd
        (of_formula (calculate_initial_add_liquidity F
                       (AssetAmount.amount amount_1) (AssetAmount.amount amount_2))) in
    let! minted := pool_token_amount pool_token_asset_amount in
    ret {| InitialAddLiquidityQuote.amounts_in :=
             asset_dict (Pool.asset_1 p) amount_1 (Pool.asset_2 p) amount_2;
           InitialAddLiquidityQuote.pool_token_asset_amount := minted |}
  else raise (AssertionError (Some "Pool assets and given assets don't match.")).

(** [pool_token_asset_in] is an [AssetAmount] or an [int]. *)
Definition as_pool_token_amount (pool_token_asset_in : AssetAmount.t + Z)
    : M AssetAmount.t :=
  match pool_token_asset_in with
  | inl a => ret a
  | inr n => pool_token_amount n          (* isinstance(pool_token_asset_in, int) *)
  end.

Definition fetch_remove_liquidity_quote
    (pool_token_asset_in : AssetAmount.t + Z) (slippage : Q)
    : M RemoveLiquidityQuote.t :=
  let! _ := require_exists in
  let! pool_token_asset_in := as_pool_token_amount pool_token_asset_in in
  let! _ := refresh None in
  let! p := get_self in
  let! (asset_1_output_amount, asset_2_output_amount) :=
    call RemoveOutputs
      (args4 (calculate_remove_liquidity_output_amounts F)
         (Some (AssetAmount.amount pool_token_asset_in))
         (Pool.asset_1_reserves p) (Pool.asset_2_reserves p)
         (Pool.issued_pool_tokens p)) in
  ret {| RemoveLiquidityQuote.amounts_out :=
           asset_dict
             (Pool.asset_1 p) (AssetAmount.mk (Pool.asset_1 p) asset_1_output_amount)
             (Pool.asset_2 p) (AssetAmount.mk (Pool.asset_2 p) asset_2_output_amount);
         RemoveLiquidityQuote.pool_token_asset_amount := pool_token_asset_in;
         RemoveLiquidityQuote.slippage := slippage |}.

Definition fetch_single_asset_remove_liquidity_quote
    (pool_token_asset_in : AssetAmount.t + Z) (output_asset : Asset.t) (slippage : Q)
    : M SingleAssetRemoveLiquidityQuote.t :=
  let! _ := require_exists in
  let! pool_token_asset_in := as_pool_token_amount pool_token_asset_in in
  let! _ := refresh None in
  let! p := get_self in
  let! (asset_1_output_amount, asset_2_output_amount) :=
    call RemoveOutputs
      (args4 (calculate_remove_liquidity_output_amounts F)
         (Some (AssetAmount.amount pool_token_asset_in))
         (Pool.asset_1_reserves p) (Pool.asset_2_reserves p)
         (Pool.issued_pool_tokens p)) in
  if Asset.eqb output_asset (Pool.asset_1 p) then
    let! asset_1_reserves := lift (as_int (Pool.asset_1_reserves p)) in
    let! asset_2_reserves := lift (as_int (Pool.asset_2_reserves p)) in
    let! (swap_output_amount, total_fee_amount, price_impact) :=
      call FixedInputSwap
        (args4 (calculate_fixed_input_swap F)
           (Some (asset_2_reserves - asset_2_output_amount))
           (Some (asset_1_reserves - asset_1_output_amount))
           (Some asset_2_output_amount)
           (Pool.total_fee_share p)) in
    let internal_swap_quote :=
      {| InternalSwapQuote.amount_in :=
           AssetAmount.mk (Pool.asset_2 p) asset_2_output_amount;
         InternalSwapQuote.amount_out :=
           AssetAmount.mk (Pool.asset_1 p) swap_output_amount;
         InternalSwapQuote.swap_fees :=
           AssetAmount.mk (Pool.asset_2 p) total_fee_amount;
         InternalSwapQuote.price_impact := price_impact |} in
    ret {| SingleAssetRemoveLiquidityQuote.amount_out :=
             AssetAmount.mk (Pool.asset_1 p)
               (asset_1_output_amount + swap_output_amount);
           SingleAssetRemoveLiquidityQuote.pool_token_asset_amount :=
             pool_token_asset_in;
           SingleAssetRemoveLiquidityQuote.slippage := slippage;
           SingleAssetRemoveLiquidityQuote.internal_swap_quote :=
             internal_swap_quote |}
  else if Asset.eqb output_asset (Pool.asset_2 p) then
    let! asset_1_reserves := lift (as_int (Pool.asset_1_reserves p)) in
    let! asset_2_reserves := lift (as_int (Pool.asset_2_reserves p)) in
    let! (swap_output_amount, total_fee_amount, price_impact) :=
      call FixedInputSwap
        (args4 (calculate_fixed_input_swap F)
           (Some (asset_1_reserves - asset_1_output_amount))
           (Some (asset_2_reserves - asset_2_output_amount))
           (Some asset_1_output_amount)
           (Pool.total_fee_share p)) in
    let internal_swap_quote :=
      {| InternalSwapQuote.amount_in :=
           AssetAmount.mk (Pool.asset_1 p) asset_1_output_amount;
         InternalSwapQuote.amount_out :=
           AssetAmount.mk (Pool.asset_2 p) swap_output_amount;
         InternalSwapQuote.swap_fees :=
           AssetAmount.mk (Pool.asset_1 p) total_fee_amount;
         InternalSwapQuote.price_impact := price_impact |} in
    ret {| SingleAssetRemoveLiquidityQuote.amount_out :=
             AssetAmount.mk (Pool.asset_2 p)
               (asset_2_output_amount + swap_output_amount);
           SingleAssetRemoveLiquidityQuote.pool_token_asset_amount :=
             pool_token_asset_in;
           SingleAssetRemoveLiquidityQuote.slippage := slippage;
           SingleAssetRemoveLiquidityQuote.internal_swap_quote :=
             internal_swap_quote |}
  else raise (AssertionError None).                       (* assert False *)

Definition fetch_fixed_input_swap_quote
    (amount_in : AssetAmount.t) (slippage : Q) : M SwapQuote.t :=
  let! _ := refresh None in
  let! _ := require_exists in
  let! _ := require_liquidity in
  let! p := get_self in
  let! (asset_out, input_supply, output_supply) :=
    if Asset.eqb (AssetAmount.asset amount_in) (Pool.asset_1 p) then
      ret (Pool.asset_2 p, Pool.asset_1_reserves p, Pool.asset_2_reserves p)
    else if Asset.eqb (AssetAmount.asset amount_in) (Pool.asset_1 p) then
      ret (Pool.asset_1 p, Pool.asset_2_reserves p, Pool.asset_1_reserves p)
    else raise TypeError in                               (* raise False *)
  let! (swap_output_amount, total_fee_amount, price_impact) :=
    call FixedInputSwap
      (args4 (calculate_fixed_input_swap F)
         input_supply output_supply
         (Some (AssetAmount.amount amount_in))
         (Pool.total_fee_share p)) in
  let amount_out := AssetAmount.mk asset_out swap_output_amount in
  ret {| SwapQuote.swap_type := "fixed-input";
         SwapQuote.amount_in := amount_in;
         SwapQuote.amount_out := amount_out;
         SwapQuote.swap_fees :=
           AssetAmount.mk (AssetAmount.asset amount_in) total_fee_amount;
         SwapQuote.slippage := slippage;
         SwapQuote.price_impact := price_impact |}.

Definition fetch_fixed_output_swap_quote
    (amount_out : AssetAmount.t) (slippage : Q) : M SwapQuote.t :=
  let! _ := refresh None in
  let! _ := require_exists in
  let! _ := require_liquidity in
  let! p := get_self in
  let! (asset_in, input_supply, output_supply) :=
    if Asset.eqb (AssetAmount.asset amount_out) (Pool.asset_1 p) then
      ret (Pool.asset_2 p, Pool.asset_2_reserves p, Pool.asset_1_reserves p)
    else if Asset.eqb (AssetAmount.asset amount_out) (Pool.asset_2 p) then
      ret (Pool.asset_1 p, Pool.asset_1_reserves p, Pool.asset_2_reserves p)
    else raise (AssertionError None) in                   (* assert False *)
  let! (swap_input_amount, total_fee_amount, price_impact) :=
    call FixedOutputSwap
      (args4 (calculate_fixed_output_swap F)
         input_supply output_supply
         (Some (AssetAmount.amount amount_out))
         (Pool.total_fee_share p)) in
  let amount_in := AssetAmount.mk asset_in swap_input_amount in
  ret {| SwapQuote.swap_type := "fixed-output";
         SwapQuote.amount_in := amount_in;
         SwapQuote.amount_out := amount_out;
         SwapQuote.swap_fees :=
           AssetAmount.mk (AssetAmount.asset amount_in) total_fee_amount;
         SwapQuote.slippage := slippage;
         SwapQuote.price_impact := price_impact |}.

(** ** Runs of the controller *)

(** The public operations on a pool object that the properties range over. *)
Inductive Operation : Type :=
| OpRefresh (info : option InfoDict)
| OpUpdateFromInfo (info : InfoDict)
| OpFlexibleAdd (amount_a amount_b : AssetAmount.t) (slippage : Q)
| OpSingleAssetAdd (amount_a : AssetAmount.t) (slippage : Q)
| OpInitialAdd (amount_a amount_b : AssetAmount.t)
| OpRemove (pool_token_asset_in : AssetAmount.t + Z) (slippage : Q)
| OpSingleAssetRemove (pool_token_asset_in : AssetAmount.t + Z)
    (output_asset : Asset.t) (slippage : Q)
| OpFixedInputSwap (amount_in : AssetAmount.t) (slippage : Q)
| OpFixedOutputSwap (amount_out : AssetAmount.t) (slippage : Q).

Definition discard {A} (m : M A) : M unit :=
  let! _ := m in ret tt.

Definition perform (op : Operation) : M unit :=
  match op with
  | OpRefresh info => refresh info
  | OpUpdateFromInfo info => update_from_info info
  | OpFlexibleAdd a b s => discard (fetch_flexible_add_liquidity_quote a b s)
  | OpSingleAssetAdd a s => discard (fetch_single_asset_add_liquidity_quote a s)
  | OpInitialAdd a b => discard (fetch_initial_add_liquidity_quote a b)
  | OpRemove x s => discard (fetch_remove_liquidity_quote x s)
  | OpSingleAssetRemove x o s =>
    discard (fetch_single_asset_remove_liquidity_quote x o s)
  | OpFixedInputSwap a s => discard (fetch_fixed_input_swap_quote a s)
  | OpFixedOutputSwap a s => discard (fetch_fixed_output_swap_quote a s)
  end.

(** Between two calls the ledger may move on: the algod client of the pool
    then answers with the new account information. *)
Inductive Step : Type :=
| Call (op : Operation)
| LedgerMoves (algod : Algod).

Definition step (s : Step) (w : World) : World :=
  match s with
  | Call op => snd (perform op w)      (* an exception leaves the object as it is *)
  | LedgerMoves algod => with_ledger algod w
  end.

Definition run (steps : list Step) (w : World) : World :=
  fold_left (fun w s => step s w) steps w.

End Controller.

(** ** Slippage bounds ([tinyman/v2/quotes.py]) and the swap preparer *)

(** Modelled from the spec: the quote properties [*_with_slippage] live in
    [tinyman/v2/quotes.py], which is not part of the sources at hand.
    Section 4.3: "for any amount the participant must pay ... the protected
    bound is ceil(raw * (1+s))"; "for any amount the participant receives
    ... the protected bound is floor(raw * (1-s))". The tolerance [s] is a
    rational here. *)
Definition pay_bound (raw : Z) (s : Q) : Z :=
  Qceiling (inject_Z raw * (1 + s)).

Definition receive_bound (raw : Z) (s : Q) : Z :=
  Qfloor (inject_Z raw * (1 - s)).

(** Modelled from the spec: the bound check of section 8, "an external
    execution yielding 950 must be accepted by the bound check, and one
    yielding 949 must be rejected": what is received must reach the lower
    bound, what is paid must stay within the upper bound. *)
Definition receive_check (bound actual : Z) : bool := Z.leb bound actual.

Definition pay_check (bound actual : Z) : bool := Z.leb actual bound.

Definition with_pay_bound (a : AssetAmount.t) (s : Q) : AssetAmount.t :=
  AssetAmount.mk (AssetAmount.asset a) (pay_bound (AssetAmount.amount a) s).

Definition with_receive_bound (a : AssetAmount.t) (s : Q) : AssetAmount.t :=
  AssetAmount.mk (AssetAmount.asset a) (receive_bound (AssetAmount.amount a) s).

(** Modelled from the spec: the protected amounts of the quotes, one for
    each [*_with_slippage] property that [pools.py] reads: the swap input is
    paid; the swap output, the minted pool tokens and the withdrawals are
    received. [pools.py] reads no protected amount for the deposits of the
    add-liquidity quotes. *)
Definition swap_amount_in_with_slippage (q : SwapQuote.t) : AssetAmount.t :=
  with_pay_bound (SwapQuote.amount_in q) (SwapQuote.slippage q).

Definition swap_amount_out_with_slippage (q : SwapQuote.t) : AssetAmount.t :=
  with_receive_bound (SwapQuote.amount_out q) (SwapQuote.slippage q).

Definition flexible_min_pool_token_asset_amount_with_slippage
    (q : FlexibleAddLiquidityQuote.t) : Z :=
  receive_bound
    (AssetAmount.amount (FlexibleAddLiquidityQuote.pool_token_asset_amount q))
    (FlexibleAddLiquidityQuote.slippage q).

Definition single_min_pool_token_asset_amount_with_slippage
    (q : SingleAssetAddLiquidityQuote.t) : Z :=
  receive_bound
    (AssetAmount.amount (SingleAssetAddLiquidityQuote.pool_token_asset_amount q))
    (SingleAssetAddLiquidityQuote.slippage q).

Definition remove_amounts_out_with_slippage
    (q : RemoveLiquidityQuote.t) : gmap Z AssetAmount.t :=
  (fun a => with_receive_bound a (RemoveLiquidityQuote.slippage q))
    <$> RemoveLiquidityQuote.amounts_out q.

Definition single_remove_amount_out_with_slippage
    (q : SingleAssetRemoveLiquidityQuote.t) : AssetAmount.t :=
  with_receive_bound (SingleAssetRemoveLiquidityQuote.amount_out q)
    (SingleAssetRemoveLiquidityQuote.slippage q).

Module SwapTransactions.
(** What [Pool.prepare_swap_transactions] hands to the transaction preparer
    of [.swap] (the suggested parameters of the network are left out). *)
Record t : Type := mk
  { validator_app_id : Z;
    asset_1_id : Z;
    asset_2_id : Z;
    asset_in_id : Z;
    asset_in_amount : Z;
    asset_out_amount : Z;
    swap_type : string;
    sender : option string }.
End SwapTransactions.

(** [x or y] on optional addresses: an empty string is falsy too. *)
Definition or_else (x y : option string) : option string :=
  match x with
  | Some EmptyString | None => y
  | Some _ => x
  end.

Definition prepare_swap_transactions (p : Pool.t)
    (amount_in amount_out : AssetAmount.t) (swap_type : string)
    (swapper_address : option string) : SwapTransactions.t :=
  let swapper_address := or_else swapper_address (Client.user_address (Pool.client p)) in
  {| SwapTransactions.validator_app_id := Pool.validator_app_id p;
     SwapTransactions.asset_1_id := Asset.id (Pool.asset_1 p);
     SwapTransactions.asset_2_id := Asset.id (Pool.asset_2 p);
     SwapTransactions.asset_in_id := Asset.id (AssetAmount.asset amount_in);
     SwapTransactions.asset_in_amount := AssetAmount.amount amount_in;
     SwapTransactions.asset_out_amount := AssetAmount.amount amount_out;
     SwapTransactions.swap_type := swap_type;
     SwapTransactions.sender := swapper_address |}.

Definition prepare_swap_transactions_from_quote (p : Pool.t)
    (quote : SwapQuote.t) (swapper_address : option string) : SwapTransactions.t :=
  prepare_swap_transactions p
    (swap_amount_in_with_slippage quote)
    (swap_amount_out_with_slippage quote)
    (SwapQuote.swap_type quote)
    swapper_address.

(** ** A formula library after the spec, and a sample ledger *)

Module SpecFormulas.

(** Modelled from the spec: the fee denominator. Section 8 takes
    "total_fee_share = 3 (0.3%)", a rate in parts per thousand. *)
Definition FEE_DENOMINATOR : Z := 1000.

(** Floor division that raises on a zero divisor, as Python's [//]. *)
Definition floordiv (a b : Z) : ArithmeticError + Z :=
  if Z.eqb b 0 then inl DivisionByZero else inr (a / b).

(** Ceiling division, for amounts owed to the pool. *)
Definition ceildiv (a b : Z) : ArithmeticError + Z :=
  if Z.eqb b 0 then inl DivisionByZero else inr (- ((- a) / b)).

(** Modelled from the spec: "Proportional remove ... out_i =
    floor(reserves_i * burn_amount / issued_tokens); no fee." *)
Definition calculate_remove_liquidity_output_amounts
    (pool_token_asset_amount asset_1_reserves asset_2_reserves issued_pool_tokens : Z)
    : ArithmeticError + (Z * Z) :=
  match floordiv (asset_1_reserves * pool_token_asset_amount) issued_pool_tokens,
        floordiv (asset_2_reserves * pool_token_asset_amount) issued_pool_tokens with
  | inr out_1, inr out_2 => inr (out_1, out_2)
  | inl e, _ | _, inl e => inl e
  end.

(** Modelled from the spec: the price impact of a trade, "the fractional
    deviation between the executed average price (output/input) and the
    pre-trade spot price (output_supply/input_supply)". *)
Definition price_impact_of (input_supply output_supply input output : Z) : Q :=
  let spot := (inject_Z output_supply / inject_Z input_supply)%Q in
  let executed := (inject_Z output / inject_Z input)%Q in
  ((spot - executed) / spot)%Q.

(** Modelled from the spec: "Fixed-input swap ... deduct the fee from the
    input first (input_after_fee = input_amount - fee(input_amount)), then
    ... output = floor(output_supply * input_after_fee / (input_supply +
    input_after_fee))", the fee being the floor-rounded share of the
    input. *)
Definition calculate_fixed_input_swap
    (input_supply output_supply swap_input_amount total_fee_share : Z)
    : ArithmeticError + (Z * Z * Q) :=
  let total_fee_amount := swap_input_amount * total_fee_share / FEE_DENOMINATOR in
  let input_after_fee := swap_input_amount - total_fee_amount in
  match floordiv (output_supply * input_after_fee) (input_supply + input_after_fee) with
  | inr swap_output_amount =>
    inr (swap_output_amount, total_fee_amount,
         price_impact_of input_supply output_supply swap_input_amount swap_output_amount)
  | inl e => inl e
  end.

(** Modelled from the spec: "Fixed-output swap ... required =
    ceil(input_supply * output_amount / (output_supply - output_amount)) —
    then gross that up by the fee so the participant's net contribution
    after fee equals required; fails (insufficient-liquidity) if
    output_amount >= output_supply." *)
Definition calculate_fixed_output_swap
    (input_supply output_supply swap_output_amount total_fee_share : Z)
    : ArithmeticError + (Z * Z * Q) :=
  if Z.leb output_supply swap_output_amount then inl InsufficientLiquidity
  else
    match ceildiv (input_supply * swap_output_amount)
                  (output_supply - swap_output_amount) with
    | inr required =>
      match ceildiv (required * FEE_DENOMINATOR) (FEE_DENOMINATOR - total_fee_share) with
      | inr swap_input_amount =>
        inr (swap_input_amount, swap_input_amount - required,
             price_impact_of input_supply output_supply swap_input_amount
               swap_output_amount)
      | inl e => inl e
      end
    | inl e => inl e
    end.

(** Modelled from the spec: "Initial mint ... The mint amount is the
    integer square root of the product of the two deposited amounts". *)
Definition calculate_initial_add_liquidity (asset_1_amount asset_2_amount : Z)
    : ArithmeticError + Z :=
  inr (Z.sqrt (asset_1_amount * asset_2_amount)).

(** Modelled from the spec: "Subsequent liquidity add ... the excess of
    whichever asset is over-supplied relative to the pool's current price
    is conceptually routed through an internal fixed-input swap ... tokens
    are then minted proportional to issued_tokens * contributed_value /
    total_reserve_value using the post-swap balanced contribution." The
    spec does not size the swapped part; this reading swaps the whole
    excess. It serves to run the controller on concrete inputs: the
    theorems on the controller hold for every formula library. *)
Definition calculate_subsequent_add_liquidity
    (asset_1_reserves asset_2_reserves issued_pool_tokens total_fee_share
     asset_1_amount asset_2_amount : Z)
    : ArithmeticError + (Z * bool * Z * Z * Z * Q) :=
  let swap_from_asset_1_to_asset_2 :=
    Z.leb (asset_2_amount * asset_1_reserves) (asset_1_amount * asset_2_reserves) in
  let swap :=
    if swap_from_asset_1_to_asset_2 then
      match floordiv (asset_2_amount * asset_1_reserves) asset_2_reserves with
      | inr matched =>
        let swap_in := asset_1_amount - matched in
        match calculate_fixed_input_swap asset_1_reserves asset_2_reserves
                swap_in total_fee_share with
        | inr (out, fee, impact) =>
          inr (swap_in, out, fee, impact, asset_1_amount - swap_in, asset_2_amount + out)
        | inl e => inl e
        end
      | inl e => inl e
      end
    else
      match floordiv (asset_1_amount * asset_2_reserves) asset_1_reserves with
      | inr matched =>
        let swap_in := asset_2_amount - matched in
        match calculate_fixed_input_swap asset_2_reserves asset_1_reserves
                swap_in total_fee_share with
        | inr (out, fee, impact) =>
          inr (swap_in, out, fee, impact, asset_1_amount + out, asset_2_amount - swap_in)
        | inl e => inl e
        end
      | inl e => inl e
      end in
  match swap with
  | inr (swap_in, out, fee, impact, contributed_1, contributed_2) =>
    match floordiv
            (issued_pool_tokens
             * (contributed_1 * asset_2_reserves + contributed_2 * asset_1_reserves))
            (2 * asset_1_reserves * asset_2_reserves) with
    | inr minted => inr (minted, swap_from_asset_1_to_asset_2, swap_in, out, fee, impact)
    | inl e => inl e
    end
  | inl e => inl e
  end.

Definition formulas : Formulas :=
  mkFormulas
    calculate_subsequent_add_liquidity
    calculate_initial_add_liquidity
    calculate_fixed_input_swap
    calculate_remove_liquidity_output_amounts
    calculate_fixed_output_swap.

End SpecFormulas.

(** ** A sample ledger, to run the controller on concrete inputs *)

Module Sample.

(** Stand-ins for the helpers: a state key is looked up as it is and a
    missing key reads as zero; every pool has the same address. *)
Definition get_state_int (state : gmap string TealValue.t) (key : string) : Z :=
  from_option TealValue.uint 0 (state !! key).

Definition get_state_bytes (state : gmap string TealValue.t) (key : string) : string :=
  from_option TealValue.bytes "" (state !! key).

Definition bytes_to_int (b : string) : Z :=
  fold_left (fun n c => 256 * n + Z.of_nat (Ascii.nat_of_ascii c)) (list_ascii_of_string b) 0.

Definition POOL_ADDRESS : string := "POOLADDRESS".

Definition helpers : Helpers :=
  mkHelpers get_state_int get_state_bytes bytes_to_int
    (fun _ _ _ => LogicSigAccount.mk POOL_ADDRESS).

Definition uint (key : string) (n : Z) : KeyValue.t :=
  KeyValue.mk key (TealValue.mk "" n).

(** The local state of a pool of assets 20 and 10 with reserves
    (1,000,000, 2,000,000), a fee share of 3 and the given token supply. *)
Definition local_state (issued : Z) : AppLocalState.t :=
  AppLocalState.mk 1002
    [ uint "asset_1_id" 20; uint "asset_2_id" 10; uint "pool_token_asset_id" 30;
      uint "asset_1_reserves" 1000000; uint "asset_2_reserves" 2000000;
      uint "issued_pool_tokens" issued;
      uint "total_fee_share" 3; uint "protocol_fee_ratio" 6 ].

Definition bootstrapped (issued : Z) : AccountInfo.t :=
  AccountInfo.mk [local_state issued] POOL_ADDRESS 400000 77.

Definition unbootstrapped : AccountInfo.t :=
  AccountInfo.mk [] POOL_ADDRESS 0 77.

(** An account that holds local state of the application but is not the
    pool account of the asset pair its state names. *)
Definition foreign_account : AccountInfo.t :=
  AccountInfo.mk [local_state 1000] "SOMEOTHERADDRESS" 400000 77.

Definition client (account : AccountInfo.t) : Client.t :=
  Client.mk (fun _ => account) 1002 (fun i => Asset.of_id (default 0 i)) None.

Definition ASSET_A : Asset.t := Asset.of_id 10.
Definition ASSET_B : Asset.t := Asset.of_id 20.
Definition ASSET_C : Asset.t := Asset.of_id 40.

(** [Pool(client, ASSET_A, ASSET_B)] on a ledger where the pool account is
    [account], with an empty log. *)
Definition pool (account : AccountInfo.t) : World :=
  {| self :=
       self (snd (Pool_init helpers (client account) (ByAsset ASSET_A) (ByAsset ASSET_B)
                    None true None));
     trace := [] |}.

(** A pool object created before the pool was bootstrapped, on a ledger
    where it now is and has liquidity. *)
Definition stale_pool : World :=
  with_ledger (fun _ => bootstrapped 1000) (pool unbootstrapped).

End Sample.

(** ** Transaction preparation *)

(** The methods [prepare_*_transactions] read the pool object and hand
    their arguments to the preparers of [.bootstrap], [.add_liquidity],
    [.remove_liquidity] and [.swap]. A transaction group is kept as the
    record of the arguments the preparer is called with; the suggested
    parameters of the network go along unchanged and only their [min_fee]
    is read here. *)

Module SuggestedParams.
(** [client.algod.suggested_params()]. *)
Record t : Type := mk { min_fee : Z }.
End SuggestedParams.

(** The two constants imported from [.constants], which is not part of the
    sources at hand. *)
Record Constants : Type := mkConstants
  { MIN_POOL_BALANCE_ASA_ALGO_PAIR : Z;
    MIN_POOL_BALANCE_ASA_ASA_PAIR : Z }.

(** What the preparers of a transaction group raise on their own. *)
Inductive PrepareError : Type :=
| MissingAsset (key : Asset.t)     (* KeyError: a dictionary without the asset *)
| NoPoolTokenAsset                 (* AttributeError: [self.pool_token_asset] is None *)
| InvalidQuoteType                 (* raise Exception(f"Invalid quote type(..)") *)
| UnsupportedQuote.                (* raise NotImplementedError() *)

(** [get_logicsig] and the property [address]. *)
Definition get_logicsig (h : Helpers) (p : Pool.t) : LogicSigAccount.t :=
  get_pool_logicsig h (Pool.validator_app_id p)
    (Asset.id (Pool.asset_1 p)) (Asset.id (Pool.asset_2 p)).

Definition address (h : Helpers) (p : Pool.t) : string :=
  LogicSigAccount.address (get_logicsig h p).

Module BootstrapTransactions.
Record t : Type := mk
  { validator_app_id : Z;
    asset_1_id : Z;
    asset_2_id : Z;
    sender : option string;
    app_call_fee : Z;
    required_algo : Z }.
End BootstrapTransactions.

Definition prepare_bootstrap_transactions (h : Helpers) (c : Constants)
    (suggested_params : SuggestedParams.t) (pooler_address : option string)
    : M BootstrapTransactions.t :=
  let! _ := refresh h None in
  let! _ := log EvCheckExists in
  let! p := get_self in
  if truthy_flag (Pool.exists_ p) then raise AlreadyBootstrapped
  else
    let pooler_address := or_else pooler_address (Client.user_address (Pool.client p)) in
    let (pool_minimum_balance, inner_transaction_count) :=
      if Z.eqb (Asset.id (Pool.asset_2 p)) 0
      then (MIN_POOL_BALANCE_ASA_ALGO_PAIR c, 5)
      else (MIN_POOL_BALANCE_ASA_ASA_PAIR c, 6) in
    let app_call_fee := (inner_transaction_count + 1) * SuggestedParams.min_fee suggested_params in
    let required_algo := pool_minimum_balance + app_call_fee in
    let required_algo := required_algo + 100000 in
    let pool_account_info := Client.algod (Pool.client p) (address h p) in
    let pool_algo_balance := AccountInfo.amount pool_account_info in
    let required_algo := Z.max (required_algo - pool_algo_balance) 0 in
    ret {| BootstrapTransactions.validator_app_id := Pool.validator_app_id p;
           BootstrapTransactions.asset_1_id := Asset.id (Pool.asset_1 p);
           BootstrapTransactions.asset_2_id := Asset.id (Pool.asset_2 p);
           BootstrapTransactions.sender := pooler_address;
           BootstrapTransactions.app_call_fee := app_call_fee;
           BootstrapTransactions.required_algo := required_algo |}.

(** [d[asset]] on a dictionary keyed by asset. *)
Definition dict_get (d : gmap Z AssetAmount.t) (key : Asset.t)
    : PrepareError + AssetAmount.t :=
  match d !! Asset.id key with
  | Some v => inr v
  | None => inl (MissingAsset key)
  end.

(** [self.pool_token_asset.id]. *)
Definition pool_token_asset_id (p : Pool.t) : PrepareError + Z :=
  match Pool.pool_token_asset p with
  | Some t => inr (Asset.id t)
  | None => inl NoPoolTokenAsset
  end.

Definition pbind {A B} (r : PrepareError + A) (k : A -> PrepareError + B)
    : PrepareError + B :=
  match r with
  | inr a => k a
  | inl e => inl e
  end.

Module FlexibleAddTransactions.
Record t : Type := mk
  { validator_app_id : Z;
    asset_1_id : Z;
    asset_2_id : Z;
    pool_token_asset_id : Z;
    asset_1_amount : Z;
    asset_2_amount : Z;
    min_pool_token_asset_amount : Z;
    sender : option string }.
End FlexibleAddTransactions.

Module SingleAssetAddTransactions.
Record t : Type := mk
  { validator_app_id : Z;
    asset_1_id : Z;
    asset_2_id : Z;
    pool_token_asset_id : Z;
    asset_1_amount : option Z;
    asset_2_amount : option Z;
    min_pool_token_asset_amount : option Z;
    sender : option string }.
End SingleAssetAddTransactions.

Module InitialAddTransactions.
Record t : Type := mk
  { validator_app_id : Z;
    asset_1_id : Z;
    asset_2_id : Z;
    pool_token_asset_id : Z;
    asset_1_amount : Z;
    asset_2_amount : Z;
    sender : option string }.
End InitialAddTransactions.

Definition prepare_flexible_add_liquidity_transactions (p : Pool.t)
    (amounts_in : gmap Z AssetAmount.t) (min_pool_token_asset_amount : Z)
    (pooler_address : option string) : PrepareError + FlexibleAddTransactions.t :=
  let pooler_address := or_else pooler_address (Client.user_address (Pool.client p)) in
  pbind (dict_get amounts_in (Pool.asset_1 p)) (fun asset_1_amount =>
  pbind (dict_get amounts_in (Pool.asset_2 p)) (fun asset_2_amount =>
  pbind (pool_token_asset_id p) (fun pool_token =>
  inr {| FlexibleAddTransactions.validator_app_id := Pool.validator_app_id p;
         FlexibleAddTransactions.asset_1_id := Asset.id (Pool.asset_1 p);
         FlexibleAddTransactions.asset_2_id := Asset.id (Pool.asset_2 p);
         FlexibleAddTransactions.pool_token_asset_id := pool_token;
         FlexibleAddTransactions.asset_1_amount := AssetAmount.amount asset_1_amount;
         FlexibleAddTransactions.asset_2_amount := AssetAmount.amount asset_2_amount;
         FlexibleAddTransactions.min_pool_token_asset_amount :=
           min_pool_token_asset_amount;
         FlexibleAddTransactions.sender := pooler_address |}))).

Definition prepare_single_asset_add_liquidity_transactions (p : Pool.t)
    (amount_in : AssetAmount.t) (min_pool_token_asset_amount : option Z)
    (pooler_address : option string) : PrepareError + SingleAssetAddTransactions.t :=
  let pooler_address := or_else pooler_address (Client.user_address (Pool.client p)) in
  pbind (pool_token_asset_id p) (fun pool_token =>
  inr {| SingleAssetAddTransactions.validator_app_id := Pool.validator_app_id p;
         SingleAssetAddTransactions.asset_1_id := Asset.id (Pool.asset_1 p);
         SingleAssetAddTransactions.asset_2_id := Asset.id (Pool.asset_2 p);
         SingleAssetAddTransactions.pool_token_asset_id := pool_token;
         SingleAssetAddTransactions.asset_1_amount :=
           if Asset.eqb (AssetAmount.asset amount_in) (Pool.asset_1 p)
           then Some (AssetAmount.amount amount_in) else None;
         SingleAssetAddTransactions.asset_2_amount :=
           if Asset.eqb (AssetAmount.asset amount_in) (Pool.asset_2 p)
           then Some (AssetAmount.amount amount_in) else None;
         SingleAssetAddTransactions.min_pool_token_asset_amount :=
           min_pool_token_asset_amount;
         SingleAssetAddTransactions.sender := pooler_address |}).

Definition prepare_initial_add_liquidity_transactions (p : Pool.t)
    (amounts_in : gmap Z AssetAmount.t) (pooler_address : option string)
    : PrepareError + InitialAddTransactions.t :=
  let pooler_address := or_else pooler_address (Client.user_address (Pool.client p)) in
  pbind (dict_get amounts_in (Pool.asset_1 p)) (fun asset_1_amount =>
  pbind (dict_get amounts_in (Pool.asset_2 p)) (fun asset_2_amount =>
  pbind (pool_token_asset_id p) (fun pool_token =>
  inr {| InitialAddTransactions.validator_app_id := Pool.validator_app_id p;
         InitialAddTransactions.asset_1_id := Asset.id (Pool.asset_1 p);
         InitialAddTransactions.asset_2_id := Asset.id (Pool.asset_2 p);
         InitialAddTransactions.pool_token_asset_id := pool_token;
         InitialAddTransactions.asset_1_amount := AssetAmount.amount asset_1_amount;
         InitialAddTransactions.asset_2_amount := AssetAmount.amount asset_2_amount;
         InitialAddTransactions.sender := pooler_address |}))).

(** A quote of any of the six kinds, for the dispatch by [isinstance]; the
    quote classes are taken to be unrelated by inheritance. *)
Inductive AnyQuote : Type :=
| QFlexibleAdd (q : FlexibleAddLiquidityQuote.t)
| QSingleAssetAdd (q : SingleAssetAddLiquidityQuote.t)
| QInitialAdd (q : InitialAddLiquidityQuote.t)
| QRemove (q : RemoveLiquidityQuote.t)
| QSingleAssetRemove (q : SingleAssetRemoveLiquidityQuote.t)
| QSwap (q : SwapQuote.t).

Inductive AddTransactions : Type :=
| FlexibleAdd (t : FlexibleAddTransactions.t)
| SingleAssetAdd (t : SingleAssetAddTransactions.t)
| InitialAdd_ (t : InitialAddTransactions.t).

Definition pmap {A B} (f : A -> B) (r : PrepareError + A) : PrepareError + B :=
  match r with
  | inr a => inr (f a)
  | inl e => inl e
  end.

Definition prepare_add_liquidity_transactions_from_quote (p : Pool.t)
    (quote : AnyQuote) (pooler_address : option string)
    : PrepareError + AddTransactions :=
  match quote with
  | QFlexibleAdd q =>
    pmap FlexibleAdd
      (prepare_flexible_add_liquidity_transactions p
         (FlexibleAddLiquidityQuote.amounts_in q)
         (flexible_min_pool_token_asset_amount_with_slippage q)
         pooler_address)
  | QSingleAssetAdd q =>
    pmap SingleAssetAdd
      (prepare_single_asset_add_liquidity_transactions p
         (SingleAssetAddLiquidityQuote.amount_in q)
         (Some (single_min_pool_token_asset_amount_with_slippage q))
         pooler_address)
  | QInitialAdd q =>
    pmap InitialAdd_
      (prepare_initial_add_liquidity_transactions p
         (InitialAddLiquidityQuote.amounts_in q)
         pooler_address)
  | _ => inl InvalidQuoteType
  end.

Module RemoveTransactions.
Record t : Type := mk
  { validator_app_id : Z;
    asset_1_id : Z;
    asset_2_id : Z;
    pool_token_asset_id : Z;
    min_asset_1_amount : Z;
    min_asset_2_amount : Z;
    pool_token_asset_amount : Z;
    sender : option string }.
End RemoveTransactions.

Module SingleAssetRemoveTransactions.
Record t : Type := mk
  { validator_app_id : Z;
    asset_1_id : Z;
    asset_2_id : Z;
    pool_token_asset_id : Z;
    output_asset_id : Z;
    min_output_asset_amount : Z;
    pool_token_asset_amount : Z;
    sender : option string }.
End SingleAssetRemoveTransactions.

(** The amount of [pool_token_asset_amount], given as an [AssetAmount] or
    as an [int]: the method wraps the integer and then reads [.amount]. *)
Definition amount_of (pool_token_asset_amount : AssetAmount.t + Z) : Z :=
  match pool_token_asset_amount with
  | inl a => AssetAmount.amount a
  | inr n => n
  end.

Definition prepare_remove_liquidity_transactions (p : Pool.t)
    (pool_token_asset_amount : AssetAmount.t + Z)
    (amounts_out : gmap Z AssetAmount.t) (pooler_address : option string)
    : PrepareError + RemoveTransactions.t :=
  let pooler_address := or_else pooler_address (Client.user_address (Pool.client p)) in
  pbind (dict_get amounts_out (Pool.asset_1 p)) (fun asset_1_amount =>
  pbind (dict_get amounts_out (Pool.asset_2 p)) (fun asset_2_amount =>
  pbind (pool_token_asset_id p) (fun pool_token =>
  inr {| RemoveTransactions.validator_app_id := Pool.validator_app_id p;
         RemoveTransactions.asset_1_id := Asset.id (Pool.asset_1 p);
         RemoveTransactions.asset_2_id := Asset.id (Pool.asset_2 p);
         RemoveTransactions.pool_token_asset_id := pool_token;
         RemoveTransactions.min_asset_1_amount := AssetAmount.amount asset_1_amount;
         RemoveTransactions.min_asset_2_amount := AssetAmount.amount asset_2_amount;
         RemoveTransactions.pool_token_asset_amount := amount_of pool_token_asset_amount;
         RemoveTransactions.sender := pooler_address |}))).

Definition prepare_single_asset_remove_liquidity_transactions (p : Pool.t)
    (pool_token_asset_amount : AssetAmount.t + Z) (amount_out : AssetAmount.t)
    (pooler_address : option string) : PrepareError + SingleAssetRemoveTransactions.t :=
  let pooler_address := or_else pooler_address (Client.user_address (Pool.client p)) in
  pbind (pool_token_asset_id p) (fun pool_token =>
  inr {| SingleAssetRemoveTransactions.validator_app_id := Pool.validator_app_id p;
         SingleAssetRemoveTransactions.asset_1_id := Asset.id (Pool.asset_1 p);
         SingleAssetRemoveTransactions.asset_2_id := Asset.id (Pool.asset_2 p);
         SingleAssetRemoveTransactions.pool_token_asset_id := pool_token;
         SingleAssetRemoveTransactions.output_asset_id :=
           Asset.id (AssetAmount.asset amount_out);
         SingleAssetRemoveTransactions.min_output_asset_amount :=
           AssetAmount.amount amount_out;
         SingleAssetRemoveTransactions.pool_token_asset_amount :=
           amount_of pool_token_asset_amount;
         SingleAssetRemoveTransactions.sender := pooler_address |}).

Inductive RemoveAnyTransactions : Type :=
| Remove (t : RemoveTransactions.t)
| SingleAssetRemove (t : SingleAssetRemoveTransactions.t).

Definition prepare_remove_liquidity_transactions_from_quote (p : Pool.t)
    (quote : AnyQuote) (pooler_address : option string)
    : PrepareError + RemoveAnyTransactions :=
  let pooler_address := or_else pooler_address (Client.user_address (Pool.client p)) in
  match quote with
  | QSingleAssetRemove q =>
    pmap SingleAssetRemove
      (prepare_single_asset_remove_liquidity_transactions p
         (inl (SingleAssetRemoveLiquidityQuote.pool_token_asset_amount q))
         (single_remove_amount_out_with_slippage q)
         pooler_address)
  | QRemove q =>
    pbind (dict_get (remove_amounts_out_with_slippage q) (Pool.asset_1 p)) (fun out_1 =>
    pbind (dict_get (remove_amounts_out_with_slippage q) (Pool.asset_2 p)) (fun out_2 =>
    pmap Remove
      (prepare_remove_liquidity_transactions p
         (inl (RemoveLiquidityQuote.pool_token_asset_amount q))
         (asset_dict (Pool.asset_1 p) out_1 (Pool.asset_2 p) out_2)
         pooler_address)))
  | _ => inl UnsupportedQuote
  end.

(** ** Notions used in the statements *)

(** The pool object that a [refresh()] leaves: the snapshot replaced when
    the source gives a full dictionary, untouched otherwise. *)
Definition refreshed (h : Helpers) (p : Pool.t) : Pool.t :=
  match snapshot_source h p with
  | inr (FullDict i) => updated p i
  | _ => p
  end.

(** [p] exists and holds the snapshot values [t], [r1], [r2], [n], [fee]. *)
Definition holds (p : Pool.t) (t : Asset.t) (r1 r2 n fee : Z) : Prop :=
  truthy_flag (Pool.exists_ p) = true
  /\ Pool.pool_token_asset p = Some t
  /\ Pool.asset_1_reserves p = Some r1
  /\ Pool.asset_2_reserves p = Some r2
  /\ Pool.issued_pool_tokens p = Some n
  /\ Pool.total_fee_share p = Some fee.

(** The states of section 4.4. *)
Definition Unbootstrapped (p : Pool.t) : Prop :=
  truthy_flag (Pool.exists_ p) = false.

Definition BootstrappedEmpty (p : Pool.t) : Prop :=
  truthy_flag (Pool.exists_ p) = true
  /\ truthy_int (Pool.issued_pool_tokens p) = false.

Definition Active (p : Pool.t) : Prop :=
  truthy_flag (Pool.exists_ p) = true
  /\ truthy_int (Pool.issued_pool_tokens p) = true.

(** Every step other than a refresh has a refresh before it. *)
Definition preceded_by_refresh (evs : list Event) : Prop :=
  forall (i : nat) (e : Event),
    evs !! i = Some e -> e <> EvRefresh ->
    exists j : nat, (j < i)%nat /\ evs !! j = Some EvRefresh.

(** The quote-fetching operations. *)
Definition fetches_quote (op : Operation) : bool :=
  match op with
  | OpRefresh _ | OpUpdateFromInfo _ => false
  | _ => true
  end.

(** The order of the steps in each quote-fetching operation, as the
    methods are written. *)
Definition schedule (op : Operation) : list Event :=
  match op with
  | OpRefresh _ => [EvRefresh]
  | OpUpdateFromInfo _ => []
  | OpFlexibleAdd _ _ _ | OpSingleAssetAdd _ _ =>
    [EvRefresh; EvCheckExists; EvCheckLiquidity; EvFormula SubsequentAdd]
  | OpInitialAdd _ _ =>
    [EvRefresh; EvCheckExists; EvCheckLiquidity; EvFormula InitialAdd]
  | OpRemove _ _ =>
    [EvCheckExists; EvRefresh; EvFormula RemoveOutputs]
  | OpSingleAssetRemove _ _ _ =>
    [EvCheckExists; EvRefresh; EvFormula RemoveOutputs; EvFormula FixedInputSwap]
  | OpFixedInputSwap _ _ =>
    [EvRefresh; EvCheckExists; EvCheckLiquidity; EvFormula FixedInputSwap]
  | OpFixedOutputSwap _ _ =>
    [EvRefresh; EvCheckExists; EvCheckLiquidity; EvFormula FixedOutputSwap]
  end.

(** The operations whose first step is the refresh. *)
Definition refreshes_first (op : Operation) : bool :=
  match op with
  | OpFlexibleAdd _ _ _ | OpSingleAssetAdd _ _ | OpInitialAdd _ _
  | OpFixedInputSwap _ _ | OpFixedOutputSwap _ _ => true
  | _ => false
  end.



Definition rmap {A B} (f : A -> B) (r : result A) : result B :=
  match r with
  | inr a => Ok (f a)
  | inl e => Raise e
  end.

(** A computation keeps the property [I] of the pool object it runs on. *)
Definition preserves (I : Pool.t -> Prop) {A} (m : M A) : Prop :=
  forall w : World, I (self w) -> I (self (snd (m w))).

(** [m] walks along the schedule [s]: a run that returns has logged exactly
    [s], a run that raises has logged a prefix of [s]. *)
Definition emits {A} (m : M A) (s : list Event) : Prop :=
  forall w : World,
    exists evs : list Event,
      trace (snd (m w)) = trace w ++ evs
      /\ match fst (m w) with
         | inr _ => evs = s
         | inl _ => evs `prefix_of` s
         end.

(** The pool-token amount a remove quote works on: the [AssetAmount] it is
    given, or the given integer over the pool token of the object. *)
Definition burn_of (t0 : Asset.t) (x : AssetAmount.t + Z) : AssetAmount.t :=
  match x with
  | inl a => a
  | inr n => AssetAmount.mk t0 n
  end.

(** The class method [Pool.from_account_info]: the account information is
    decoded, and the constructor is called with the two decoded asset ids,
    the decoded dictionary as [info], the decoded application id, and
    [fetch] left at its default [True]. An error before the constructor
    leaves no object. The client is taken as given. *)
Definition from_account_info (h : Helpers) (account_info : AccountInfo.t)
    (client : Client.t) : result (result unit * World) :=
  rbind (get_pool_info_from_account_info h account_info) (fun info =>
  match info with
  | EmptyDict => Raise (KeyError "asset_1_id")            (* info["asset_1_id"] on {} *)
  | FullDict i =>
    Ok (Pool_init h client (ById (Info.asset_1_id i)) (ById (Info.asset_2_id i))
          (Some info) true (Some (Info.validator_app_id i)))
  end).

(** A computation leaves the pool object as it is. *)
Definition stable {A} (m : M A) : Prop :=
  forall w : World, self (snd (m w)) = self w.

(** A computation changes the pool object by one refresh at most: it
    either raises with the object untouched, or leaves the object as one
    [refresh()] makes it. *)
Definition changes_by_refresh (h : Helpers) {A} (m : M A) : Prop :=
  forall w : World,
    (self (snd (m w)) = self w /\ is_ok (fst (m w)) = false)
    \/ self (snd (m w)) = refreshed h (self w).

(** The outcome of a computation and the object it leaves depend on the
    object it starts from only, not on the log. *)
Definition reads_pool_only {A} (m : M A) : Prop :=
  forall w1 w2 : World,
    self w1 = self w2 ->
    fst (m w1) = fst (m w2) /\ self (snd (m w1)) = self (snd (m w2)).

(** The entries of a key-value list under one key, in order. *)
Definition entries_of (key : string) (kvs : list KeyValue.t) : list TealValue.t :=
  KeyValue.value <$> filter (fun x => KeyValue.key x = key) kvs.

(** Sample constants and network parameters for the bootstrap. *)
Definition sample_constants : Constants := mkConstants 300000 400000.

Definition sample_params : SuggestedParams.t := SuggestedParams.mk 1000.

(** Whatever [m] returns has the property [P]. *)
Definition returns {A} (m : M A) (P : A -> Prop) : Prop :=
  forall (w : World) (a : A), fst (m w) = Ok a -> P a.

(** Asked a second time right after the first, [m] gives the outcome of the
    first call, the returned value or the exception, and leaves the object
    as the first call left it. *)
Definition same_again {A} (m : M A) (w : World) : Prop :=
  fst (m (snd (m w))) = fst (m w)
  /\ self (snd (m (snd (m w)))) = self (snd (m w)).


(** * Properties *)

(** ** The monad and the refresh *)

Ltac unfold_M :=
  unfold discard, call, require_exists, require_liquidity, require_no_liquidity,
    as_pool_token_amount, pool_token_amount, bind, ret, raise, lift, get_self,
    set_self, log, Ok, Raise in *.

Lemma bind_get_self {B} (k : Pool.t -> M B) (w : World) :
  bind get_self k w = k (self w) w.
Proof. reflexivity. Qed.

Lemma refresh_None_run (h : Helpers) (w : World) :
  refresh h None w =
  (match snapshot_source h (self w) with
   | inl e => Raise e
   | inr _ => Ok tt
   end,
   {| self := refreshed h (self w); trace := trace w ++ [EvRefresh] |}).
Proof.
  unfold refresh, refreshed, update_from_info. unfold_M. simpl.
  destruct (snapshot_source h (self w)) as [e | [ | i]]; reflexivity.
Qed.

Lemma updated_assets (p : Pool.t) (i : Info.t) :
  Pool.asset_1 (updated p i) = Pool.asset_1 p
  /\ Pool.asset_2 (updated p i) = Pool.asset_2 p.
Proof. split; reflexivity. Qed.

Lemma refreshed_assets (h : Helpers) (p : Pool.t) :
  Pool.asset_1 (refreshed h p) = Pool.asset_1 p
  /\ Pool.asset_2 (refreshed h p) = Pool.asset_2 p.
Proof.
  unfold refreshed. destruct (snapshot_source h p) as [e | [ | i]]; auto using updated_assets.
Qed.

(** C10. When the snapshot source yields the empty dictionary, [refresh()]
    returns normally and leaves the pool object as it was: [exists], the
    reserves, the issued pool tokens, the fee parameters, the round and the
    pool token asset all keep their values. *)
Theorem refresh_empty_keeps_snapshot (h : Helpers) (w : World) :
  snapshot_source h (self w) = Ok EmptyDict ->
  let w' := snd (refresh h None w) in
  fst (refresh h None w) = Ok tt
  /\ self w' = self w
  /\ Pool.exists_ (self w') = Pool.exists_ (self w)
  /\ Pool.pool_token_asset (self w') = Pool.pool_token_asset (self w)
  /\ Pool.asset_1_reserves (self w') = Pool.asset_1_reserves (self w)
  /\ Pool.asset_2_reserves (self w') = Pool.asset_2_reserves (self w)
  /\ Pool.issued_pool_tokens (self w') = Pool.issued_pool_tokens (self w)
  /\ Pool.total_fee_share (self w') = Pool.total_fee_share (self w)
  /\ Pool.protocol_fee_ratio (self w') = Pool.protocol_fee_ratio (self w)
  /\ Pool.last_refreshed_round (self w') = Pool.last_refreshed_round (self w).
Proof.
  intros Hsrc. rewrite refresh_None_run. unfold refreshed. rewrite Hsrc. simpl.
  repeat split; reflexivity.
Qed.

(** On the sample ledger: an active pool object whose account has lost its
    local state keeps its snapshot through a refresh. *)
Lemma refresh_empty_keeps_snapshot_witness :
  let w := with_ledger (fun _ => Sample.unbootstrapped)
             (Sample.pool (Sample.bootstrapped 1000)) in
  fst (refresh Sample.helpers None w) = Ok tt
  /\ self (snd (refresh Sample.helpers None w)) = self w
  /\ Pool.issued_pool_tokens (self (snd (refresh Sample.helpers None w))) = Some 1000.
Proof.
  intros w.
  pose proof (refresh_empty_keeps_snapshot Sample.helpers w eq_refl) as H.
  cbv zeta in H. destruct H as (H1 & H2 & _ & _ & _ & _ & H3 & _).
  split; [exact H1 | split; [exact H2 | rewrite H3; reflexivity]].
Defined.

(** ** Decoding the account information *)

(** C9, as the claim states it, fails: an account-info structure that has
    local state but whose address is not the pool address derived from the
    decoded asset pair makes the decoder's assertion fail; nothing is
    returned. *)
Lemma decode_foreign_account_raises :
  AccountInfo.apps_local_state Sample.foreign_account <> []
  /\ get_pool_info_from_account_info Sample.helpers Sample.foreign_account
     = Raise (AssertionError None)
  /\ ~ (forall (h : Helpers) (account_info : AccountInfo.t),
          AccountInfo.apps_local_state account_info <> [] ->
          exists i, get_pool_info_from_account_info h account_info = Ok (FullDict i)).
Proof.
  split; [discriminate | split; [reflexivity | ]].
  intros H.
  destruct (H Sample.helpers Sample.foreign_account) as [i Hi]; [discriminate | ].
  vm_compute in Hi. discriminate.
Qed.

(** C9, amended. Without application local state the decoder returns the
    empty dictionary. With local state it checks the account address
    against the pool address derived from the application id and the two
    decoded asset ids: when they agree it returns the dictionary whose
    snapshot fields are the decoded integers of the first local state, and
    when they differ its assertion fails. *)
Theorem decode_account_info (h : Helpers) (account_info : AccountInfo.t) :
  match AccountInfo.apps_local_state account_info with
  | [] => get_pool_info_from_account_info h account_info = Ok EmptyDict
  | app :: _ =>
    let state := state_of_key_values (AppLocalState.key_value app) in
    let asset_1_id := get_state_int h state "asset_1_id" in
    let asset_2_id := get_state_int h state "asset_2_id" in
    let pool_address :=
      LogicSigAccount.address
        (get_pool_logicsig h (AppLocalState.id app) asset_1_id asset_2_id) in
    if String.eqb (AccountInfo.address account_info) pool_address then
      exists i : Info.t,
        get_pool_info_from_account_info h account_info = Ok (FullDict i)
        /\ Info.asset_1_id i = asset_1_id
        /\ Info.asset_2_id i = asset_2_id
        /\ Info.pool_token_asset_id i = Some (get_state_int h state "pool_token_asset_id")
        /\ Info.asset_1_reserves i = get_state_int h state "asset_1_reserves"
        /\ Info.asset_2_reserves i = get_state_int h state "asset_2_reserves"
        /\ Info.issued_pool_tokens i = get_state_int h state "issued_pool_tokens"
        /\ Info.total_fee_share i = get_state_int h state "total_fee_share"
        /\ Info.protocol_fee_ratio i = get_state_int h state "protocol_fee_ratio"
        /\ Info.round i = AccountInfo.round account_info
        /\ Info.validator_app_id i = AppLocalState.id app
        /\ Info.address i = AccountInfo.address account_info
    else
      get_pool_info_from_account_info h account_info = Raise (AssertionError None)
  end.
Proof.
  unfold get_pool_info_from_account_info.
  destruct (AccountInfo.apps_local_state account_info) as [ | app rest]; [reflexivity | ].
  cbv zeta.
  destruct (String.eqb_spec (AccountInfo.address account_info)
              (LogicSigAccount.address
                 (get_pool_logicsig h (AppLocalState.id app)
                    (get_state_int h (state_of_key_values (AppLocalState.key_value app))
                       "asset_1_id")
                    (get_state_int h (state_of_key_values (AppLocalState.key_value app))
                       "asset_2_id")))) as [Heq | Hne]; [ | reflexivity].
  eexists. split; [reflexivity | ]. simpl. repeat split; try reflexivity.
  symmetry. exact Heq.
Qed.

(** A later entry of the key-value list overrides an earlier one with the
    same key, as in the dictionary comprehension. *)
Lemma state_of_key_values_snoc (kvs : list KeyValue.t) (x : KeyValue.t) :
  state_of_key_values (kvs ++ [x]) !! KeyValue.key x = Some (KeyValue.value x).
Proof.
  unfold state_of_key_values. rewrite fold_left_app. simpl.
  apply lookup_insert_eq.
Qed.

(** ** Invariants of the pool object *)

Section Invariant.

(** A property of pool objects that a replacement of the snapshot keeps. *)
Variable I : Pool.t -> Prop.
Hypothesis I_updated : forall (p : Pool.t) (i : Info.t), I p -> I (updated p i).

Lemma preserves_ret {A} (a : A) : preserves I (ret a).
Proof. intros w Hw. exact Hw. Qed.

Lemma preserves_raise {A} (e : exn) : preserves I (@raise A e).
Proof. intros w Hw. exact Hw. Qed.

Lemma preserves_lift {A} (r : result A) : preserves I (lift r).
Proof. intros w Hw. exact Hw. Qed.

Lemma preserves_get_self : preserves I get_self.
Proof. intros w Hw. exact Hw. Qed.

Lemma preserves_log (e : Event) : preserves I (log e).
Proof. intros w Hw. exact Hw. Qed.

Lemma preserves_bind {A B} (m : M A) (k : A -> M B) :
  preserves I m -> (forall a, preserves I (k a)) -> preserves I (bind m k).
Proof.
  intros Hm Hk w Hw. unfold bind.
  specialize (Hm w Hw).
  destruct (m w) as [[e | a] w1]; simpl in *; [exact Hm | ].
  exact (Hk a w1 Hm).
Qed.

Lemma preserves_update_from_info (info : InfoDict) : preserves I (update_from_info info).
Proof. intros w Hw. destruct info as [ | i]; simpl; [exact Hw | by apply I_updated]. Qed.

Lemma preserves_refresh (h : Helpers) (info : option InfoDict) :
  preserves I (refresh h info).
Proof.
  unfold refresh. apply preserves_bind; [apply preserves_log | intros _].
  destruct info as [info | ]; [apply preserves_update_from_info | ].
  apply preserves_bind; [apply preserves_get_self | intros p].
  apply preserves_bind; [apply preserves_lift | intros info].
  destruct (truthy_dict info); [apply preserves_update_from_info | apply preserves_ret].
Qed.

(** One step of the proof that a method keeps the invariant: split a
    bind, or take apart the branch or the tuple the method looks at. *)
Ltac preserves_step :=
  match goal with
  | |- preserves _ (bind _ _) => apply preserves_bind; [ | intros ? ]
  | |- preserves _ (if ?b then _ else _) => destruct b
  | |- preserves _ (match ?x with _ => _ end) => destruct x
  | |- preserves _ _ =>
    solve [auto using preserves_ret, preserves_raise, preserves_lift,
             preserves_get_self, preserves_log, preserves_update_from_info,
             preserves_refresh]
  end.

Lemma preserves_perform (h : Helpers) (F : Formulas) (op : Operation) :
  preserves I (perform h F op).
Proof.
  destruct op; simpl;
    unfold fetch_flexible_add_liquidity_quote, fetch_single_asset_add_liquidity_quote,
      fetch_initial_add_liquidity_quote, fetch_remove_liquidity_quote,
      fetch_single_asset_remove_liquidity_quote, fetch_fixed_input_swap_quote,
      fetch_fixed_output_swap_quote, discard, call, require_exists, require_liquidity,
      require_no_liquidity, as_pool_token_amount, pool_token_amount;
    repeat preserves_step.
Qed.

Hypothesis I_ledger : forall (algod : Algod) (w : World),
  I (self w) -> I (self (with_ledger algod w)).

Lemma preserves_run (h : Helpers) (F : Formulas) (steps : list Step) (w : World) :
  I (self w) -> I (self (run h F steps w)).
Proof.
  revert w. induction steps as [ | s steps IH]; intros w Hw; simpl; [exact Hw | ].
  apply IH. destruct s as [op | algod]; simpl.
  - by apply preserves_perform.
  - by apply I_ledger.
Qed.


End Invariant.





(** ** The order of the steps of a method *)

Lemma emits_ret {A} (a : A) : emits (ret a) [].
Proof. intros w. exists []. simpl. rewrite app_nil_r. auto. Qed.

Lemma emits_raise {A} (e : exn) (s : list Event) : emits (@raise A e) s.
Proof. intros w. exists []. simpl. rewrite app_nil_r. split; [reflexivity | apply prefix_nil]. Qed.

Lemma emits_lift {A} (r : result A) : emits (lift r) [].
Proof.
  intros w. exists []. simpl. rewrite app_nil_r. split; [reflexivity | ].
  destruct r; [apply prefix_nil | reflexivity].
Qed.

Lemma emits_get_self : emits get_self [].
Proof. intros w. exists []. simpl. rewrite app_nil_r. auto. Qed.

Lemma emits_set_self (p : Pool.t) : emits (set_self p) [].
Proof. intros w. exists []. simpl. rewrite app_nil_r. auto. Qed.

Lemma emits_log (e : Event) : emits (log e) [e].
Proof. intros w. exists [e]. simpl. auto. Qed.

Lemma emits_bind {A B} (m : M A) (k : A -> M B) (s1 s2 s : list Event) :
  emits m s1 -> s = s1 ++ s2 -> (forall a, emits (k a) s2) -> emits (bind m k) s.
Proof.
  intros Hm -> Hk w. unfold bind.
  destruct (Hm w) as (evs1 & Ht1 & Hr1).
  destruct (m w) as [[e | a] w1]; simpl in *.
  - exists evs1. split; [exact Ht1 | ]. by apply prefix_app_r.
  - subst evs1. destruct (Hk a w1) as (evs2 & Ht2 & Hr2).
    exists (s1 ++ evs2). rewrite Ht2, Ht1, app_assoc. split; [reflexivity | ].
    destruct (fst (k a w1)).
    + by apply prefix_app.
    + by subst.
Qed.

Ltac emits_solve :=
  lazymatch goal with
  | |- emits (bind _ _) _ =>
    eapply emits_bind; [emits_solve | reflexivity | intros ?; emits_solve]
  | |- emits (if ?b then _ else _) _ => destruct b; emits_solve
  | |- emits (match ?x with _ => _ end) _ => destruct x; emits_solve
  | |- emits (ret _) _ => apply emits_ret
  | |- emits (raise _) _ => apply emits_raise
  | |- emits (lift _) _ => apply emits_lift
  | |- emits get_self _ => apply emits_get_self
  | |- emits (set_self _) _ => apply emits_set_self
  | |- emits (log _) _ => apply emits_log
  | |- emits _ _ => solve [eauto]
  end.

Lemma emits_update_from_info (info : InfoDict) : emits (update_from_info info) [].
Proof. unfold update_from_info. emits_solve. Qed.

Lemma emits_refresh (h : Helpers) (info : option InfoDict) :
  emits (refresh h info) [EvRefresh].
Proof.
  unfold refresh.
  eapply emits_bind; [apply emits_log | reflexivity | intros _].
  destruct info as [info | ]; [apply emits_update_from_info | ].
  eapply emits_bind; [apply emits_get_self | reflexivity | intros p].
  eapply emits_bind; [apply emits_lift | reflexivity | intros info].
  destruct (truthy_dict info); [apply emits_update_from_info | apply emits_ret].
Qed.

Lemma emits_require_exists : emits require_exists [EvCheckExists].
Proof. unfold require_exists. emits_solve. Qed.

Lemma emits_require_liquidity : emits require_liquidity [EvCheckLiquidity].
Proof. unfold require_liquidity. emits_solve. Qed.

Lemma emits_require_no_liquidity : emits require_no_liquidity [EvCheckLiquidity].
Proof. unfold require_no_liquidity. emits_solve. Qed.

Lemma emits_call {A} (f : FormulaName) (r : result A) : emits (call f r) [EvFormula f].
Proof. unfold call. emits_solve. Qed.

Lemma emits_pool_token_amount (n : Z) : emits (pool_token_amount n) [].
Proof. unfold pool_token_amount. emits_solve. Qed.

Lemma emits_as_pool_token_amount (x : AssetAmount.t + Z) :
  emits (as_pool_token_amount x) [].
Proof. destruct x; simpl; [apply emits_ret | apply emits_pool_token_amount]. Qed.

#[local] Hint Resolve emits_update_from_info emits_refresh emits_require_exists
  emits_require_liquidity emits_require_no_liquidity emits_call
  emits_pool_token_amount emits_as_pool_token_amount : core.

Lemma emits_perform (h : Helpers) (F : Formulas) (op : Operation) :
  emits (perform h F op) (schedule op).
Proof.
  destruct op; simpl; try solve [eauto];
    unfold discard, fetch_flexible_add_liquidity_quote,
      fetch_single_asset_add_liquidity_quote, fetch_initial_add_liquidity_quote,
      fetch_remove_liquidity_quote, fetch_single_asset_remove_liquidity_quote,
      fetch_fixed_input_swap_quote, fetch_fixed_output_swap_quote;
    emits_solve.
Qed.

Lemma prefix_of_refresh_first (evs s : list Event) :
  evs `prefix_of` (EvRefresh :: s) -> preceded_by_refresh evs.
Proof.
  intros [k Hk] i e Hi Hne.
  destruct evs as [ | e0 evs]; [by rewrite lookup_nil in Hi | ].
  simpl in Hk. injection Hk as <- _.
  destruct i as [ | i]; simpl in Hi.
  - congruence.
  - exists 0%nat. split; [lia | reflexivity].
Qed.

Lemma prefix_of_check_first (evs s : list Event) (e : Event) :
  evs `prefix_of` (EvCheckExists :: s) -> head evs = Some e -> e = EvCheckExists.
Proof.
  intros [k Hk] He. destruct evs as [ | e0 evs]; [discriminate | ].
  simpl in *. congruence.
Qed.

(** A remove quote asked of an object that does not exist yet stops at the
    existence check: nothing is read from the ledger. *)
Lemma remove_on_unbootstrapped (h : Helpers) (F : Formulas) (op : Operation) (w : World) :
  fetches_quote op = true -> refreshes_first op = false ->
  Unbootstrapped (self w) ->
  perform h F op w
  = (Raise BootstrapIsRequired,
     {| self := self w; trace := trace w ++ [EvCheckExists] |}).
Proof.
  unfold Unbootstrapped. intros Hq Hr Hex.
  destruct op; try discriminate; simpl;
    unfold fetch_remove_liquidity_quote, fetch_single_asset_remove_liquidity_quote;
    unfold_M; simpl; rewrite Hex; reflexivity.
Qed.

(** The remove quote on concrete pools: it tests [self.exists] before it
    refreshes. On an active, up-to-date pool the steps come in the order
    check, refresh, formula; on an object created before the pool was
    bootstrapped the quote is refused on the old snapshot without a
    refresh, while the swap quote on the same object refreshes first and
    succeeds. *)
Lemma remove_quote_checks_before_refresh :
  let active := Sample.pool (Sample.bootstrapped 1000) in
  let fresh :=
    fetch_remove_liquidity_quote Sample.helpers SpecFormulas.formulas
      (inr 100) (5 # 100) active in
  let stale :=
    fetch_remove_liquidity_quote Sample.helpers SpecFormulas.formulas
      (inr 100) (5 # 100) Sample.stale_pool in
  let sibling :=
    fetch_fixed_input_swap_quote Sample.helpers SpecFormulas.formulas
      (AssetAmount.mk Sample.ASSET_B 10000) (5 # 100) Sample.stale_pool in
  is_ok (fst fresh) = true
  /\ trace (snd fresh) = [EvCheckExists; EvRefresh; EvFormula RemoveOutputs]
  /\ ~ preceded_by_refresh (trace (snd fresh))
  /\ fst stale = Raise BootstrapIsRequired
  /\ trace (snd stale) = [EvCheckExists]
  /\ is_ok (fst sibling) = true
  /\ trace (snd sibling)
     = [EvRefresh; EvCheckExists; EvCheckLiquidity; EvFormula FixedInputSwap].
Proof.
  cbv zeta.
  split; [vm_compute; reflexivity | ].
  split; [vm_compute; reflexivity | ].
  split.
  - intros H.
    assert (Ht : trace (snd (fetch_remove_liquidity_quote Sample.helpers
                               SpecFormulas.formulas (inr 100) (5 # 100)
                               (Sample.pool (Sample.bootstrapped 1000))))
                 = [EvCheckExists; EvRefresh; EvFormula RemoveOutputs])
      by (vm_compute; reflexivity).
    rewrite Ht in H.
    destruct (H 0%nat EvCheckExists eq_refl) as (j & Hj & _); [discriminate | lia].
  - repeat split; vm_compute; reflexivity.
Qed.

(** C8, on the code. Every quote-fetching operation goes through the steps
    of its schedule in order, logging all of them when it returns and a
    prefix when it raises. The add-liquidity and swap quotes refresh first,
    then test the state preconditions, then call the formula, as the claim
    says. The two remove quotes do not: they test the existence
    precondition on the snapshot the object holds before they refresh, so
    on an object that does not exist yet they raise at once, without the
    refresh that the five other quotes start with. *)
Theorem quote_step_order (h : Helpers) (F : Formulas) (op : Operation) (w : World) :
  fetches_quote op = true ->
  exists evs : list Event,
    trace (snd (perform h F op w)) = trace w ++ evs
    /\ evs `prefix_of` schedule op
    /\ (is_ok (fst (perform h F op w)) = true -> evs = schedule op)
    /\ (refreshes_first op = true -> preceded_by_refresh evs)
    /\ (refreshes_first op = false ->
        (forall e, head evs = Some e -> e = EvCheckExists)
        /\ (Unbootstrapped (self w) ->
            fst (perform h F op w) = Raise BootstrapIsRequired
            /\ self (snd (perform h F op w)) = self w
            /\ evs = [EvCheckExists])).
Proof.
  intros Hq.
  destruct (emits_perform h F op w) as (evs & Ht & Hr).
  exists evs. split; [exact Ht | ].
  assert (Hpre : evs `prefix_of` schedule op).
  { destruct (fst (perform h F op w)); [exact Hr | by subst]. }
  split; [exact Hpre | ].
  split; [ | split].
  - intros Hok. destruct (fst (perform h F op w)); [discriminate | exact Hr].
  - intros Hf. destruct op; try discriminate; simpl in Hpre;
      eapply prefix_of_refresh_first; exact Hpre.
  - intros Hf. split.
    + intros e He. destruct op; try discriminate; simpl in Hpre;
        eapply prefix_of_check_first; eauto.
    + intros Hun.
      rewrite (remove_on_unbootstrapped h F op w Hq Hf Hun) in *. simpl in *.
      repeat split. by apply app_inv_head in Ht.
Qed.

(** The remove quote on an object created before the pool was
    bootstrapped, on a ledger where the pool now has liquidity: refused on
    the old snapshot, the object untouched, the existence check the only
    step taken. *)
Lemma quote_step_order_witness :
  let out :=
    perform Sample.helpers SpecFormulas.formulas
      (OpRemove (inr 100) (5 # 100)) Sample.stale_pool in
  fst out = Raise BootstrapIsRequired
  /\ self (snd out) = self Sample.stale_pool
  /\ trace (snd out) = [EvCheckExists].
Proof.
  cbv zeta.
  destruct (quote_step_order Sample.helpers SpecFormulas.formulas
              (OpRemove (inr 100) (5 # 100)) Sample.stale_pool
              eq_refl) as (evs & Ht & _ & _ & _ & Hrm).
  destruct (Hrm eq_refl) as (_ & Hun).
  destruct (Hun eq_refl) as (Hr & Hs & He).
  split; [exact Hr | ].
  split; [exact Hs | ].
  rewrite Ht, He. reflexivity.
Defined.

(** ** The state preconditions of the add-liquidity and swap quotes *)

(** The common opening of the add-liquidity and swap quotes: refresh, then
    the existence check, then the liquidity check, each on the refreshed
    object. *)
Lemma refresh_then_checks {B} (h : Helpers) (K : M B) (w : World) :
  (let! _ := refresh h None in
   let! _ := require_exists in
   let! _ := require_liquidity in
   K) w
  = let p' := refreshed h (self w) in
    match snapshot_source h (self w) with
    | inl e => (Raise e, {| self := p'; trace := trace w ++ [EvRefresh] |})
    | inr _ =>
      if negb (truthy_flag (Pool.exists_ p')) then
        (Raise BootstrapIsRequired,
         {| self := p'; trace := trace w ++ [EvRefresh; EvCheckExists] |})
      else if negb (truthy_int (Pool.issued_pool_tokens p')) then
        (Raise PoolHasNoLiquidity,
         {| self := p';
            trace := trace w ++ [EvRefresh; EvCheckExists; EvCheckLiquidity] |})
      else
        K {| self := p';
             trace := trace w ++ [EvRefresh; EvCheckExists; EvCheckLiquidity] |}
    end.
Proof.
  unfold bind at 1. rewrite refresh_None_run. cbv zeta.
  destruct (snapshot_source h (self w)) as [e | info]; [reflexivity | ].
  unfold require_exists, require_liquidity. unfold_M. simpl.
  destruct (truthy_flag (Pool.exists_ (refreshed h (self w)))); simpl;
    [ | rewrite <- !app_assoc; reflexivity].
  destruct (truthy_int (Pool.issued_pool_tokens (refreshed h (self w)))); simpl;
    rewrite <- !app_assoc; reflexivity.
Qed.

(** The asset-set test in terms of ids. *)
Lemma asset_set_eq (a1 a2 b1 b2 : Asset.t) :
  asset_set a1 a2 = asset_set b1 b2
  <-> (Asset.id a1 = Asset.id b1 \/ Asset.id a1 = Asset.id b2)
      /\ (Asset.id a2 = Asset.id b1 \/ Asset.id a2 = Asset.id b2)
      /\ (Asset.id b1 = Asset.id a1 \/ Asset.id b1 = Asset.id a2)
      /\ (Asset.id b2 = Asset.id a1 \/ Asset.id b2 = Asset.id a2).
Proof. unfold asset_set. set_solver. Qed.

Lemma Asset_eqb_eq (a b : Asset.t) : Asset.eqb a b = true <-> Asset.id a = Asset.id b.
Proof. unfold Asset.eqb. apply Z.eqb_eq. Qed.

Lemma Asset_eqb_neq (a b : Asset.t) : Asset.eqb a b = false <-> Asset.id a <> Asset.id b.
Proof. unfold Asset.eqb. apply Z.eqb_neq. Qed.

(** C1, on the code. On an active pool, [fetch_fixed_input_swap_quote]
    returns a quote only for an input in [asset_1]: the second branch tests
    [asset_1] again, so an input in [asset_2] falls through to [raise
    False], a [TypeError], after the refresh and the two state checks and
    before any formula is called. An input in a foreign asset ends the same
    way. *)
Theorem fixed_input_swap_quote_of_asset_2 (h : Helpers) (F : Formulas) (w : World)
    (amount_in : AssetAmount.t) (slippage : Q) :
  is_ok (snapshot_source h (self w)) = true ->
  Active (refreshed h (self w)) ->
  Asset.eqb (AssetAmount.asset amount_in) (Pool.asset_1 (self w)) = false ->
  fetch_fixed_input_swap_quote h F amount_in slippage w
  = (Raise TypeError,
     {| self := refreshed h (self w);
        trace := trace w ++ [EvRefresh; EvCheckExists; EvCheckLiquidity] |}).
Proof.
  intros Hsrc [Hex Hliq] Hne.
  unfold fetch_fixed_input_swap_quote. rewrite refresh_then_checks. cbv zeta.
  destruct (snapshot_source h (self w)) as [e | info]; [discriminate | ].
  rewrite Hex, Hliq. simpl. unfold_M. simpl.
  destruct (refreshed_assets h (self w)) as [-> _].
  rewrite Hne. reflexivity.
Qed.

(** On the sample pool (assets 20 and 10, reserves 1,000,000 and
    2,000,000, 1000 pool tokens issued): a swap of 10,000 of asset 10, the
    pool's [asset_2]. *)
Lemma fixed_input_swap_quote_of_asset_2_witness :
  let w := Sample.pool (Sample.bootstrapped 1000) in
  Pool.asset_2 (self w) = Sample.ASSET_A
  /\ fetch_fixed_input_swap_quote Sample.helpers SpecFormulas.formulas
       (AssetAmount.mk Sample.ASSET_A 10000) (5 # 100) w
     = (Raise TypeError,
        {| self := refreshed Sample.helpers (self w);
           trace := trace w ++ [EvRefresh; EvCheckExists; EvCheckLiquidity] |}).
Proof.
  split; [reflexivity | ].
  apply (fixed_input_swap_quote_of_asset_2 Sample.helpers SpecFormulas.formulas
           (Sample.pool (Sample.bootstrapped 1000))
           (AssetAmount.mk Sample.ASSET_A 10000) (5 # 100)).
  - reflexivity.
  - split; reflexivity.
  - reflexivity.
Defined.

(** The sibling branch: an input in [asset_1] is quoted from the formula,
    with the reserves of [asset_1] as input supply. *)
Lemma fixed_input_swap_quote_of_asset_1 (h : Helpers) (F : Formulas) (w : World)
    (amount_in : AssetAmount.t) (slippage : Q) (t : Asset.t) (r1 r2 n fee : Z)
    (out total_fee : Z) (impact : Q) :
  is_ok (snapshot_source h (self w)) = true ->
  holds (refreshed h (self w)) t r1 r2 n fee -> n <> 0 ->
  Asset.eqb (AssetAmount.asset amount_in) (Pool.asset_1 (self w)) = true ->
  calculate_fixed_input_swap F r1 r2 (AssetAmount.amount amount_in) fee
  = inr (out, total_fee, impact) ->
  fst (fetch_fixed_input_swap_quote h F amount_in slippage w)
  = Ok {| SwapQuote.swap_type := "fixed-input";
          SwapQuote.amount_in := amount_in;
          SwapQuote.amount_out := AssetAmount.mk (Pool.asset_2 (self w)) out;
          SwapQuote.swap_fees := AssetAmount.mk (AssetAmount.asset amount_in) total_fee;
          SwapQuote.slippage := slippage;
          SwapQuote.price_impact := impact |}.
Proof.
  intros Hsrc (Hex & Ht & Hr1 & Hr2 & Hn & Hfee) Hn0 Heq Hswap.
  unfold fetch_fixed_input_swap_quote. rewrite refresh_then_checks. cbv zeta.
  destruct (snapshot_source h (self w)) as [e | info]; [discriminate | ].
  rewrite Hex, Hn. simpl.
  destruct (Z.eqb_spec n 0) as [ | _]; [contradiction | ]. simpl.
  unfold_M. simpl.
  destruct (refreshed_assets h (self w)) as [-> ->].
  rewrite Heq. simpl. rewrite Hr1, Hr2, Hfee. simpl. unfold args4. simpl.
  rewrite Hswap. reflexivity.
Qed.

(** What follows the checks in the flexible add quote never raises one of
    the two state errors. *)
Lemma flexible_add_tail_not_state_error (F : Formulas)
    (amount_1 amount_2 : AssetAmount.t) (slippage : Q) (w : World) (e : exn) :
  e = BootstrapIsRequired \/ e = PoolHasNoLiquidity ->
  fst ((let! p := get_self in
        let! (pool_token_asset_amount, swap_from_asset_1_to_asset_2, swap_in_amount,
              swap_out_amount, swap_total_fee_amount, swap_price_impact) :=
          call SubsequentAdd
            (args6 (calculate_subsequent_add_liquidity F)
               (Pool.asset_1_reserves p) (Pool.asset_2_reserves p)
               (Pool.issued_pool_tokens p) (Pool.total_fee_share p)
               (AssetAmount.amount amount_1) (AssetAmount.amount amount_2)) in
        let internal_swap_quote :=
          internal_swap_quote_of_add p swap_from_asset_1_to_asset_2 swap_in_amount
            swap_out_amount swap_total_fee_amount swap_price_impact in
        let! minted := pool_token_amount pool_token_asset_amount in
        ret {| FlexibleAddLiquidityQuote.amounts_in :=
                 asset_dict (Pool.asset_1 p) amount_1 (Pool.asset_2 p) amount_2;
               FlexibleAddLiquidityQuote.pool_token_asset_amount := minted;
               FlexibleAddLiquidityQuote.slippage := slippage;
               FlexibleAddLiquidityQuote.internal_swap_quote := internal_swap_quote |}) w)
  <> Raise e.
Proof.
  intros He. unfold_M. simpl. unfold args6, rbind, as_int, of_formula.
  destruct (Pool.asset_1_reserves (self w)), (Pool.asset_2_reserves (self w)),
    (Pool.issued_pool_tokens (self w)), (Pool.total_fee_share (self w)); simpl;
    try (destruct He; subst; discriminate).
  destruct (calculate_subsequent_add_liquidity F _ _ _ _ _ _)
    as [err | [[[[[minted dir] sin] sout] sfee] imp]]; simpl;
    try (destruct He; subst; discriminate).
  destruct (Pool.pool_token_asset (self w)); simpl; destruct He; subst; discriminate.
Qed.

(** C4. In [fetch_flexible_add_liquidity_quote], a pair of amounts that
    does not cover exactly the pool's two assets fails the assertion at
    once. Otherwise, once the snapshot is read, the quote raises
    bootstrap-required exactly when the refreshed pool does not exist, and
    no-liquidity exactly when it exists and has no issued pool tokens; in
    both cases the log ends with the failed check, so
    [calculate_subsequent_add_liquidity] has not been called. *)
Theorem flexible_add_preconditions (h : Helpers) (F : Formulas) (w : World)
    (amount_a amount_b : AssetAmount.t) (slippage : Q) :
  is_ok (snapshot_source h (self w)) = true ->
  let p := self w in
  let p' := refreshed h p in
  let out := fetch_flexible_add_liquidity_quote h F amount_a amount_b slippage w in
  (asset_set (Pool.asset_1 p) (Pool.asset_2 p)
   <> asset_set (AssetAmount.asset amount_a) (AssetAmount.asset amount_b) ->
   out = (Raise (AssertionError (Some "Pool assets and given assets don't match.")), w))
  /\ (asset_set (Pool.asset_1 p) (Pool.asset_2 p)
      = asset_set (AssetAmount.asset amount_a) (AssetAmount.asset amount_b) ->
      (fst out = Raise BootstrapIsRequired <-> Unbootstrapped p')
      /\ (fst out = Raise PoolHasNoLiquidity <-> BootstrappedEmpty p')
      /\ (Unbootstrapped p' ->
          snd out = {| self := p'; trace := trace w ++ [EvRefresh; EvCheckExists] |})
      /\ (BootstrappedEmpty p' ->
          snd out = {| self := p';
                       trace := trace w ++ [EvRefresh; EvCheckExists; EvCheckLiquidity] |})).
Proof.
  intros Hsrc p p' out. subst out p' p. unfold fetch_flexible_add_liquidity_quote.
  rewrite !bind_get_self.
  split.
  - intros Hne. rewrite bool_decide_eq_false_2 by exact Hne. reflexivity.
  - intros Heq. rewrite bool_decide_eq_true_2 by exact Heq.
    rewrite refresh_then_checks. cbv zeta.
    destruct (snapshot_source h (self w)) as [e | info] eqn:Hinfo; [discriminate | ].
    unfold Unbootstrapped, BootstrappedEmpty.
    destruct (truthy_flag (Pool.exists_ (refreshed h (self w)))) eqn:Hex; simpl.
    + destruct (truthy_int (Pool.issued_pool_tokens (refreshed h (self w)))) eqn:Hliq;
        simpl.
      * split; [ | split; [ | split]].
        -- split; [ | discriminate].
           intros Hout. exfalso.
           eapply flexible_add_tail_not_state_error; [ | exact Hout]. auto.
        -- split; [ | intros [_ ?]; discriminate].
           intros Hout. exfalso.
           eapply flexible_add_tail_not_state_error; [ | exact Hout]. auto.
        -- discriminate.
        -- intros [_ ?]; discriminate.
      * split; [ | split; [ | split]].
        -- split; discriminate.
        -- split; auto.
        -- discriminate.
        -- reflexivity.
    + split; [ | split; [ | split]].
      * split; auto.
      * split; [discriminate | intros [? _]; discriminate].
      * reflexivity.
      * intros [? _]; discriminate.
Qed.

(** On the sample ledger: the pool account is bootstrapped but holds no
    issued pool tokens. *)
Lemma flexible_add_preconditions_witness :
  let w := Sample.pool (Sample.bootstrapped 0) in
  let out :=
    fetch_flexible_add_liquidity_quote Sample.helpers SpecFormulas.formulas
      (AssetAmount.mk Sample.ASSET_A 500) (AssetAmount.mk Sample.ASSET_B 700) (5 # 100) w in
  fst out = Raise PoolHasNoLiquidity
  /\ trace (snd out) = [EvRefresh; EvCheckExists; EvCheckLiquidity].
Proof.
  intros w out.
  destruct (flexible_add_preconditions Sample.helpers SpecFormulas.formulas
              (Sample.pool (Sample.bootstrapped 0))
              (AssetAmount.mk Sample.ASSET_A 500) (AssetAmount.mk Sample.ASSET_B 700)
              (5 # 100) eq_refl) as [_ H].
  destruct H as (_ & Hliq & _ & Htrace).
  - vm_compute. reflexivity.
  - split.
    + apply Hliq. split; reflexivity.
    + subst out w. rewrite Htrace by (split; reflexivity). reflexivity.
Defined.

(** ** The remove quotes *)

(** The common opening of the two remove quotes on an object that exists:
    the existence check on the held snapshot, then the refresh. *)
Lemma check_then_refresh {B} (h : Helpers) (x : AssetAmount.t + Z) (t0 : Asset.t)
    (K : AssetAmount.t -> M B) (w : World) :
  truthy_flag (Pool.exists_ (self w)) = true ->
  Pool.pool_token_asset (self w) = Some t0 ->
  is_ok (snapshot_source h (self w)) = true ->
  (let! _ := require_exists in
   let! pool_token_asset_in := as_pool_token_amount x in
   let! _ := refresh h None in
   K pool_token_asset_in) w
  = K (burn_of t0 x)
      {| self := refreshed h (self w); trace := trace w ++ [EvCheckExists; EvRefresh] |}.
Proof.
  intros Hex Ht Hsrc.
  destruct x as [a | n];
    unfold require_exists, as_pool_token_amount, pool_token_amount; unfold_M; simpl;
    rewrite Hex; simpl; rewrite ?Ht; rewrite refresh_None_run; simpl;
    (destruct (snapshot_source h (self w)); [discriminate | ]);
    simpl; rewrite <- app_assoc; reflexivity.
Qed.

(** C2, on the code. On a pool object that exists and whose refreshed
    snapshot has no issued pool tokens, [fetch_remove_liquidity_quote]
    makes no liquidity check: after the refresh it calls the
    proportional-remove formula with [issued_pool_tokens = 0], and its
    outcome is the formula's. It never raises no-liquidity, and the object
    has been refreshed by then. *)
Theorem remove_quote_without_liquidity (h : Helpers) (F : Formulas) (w : World)
    (x : AssetAmount.t + Z) (slippage : Q) (t0 t : Asset.t) (r1 r2 fee : Z) :
  truthy_flag (Pool.exists_ (self w)) = true ->
  Pool.pool_token_asset (self w) = Some t0 ->
  is_ok (snapshot_source h (self w)) = true ->
  holds (refreshed h (self w)) t r1 r2 0 fee ->
  let burn := burn_of t0 x in
  let p' := refreshed h (self w) in
  let out := fetch_remove_liquidity_quote h F x slippage w in
  fst out
  = match calculate_remove_liquidity_output_amounts F (AssetAmount.amount burn) r1 r2 0 with
    | inl e => Raise (FormulaError e)
    | inr (asset_1_output_amount, asset_2_output_amount) =>
      Ok {| RemoveLiquidityQuote.amounts_out :=
              asset_dict
                (Pool.asset_1 p') (AssetAmount.mk (Pool.asset_1 p') asset_1_output_amount)
                (Pool.asset_2 p') (AssetAmount.mk (Pool.asset_2 p') asset_2_output_amount);
            RemoveLiquidityQuote.pool_token_asset_amount := burn;
            RemoveLiquidityQuote.slippage := slippage |}
    end
  /\ fst out <> Raise PoolHasNoLiquidity
  /\ snd out
     = {| self := p';
          trace := trace w ++ [EvCheckExists; EvRefresh; EvFormula RemoveOutputs] |}.
Proof.
  intros Hex Ht0 Hsrc (_ & _ & Hr1 & Hr2 & Hn & _). cbv zeta.
  unfold fetch_remove_liquidity_quote.
  rewrite (check_then_refresh h x t0 _ w Hex Ht0 Hsrc).
  unfold_M. simpl. rewrite Hr1, Hr2, Hn. unfold args4. simpl. rewrite <- app_assoc. simpl.
  destruct (calculate_remove_liquidity_output_amounts F _ r1 r2 0) as [e | [o1 o2]]; simpl;
    repeat split; discriminate.
Qed.

(** On the sample ledger, with the formulas of the spec: the pool account is
    bootstrapped with reserves and no issued pool tokens, and the quote for
    burning 100 pool tokens ends in the formula's division by zero. *)
Lemma remove_quote_without_liquidity_witness :
  let w := Sample.pool (Sample.bootstrapped 0) in
  let out :=
    fetch_remove_liquidity_quote Sample.helpers SpecFormulas.formulas
      (inr 100) (5 # 100) w in
  BootstrappedEmpty (self w)
  /\ fst out = Raise (FormulaError DivisionByZero)
  /\ fst out <> Raise PoolHasNoLiquidity
  /\ trace (snd out) = [EvCheckExists; EvRefresh; EvFormula RemoveOutputs].
Proof.
  intros w out.
  destruct (remove_quote_without_liquidity Sample.helpers SpecFormulas.formulas
              (Sample.pool (Sample.bootstrapped 0)) (inr 100) (5 # 100)
              (Asset.of_id 30) (Asset.of_id 30) 1000000 2000000 3
              eq_refl eq_refl eq_refl
              (conj eq_refl (conj eq_refl (conj eq_refl
                 (conj eq_refl (conj eq_refl eq_refl))))))
    as (Hfst & Hne & Hsnd).
  split; [split; reflexivity | ].
  split; [exact Hfst | ].
  split; [exact Hne | ].
  subst out w. rewrite Hsnd. reflexivity.
Defined.

(** C3. On a pool object that exists, when the proportional payout of the
    burnt pool tokens is [(out_1, out_2)] on the refreshed reserves and the
    fixed-input swap of the unwanted payout, on the reserves reduced by
    both payouts, gives [swap_out], the single-asset remove quote returns
    and its [amount_out] is the desired payout plus [swap_out], in the
    desired asset; the internal swap it reports is that swap. *)
Theorem single_asset_remove_amount_out (h : Helpers) (F : Formulas) (w : World)
    (x : AssetAmount.t + Z) (output_asset : Asset.t) (slippage : Q)
    (t0 t : Asset.t) (r1 r2 n fee out_1 out_2 swap_out swap_fee : Z) (impact : Q) :
  truthy_flag (Pool.exists_ (self w)) = true ->
  Pool.pool_token_asset (self w) = Some t0 ->
  is_ok (snapshot_source h (self w)) = true ->
  holds (refreshed h (self w)) t r1 r2 n fee ->
  let p' := refreshed h (self w) in
  let burn := burn_of t0 x in
  let wants_1 := Asset.eqb output_asset (Pool.asset_1 p') in
  (wants_1 = true \/ Asset.eqb output_asset (Pool.asset_2 p') = true) ->
  calculate_remove_liquidity_output_amounts F (AssetAmount.amount burn) r1 r2 n
  = inr (out_1, out_2) ->
  let desired_asset := if wants_1 then Pool.asset_1 p' else Pool.asset_2 p' in
  let unwanted_asset := if wants_1 then Pool.asset_2 p' else Pool.asset_1 p' in
  let desired_payout := if wants_1 then out_1 else out_2 in
  let unwanted_payout := if wants_1 then out_2 else out_1 in
  let desired_reserves := if wants_1 then r1 else r2 in
  let unwanted_reserves := if wants_1 then r2 else r1 in
  calculate_fixed_input_swap F
    (unwanted_reserves - unwanted_payout) (desired_reserves - desired_payout)
    unwanted_payout fee
  = inr (swap_out, swap_fee, impact) ->
  exists q : SingleAssetRemoveLiquidityQuote.t,
    fst (fetch_single_asset_remove_liquidity_quote h F x output_asset slippage w) = Ok q
    /\ SingleAssetRemoveLiquidityQuote.amount_out q
       = AssetAmount.mk desired_asset (desired_payout + swap_out)
    /\ SingleAssetRemoveLiquidityQuote.internal_swap_quote q
       = {| InternalSwapQuote.amount_in := AssetAmount.mk unwanted_asset unwanted_payout;
            InternalSwapQuote.amount_out := AssetAmount.mk desired_asset swap_out;
            InternalSwapQuote.swap_fees := AssetAmount.mk unwanted_asset swap_fee;
            InternalSwapQuote.price_impact := impact |}
    /\ SingleAssetRemoveLiquidityQuote.pool_token_asset_amount q = burn.
Proof.
  intros Hex Ht0 Hsrc (_ & _ & Hr1 & Hr2 & Hn & Hfee). cbv zeta.
  intros Hwant Hremove Hswap.
  unfold fetch_single_asset_remove_liquidity_quote.
  rewrite (check_then_refresh h x t0 _ w Hex Ht0 Hsrc).
  unfold_M. simpl. rewrite Hr1, Hr2, Hn, Hfee. unfold args4. simpl.
  rewrite Hremove. simpl.
  destruct (Asset.eqb output_asset (Pool.asset_1 (refreshed h (self w)))) eqn:H1; simpl.
  - rewrite Hswap. simpl. eexists. repeat split.
  - destruct Hwant as [Hw | Hw]; [discriminate | ]. rewrite Hw. simpl.
    rewrite Hswap. simpl. eexists. repeat split.
Qed.

(** On the sample pool with the formulas of the spec: burning 100 of the
    1000 pool tokens for asset 10 (the pool's [asset_2]) pays 200,000 of it
    directly and swaps the 100,000 of asset 20 for 179,513 more. *)
Lemma single_asset_remove_amount_out_witness :
  exists q : SingleAssetRemoveLiquidityQuote.t,
    fst (fetch_single_asset_remove_liquidity_quote Sample.helpers SpecFormulas.formulas
           (inr 100) Sample.ASSET_A (5 # 100) (Sample.pool (Sample.bootstrapped 1000)))
    = Ok q
    /\ SingleAssetRemoveLiquidityQuote.amount_out q
       = AssetAmount.mk Sample.ASSET_A (200000 + 179513).
Proof.
  destruct (single_asset_remove_amount_out Sample.helpers SpecFormulas.formulas
              (Sample.pool (Sample.bootstrapped 1000)) (inr 100) Sample.ASSET_A (5 # 100)
              (Asset.of_id 30) (Asset.of_id 30) 1000000 2000000 1000 3
              100000 200000 179513 300
              (SpecFormulas.price_impact_of 900000 1800000 100000 179513)
              eq_refl eq_refl eq_refl
              (conj eq_refl (conj eq_refl (conj eq_refl
                 (conj eq_refl (conj eq_refl eq_refl)))))
              (or_intror eq_refl) eq_refl eq_refl)
    as (q & Hq & Hout & _).
  exists q. split; [exact Hq | exact Hout].
Defined.

(** ** The add-liquidity quotes *)

(** The flexible add quote on an active pool, for a pair of amounts that
    covers the pool's assets. *)
Lemma flexible_add_active (h : Helpers) (F : Formulas) (w : World)
    (amount_a amount_b : AssetAmount.t) (slippage : Q)
    (t : Asset.t) (r1 r2 n fee : Z) :
  is_ok (snapshot_source h (self w)) = true ->
  holds (refreshed h (self w)) t r1 r2 n fee -> n <> 0 ->
  asset_set (Pool.asset_1 (self w)) (Pool.asset_2 (self w))
  = asset_set (AssetAmount.asset amount_a) (AssetAmount.asset amount_b) ->
  let p' := refreshed h (self w) in
  let amount_1 :=
    if Asset.eqb (AssetAmount.asset amount_a) (Pool.asset_1 (self w))
    then amount_a else amount_b in
  let amount_2 :=
    if Asset.eqb (AssetAmount.asset amount_a) (Pool.asset_2 (self w))
    then amount_a else amount_b in
  fst (fetch_flexible_add_liquidity_quote h F amount_a amount_b slippage w)
  = match calculate_subsequent_add_liquidity F r1 r2 n fee
            (AssetAmount.amount amount_1) (AssetAmount.amount amount_2) with
    | inl e => Raise (FormulaError e)
    | inr (minted, direction, swap_in, swap_out, swap_fee, impact) =>
      Ok {| FlexibleAddLiquidityQuote.amounts_in :=
              asset_dict (Pool.asset_1 p') amount_1 (Pool.asset_2 p') amount_2;
            FlexibleAddLiquidityQuote.pool_token_asset_amount := AssetAmount.mk t minted;
            FlexibleAddLiquidityQuote.slippage := slippage;
            FlexibleAddLiquidityQuote.internal_swap_quote :=
              internal_swap_quote_of_add p' direction swap_in swap_out swap_fee impact |}
    end.
Proof.
  intros Hsrc (Hex & Ht & Hr1 & Hr2 & Hn & Hfee) Hn0 Hset. cbv zeta.
  unfold fetch_flexible_add_liquidity_quote. rewrite bind_get_self.
  rewrite bool_decide_eq_true_2 by exact Hset.
  rewrite refresh_then_checks. cbv zeta.
  destruct (snapshot_source h (self w)) as [e | info]; [discriminate | ].
  rewrite Hex, Hn. simpl.
  destruct (Z.eqb_spec n 0) as [ | _]; [contradiction | ]. simpl.
  unfold_M. simpl. rewrite Hr1, Hr2, Hn, Hfee. unfold args6. simpl.
  destruct (calculate_subsequent_add_liquidity F r1 r2 n fee _ _)
    as [e | [[[[[minted dir] sin] sout] sfee] imp]]; simpl; rewrite ?Ht; reflexivity.
Qed.




(** ** Slippage bounds *)

Lemma receive_bound_range (raw : Z) (s : Q) :
  (0 <= s)%Q -> (s < 1)%Q -> 0 <= raw ->
  0 <= receive_bound raw s <= raw.
Proof.
  intros Hs0 Hs1 Hraw. unfold receive_bound.
  assert (Hq : (0 <= inject_Z raw)%Q)
    by (change 0%Q with (inject_Z 0); rewrite <- Zle_Qle; exact Hraw).
  split.
  - change 0 with (Qfloor 0). apply Qfloor_resp_le.
    apply Qmult_le_0_compat; [exact Hq | lra].
  - rewrite <- (Qfloor_Z raw) at 2. apply Qfloor_resp_le.
    rewrite <- (Qmult_1_r (inject_Z raw)) at 2.
    rewrite (Qmult_comm (inject_Z raw) (1 - s)), (Qmult_comm (inject_Z raw) 1).
    apply Qmult_le_compat_r; [lra | exact Hq].
Qed.

Lemma pay_bound_range (raw : Z) (s : Q) :
  (0 <= s)%Q -> 0 <= raw -> raw <= pay_bound raw s.
Proof.
  intros Hs0 Hraw. unfold pay_bound.
  assert (Hq : (0 <= inject_Z raw)%Q)
    by (change 0%Q with (inject_Z 0); rewrite <- Zle_Qle; exact Hraw).
  rewrite <- (Qceiling_Z raw) at 1. apply Qceiling_resp_le.
  rewrite <- (Qmult_1_r (inject_Z raw)) at 1.
  rewrite (Qmult_comm (inject_Z raw) (1 + s)), (Qmult_comm (inject_Z raw) 1).
  apply Qmult_le_compat_r; [lra | exact Hq].
Qed.

Lemma bounds_without_slippage (raw : Z) (s : Q) :
  (s == 0)%Q -> pay_bound raw s = raw /\ receive_bound raw s = raw.
Proof.
  intros Hs. unfold pay_bound, receive_bound. split.
  - rewrite <- (Qceiling_Z raw) at 2. apply Qceiling_comp. rewrite Hs. ring.
  - rewrite <- (Qfloor_Z raw) at 2. apply Qfloor_comp. rewrite Hs. ring.
Qed.

(** Reading back the dictionary literal of a quote: the second key always
    gives the second value, and the first key gives the first value unless
    the two assets have the same id. *)
Lemma dict_get_asset_dict (k1 k2 : Asset.t) (v1 v2 : AssetAmount.t) :
  dict_get (asset_dict k1 v1 k2 v2) k2 = inr v2
  /\ dict_get (asset_dict k1 v1 k2 v2) k1
     = inr (if Asset.eqb k1 k2 then v2 else v1).
Proof.
  unfold dict_get, asset_dict, Asset.eqb. split.
  - by rewrite lookup_insert_eq.
  - destruct (Z.eqb_spec (Asset.id k1) (Asset.id k2)) as [Heq | Hne].
    + by rewrite Heq, lookup_insert_eq.
    + rewrite lookup_insert_ne by congruence. by rewrite lookup_insert_eq.
Qed.

(** Each quote carries the tolerance that the caller gave. *)
Lemma returns_ret {A} (a : A) (P : A -> Prop) : P a -> returns (ret a) P.
Proof. intros Ha w a' H. injection H as <-. exact Ha. Qed.

Lemma returns_raise {A} (e : exn) (P : A -> Prop) : returns (raise e) P.
Proof. intros w a H. discriminate H. Qed.

Lemma returns_bind {A B} (m : M A) (k : A -> M B) (P : B -> Prop) :
  (forall a, returns (k a) P) -> returns (bind m k) P.
Proof.
  intros Hk w b. unfold bind.
  destruct (m w) as [[e | a] w1]; simpl; [discriminate | apply Hk].
Qed.

Ltac returns_solve :=
  cbv beta zeta;
  lazymatch goal with
  | |- returns (bind _ _) _ => apply returns_bind; intros ?; returns_solve
  | |- returns (if ?b then _ else _) _ => destruct b; returns_solve
  | |- returns (match ?x with _ => _ end) _ => destruct x; returns_solve
  | |- returns (ret _) _ => apply returns_ret; reflexivity
  | |- returns (raise _) _ => apply returns_raise
  end.

Lemma flexible_add_quote_slippage (h : Helpers) (F : Formulas)
    (amount_a amount_b : AssetAmount.t) (s : Q) :
  returns (fetch_flexible_add_liquidity_quote h F amount_a amount_b s)
    (fun q => FlexibleAddLiquidityQuote.slippage q = s).
Proof. unfold fetch_flexible_add_liquidity_quote. returns_solve. Qed.

Lemma single_asset_add_quote_slippage (h : Helpers) (F : Formulas)
    (amount_a : AssetAmount.t) (s : Q) :
  returns (fetch_single_asset_add_liquidity_quote h F amount_a s)
    (fun q => SingleAssetAddLiquidityQuote.slippage q = s
              /\ SingleAssetAddLiquidityQuote.amount_in q = amount_a).
Proof.
  unfold fetch_single_asset_add_liquidity_quote.
  repeat (apply returns_bind; intros ?).
  repeat match goal with
         | |- returns (match ?x with _ => _ end) _ => destruct x
         end.
  cbv zeta. apply returns_bind. intros minted. apply returns_ret. split; reflexivity.
Qed.

Lemma remove_quote_slippage (h : Helpers) (F : Formulas)
    (x : AssetAmount.t + Z) (s : Q) :
  returns (fetch_remove_liquidity_quote h F x s)
    (fun q => RemoveLiquidityQuote.slippage q = s).
Proof. unfold fetch_remove_liquidity_quote. returns_solve. Qed.

Lemma single_asset_remove_quote_slippage (h : Helpers) (F : Formulas)
    (x : AssetAmount.t + Z) (output_asset : Asset.t) (s : Q) :
  returns (fetch_single_asset_remove_liquidity_quote h F x output_asset s)
    (fun q => SingleAssetRemoveLiquidityQuote.slippage q = s).
Proof. unfold fetch_single_asset_remove_liquidity_quote. returns_solve. Qed.

Lemma fixed_input_swap_quote_slippage (h : Helpers) (F : Formulas)
    (amount_in : AssetAmount.t) (s : Q) :
  returns (fetch_fixed_input_swap_quote h F amount_in s)
    (fun q => SwapQuote.slippage q = s).
Proof. unfold fetch_fixed_input_swap_quote. returns_solve. Qed.

Lemma fixed_output_swap_quote_slippage (h : Helpers) (F : Formulas)
    (amount_out : AssetAmount.t) (s : Q) :
  returns (fetch_fixed_output_swap_quote h F amount_out s)
    (fun q => SwapQuote.slippage q = s).
Proof. unfold fetch_fixed_output_swap_quote. returns_solve. Qed.

(** C7, as the claim states it, fails for the deposit amounts, which are
    amounts the participant pays. The flexible add quote of the sample pool
    for 700 of [asset_1] and 500 of [asset_2] with tolerance 0.05 is turned
    into transactions that carry 700 and 500, the raw amounts, where the
    upper bounds would be 735 and 525; what carries a bound is the amount
    of pool tokens received. *)
Lemma deposits_are_sent_raw :
  let s := 5 # 100 in
  let out :=
    fetch_flexible_add_liquidity_quote Sample.helpers SpecFormulas.formulas
      (AssetAmount.mk Sample.ASSET_B 700) (AssetAmount.mk Sample.ASSET_A 500) s
      (Sample.pool (Sample.bootstrapped 1000)) in
  exists (q : FlexibleAddLiquidityQuote.t) (txns : FlexibleAddTransactions.t),
    fst out = Ok q
    /\ FlexibleAddLiquidityQuote.slippage q = s
    /\ FlexibleAddLiquidityQuote.amounts_in q !! 20
       = Some (AssetAmount.mk Sample.ASSET_B 700)
    /\ FlexibleAddLiquidityQuote.amounts_in q !! 10
       = Some (AssetAmount.mk Sample.ASSET_A 500)
    /\ prepare_add_liquidity_transactions_from_quote (self (snd out)) (QFlexibleAdd q) None
       = inr (FlexibleAdd txns)
    /\ FlexibleAddTransactions.asset_1_amount txns = 700
    /\ FlexibleAddTransactions.asset_2_amount txns = 500
    /\ pay_bound 700 s = 735
    /\ pay_bound 500 s = 525
    /\ FlexibleAddTransactions.asset_1_amount txns <> pay_bound 700 s
    /\ FlexibleAddTransactions.asset_2_amount txns <> pay_bound 500 s.
Proof.
  cbv zeta. eexists. eexists.
  split; [vm_compute; reflexivity | ].
  split; [reflexivity | ].
  split; [vm_compute; reflexivity | ].
  split; [vm_compute; reflexivity | ].
  split; [vm_compute; reflexivity | ].
  split; [reflexivity | ].
  split; [reflexivity | ].
  split; [vm_compute; reflexivity | ].
  split; [vm_compute; reflexivity | ].
  split; vm_compute; discriminate.
Qed.

(** C7, amended. For the caller's tolerance [s] in [[0,1)] and the quotes
    that the controller returns for it. Of a swap quote, the amount handed
    to the transactions as what the participant pays is [ceil(raw * (1+s))]
    and is not below the raw amount, and the amount handed on as what the
    participant receives is [floor(raw * (1-s))] and lies between 0 and the
    raw amount. Of the add-liquidity quotes, the amount of pool tokens to
    receive is handed on as [floor(raw * (1-s))], and the deposit amounts
    are handed on raw, without an upper bound; the initial add quote has no
    tolerance and its deposits are handed on raw too. Of the remove quotes,
    each output is handed on as [floor(raw * (1-s))]. With [s = 0] both
    bounds are the raw amounts; a received amount that passes the check of
    the lower bound and a paid amount that passes the check of the upper
    bound lie on the right side of the bound; and for [s = 0.05] and a raw
    receive amount of 1000 the lower bound is 950, which accepts 950 and
    rejects 949. *)
Theorem slippage_bounds (h : Helpers) (F : Formulas) (s : Q) :
  (0 <= s)%Q -> (s < 1)%Q ->
  (forall (w : World) (amount : AssetAmount.t) (q : SwapQuote.t)
          (p : Pool.t) (swapper_address : option string),
     fst (fetch_fixed_input_swap_quote h F amount s w) = Ok q
     \/ fst (fetch_fixed_output_swap_quote h F amount s w) = Ok q ->
     let txns := prepare_swap_transactions_from_quote p q swapper_address in
     let raw_in := AssetAmount.amount (SwapQuote.amount_in q) in
     let raw_out := AssetAmount.amount (SwapQuote.amount_out q) in
     SwapTransactions.asset_in_amount txns = Qceiling (inject_Z raw_in * (1 + s))
     /\ SwapTransactions.asset_out_amount txns = Qfloor (inject_Z raw_out * (1 - s))
     /\ (0 <= raw_in -> raw_in <= SwapTransactions.asset_in_amount txns)
     /\ (0 <= raw_out -> 0 <= SwapTransactions.asset_out_amount txns <= raw_out)
     /\ SwapTransactions.asset_in_id txns = Asset.id (AssetAmount.asset (SwapQuote.amount_in q)))
  /\ (forall (w : World) (amount_a amount_b : AssetAmount.t)
             (q : FlexibleAddLiquidityQuote.t) (p : Pool.t)
             (pooler_address : option string) (txns : FlexibleAddTransactions.t),
        fst (fetch_flexible_add_liquidity_quote h F amount_a amount_b s w) = Ok q ->
        prepare_add_liquidity_transactions_from_quote p (QFlexibleAdd q) pooler_address
        = inr (FlexibleAdd txns) ->
        FlexibleAddTransactions.min_pool_token_asset_amount txns
        = Qfloor (inject_Z (AssetAmount.amount
                              (FlexibleAddLiquidityQuote.pool_token_asset_amount q))
                  * (1 - s))
        /\ Some (FlexibleAddTransactions.asset_1_amount txns)
           = AssetAmount.amount
               <$> FlexibleAddLiquidityQuote.amounts_in q !! Asset.id (Pool.asset_1 p)
        /\ Some (FlexibleAddTransactions.asset_2_amount txns)
           = AssetAmount.amount
               <$> FlexibleAddLiquidityQuote.amounts_in q !! Asset.id (Pool.asset_2 p))
  /\ (forall (w : World) (amount_a : AssetAmount.t)
             (q : SingleAssetAddLiquidityQuote.t) (p : Pool.t)
             (pooler_address : option string) (txns : SingleAssetAddTransactions.t),
        fst (fetch_single_asset_add_liquidity_quote h F amount_a s w) = Ok q ->
        prepare_add_liquidity_transactions_from_quote p (QSingleAssetAdd q) pooler_address
        = inr (SingleAssetAdd txns) ->
        SingleAssetAddTransactions.min_pool_token_asset_amount txns
        = Some (Qfloor (inject_Z (AssetAmount.amount
                                    (SingleAssetAddLiquidityQuote.pool_token_asset_amount q))
                        * (1 - s)))
        /\ SingleAssetAddTransactions.asset_1_amount txns
           = (if Asset.eqb (AssetAmount.asset amount_a) (Pool.asset_1 p)
              then Some (AssetAmount.amount amount_a) else None)
        /\ SingleAssetAddTransactions.asset_2_amount txns
           = (if Asset.eqb (AssetAmount.asset amount_a) (Pool.asset_2 p)
              then Some (AssetAmount.amount amount_a) else None))
  /\ (forall (q : InitialAddLiquidityQuote.t) (p : Pool.t)
             (pooler_address : option string) (txns : InitialAddTransactions.t),
        prepare_add_liquidity_transactions_from_quote p (QInitialAdd q) pooler_address
        = inr (InitialAdd_ txns) ->
        Some (InitialAddTransactions.asset_1_amount txns)
        = AssetAmount.amount
            <$> InitialAddLiquidityQuote.amounts_in q !! Asset.id (Pool.asset_1 p)
        /\ Some (InitialAddTransactions.asset_2_amount txns)
           = AssetAmount.amount
               <$> InitialAddLiquidityQuote.amounts_in q !! Asset.id (Pool.asset_2 p))
  /\ (forall (w : World) (x : AssetAmount.t + Z) (q : RemoveLiquidityQuote.t)
             (p : Pool.t) (pooler_address : option string) (txns : RemoveTransactions.t),
        fst (fetch_remove_liquidity_quote h F x s w) = Ok q ->
        prepare_remove_liquidity_transactions_from_quote p (QRemove q) pooler_address
        = inr (Remove txns) ->
        Some (RemoveTransactions.min_asset_1_amount txns)
        = (fun a => Qfloor (inject_Z (AssetAmount.amount a) * (1 - s)))
            <$> RemoveLiquidityQuote.amounts_out q !! Asset.id (Pool.asset_1 p)
        /\ Some (RemoveTransactions.min_asset_2_amount txns)
           = (fun a => Qfloor (inject_Z (AssetAmount.amount a) * (1 - s)))
               <$> RemoveLiquidityQuote.amounts_out q !! Asset.id (Pool.asset_2 p))
  /\ (forall (w : World) (x : AssetAmount.t + Z) (output_asset : Asset.t)
             (q : SingleAssetRemoveLiquidityQuote.t) (p : Pool.t)
             (pooler_address : option string) (txns : SingleAssetRemoveTransactions.t),
        fst (fetch_single_asset_remove_liquidity_quote h F x output_asset s w) = Ok q ->
        prepare_remove_liquidity_transactions_from_quote p (QSingleAssetRemove q)
          pooler_address
        = inr (SingleAssetRemove txns) ->
        SingleAssetRemoveTransactions.min_output_asset_amount txns
        = Qfloor (inject_Z (AssetAmount.amount
                              (SingleAssetRemoveLiquidityQuote.amount_out q))
                  * (1 - s)))
  /\ ((s == 0)%Q -> forall raw : Z, pay_bound raw s = raw /\ receive_bound raw s = raw)
  /\ (forall raw actual : Z,
        (receive_check (receive_bound raw s) actual = true <-> receive_bound raw s <= actual)
        /\ (pay_check (pay_bound raw s) actual = true <-> actual <= pay_bound raw s))
  /\ receive_bound 1000 (5 # 100) = 950
  /\ receive_check (receive_bound 1000 (5 # 100)) 950 = true
  /\ receive_check (receive_bound 1000 (5 # 100)) 949 = false.
Proof.
  intros Hs0 Hs1.
  split; [ | split; [ | split; [ | split; [ | split; [ | split; [ | split; [ | split]]]]]]].
  - intros w amount q p swapper Hq. cbv zeta.
    assert (Hs : SwapQuote.slippage q = s).
    { destruct Hq as [Hq | Hq].
      - exact (fixed_input_swap_quote_slippage h F amount s w q Hq).
      - exact (fixed_output_swap_quote_slippage h F amount s w q Hq). }
    unfold prepare_swap_transactions_from_quote, prepare_swap_transactions,
      swap_amount_in_with_slippage, swap_amount_out_with_slippage,
      with_pay_bound, with_receive_bound. simpl. rewrite Hs.
    split; [reflexivity | split; [reflexivity | split; [ | split; [ | reflexivity]]]].
    + intros Hin. by apply pay_bound_range.
    + intros Hout. by apply receive_bound_range.
  - intros w amount_a amount_b q p pooler txns Hq Hprep.
    pose proof (flexible_add_quote_slippage h F amount_a amount_b s w q Hq) as Hs.
    simpl in Hs.
    unfold prepare_add_liquidity_transactions_from_quote,
      prepare_flexible_add_liquidity_transactions, pmap, pbind, dict_get,
      pool_token_asset_id in Hprep.
    destruct (FlexibleAddLiquidityQuote.amounts_in q !! Asset.id (Pool.asset_1 p))
      as [a1 | ]; [ | discriminate].
    destruct (FlexibleAddLiquidityQuote.amounts_in q !! Asset.id (Pool.asset_2 p))
      as [a2 | ]; [ | discriminate].
    destruct (Pool.pool_token_asset p) as [t | ]; [ | discriminate].
    injection Hprep as <-. simpl.
    unfold flexible_min_pool_token_asset_amount_with_slippage, receive_bound.
    rewrite Hs. repeat split.
  - intros w amount_a q p pooler txns Hq Hprep.
    destruct (single_asset_add_quote_slippage h F amount_a s w q Hq) as [Hs Hin].
    unfold prepare_add_liquidity_transactions_from_quote,
      prepare_single_asset_add_liquidity_transactions, pmap, pbind,
      pool_token_asset_id in Hprep.
    destruct (Pool.pool_token_asset p) as [t | ]; [ | discriminate].
    injection Hprep as <-. simpl.
    unfold single_min_pool_token_asset_amount_with_slippage, receive_bound.
    rewrite Hs, Hin. repeat split.
  - intros q p pooler txns Hprep.
    unfold prepare_add_liquidity_transactions_from_quote,
      prepare_initial_add_liquidity_transactions, pmap, pbind, dict_get,
      pool_token_asset_id in Hprep.
    destruct (InitialAddLiquidityQuote.amounts_in q !! Asset.id (Pool.asset_1 p))
      as [a1 | ]; [ | discriminate].
    destruct (InitialAddLiquidityQuote.amounts_in q !! Asset.id (Pool.asset_2 p))
      as [a2 | ]; [ | discriminate].
    destruct (Pool.pool_token_asset p) as [t | ]; [ | discriminate].
    injection Hprep as <-. simpl. repeat split.
  - intros w x q p pooler txns Hq Hprep.
    pose proof (remove_quote_slippage h F x s w q Hq) as Hs. simpl in Hs.
    unfold prepare_remove_liquidity_transactions_from_quote, pbind, pmap in Hprep.
    unfold dict_get at 1 2 in Hprep.
    unfold remove_amounts_out_with_slippage in Hprep.
    rewrite !lookup_fmap in Hprep. rewrite Hs in Hprep.
    destruct (RemoveLiquidityQuote.amounts_out q !! Asset.id (Pool.asset_1 p))
      as [a1 | ] eqn:H1; [ | discriminate].
    destruct (RemoveLiquidityQuote.amounts_out q !! Asset.id (Pool.asset_2 p))
      as [a2 | ] eqn:H2; [ | discriminate].
    simpl in Hprep.
    unfold prepare_remove_liquidity_transactions, pbind in Hprep.
    destruct (dict_get_asset_dict (Pool.asset_1 p) (Pool.asset_2 p)
                (with_receive_bound a1 s) (with_receive_bound a2 s)) as [Hd2 Hd1].
    rewrite Hd1, Hd2 in Hprep.
    unfold pool_token_asset_id in Hprep.
    destruct (Pool.pool_token_asset p) as [t | ]; [ | discriminate].
    injection Hprep as <-.
    cbn [RemoveTransactions.min_asset_1_amount RemoveTransactions.min_asset_2_amount].
    assert (Ha : Asset.eqb (Pool.asset_1 p) (Pool.asset_2 p) = true -> a2 = a1).
    { intros Heq. apply Asset_eqb_eq in Heq. rewrite Heq in H1. congruence. }
    split; [ | reflexivity].
    destruct (Asset.eqb (Pool.asset_1 p) (Pool.asset_2 p));
      [rewrite (Ha eq_refl) | ]; reflexivity.
  - intros w x output_asset q p pooler txns Hq Hprep.
    pose proof (single_asset_remove_quote_slippage h F x output_asset s w q Hq) as Hs.
    simpl in Hs.
    unfold prepare_remove_liquidity_transactions_from_quote,
      prepare_single_asset_remove_liquidity_transactions, pmap, pbind,
      pool_token_asset_id in Hprep.
    destruct (Pool.pool_token_asset p) as [t | ]; [ | discriminate].
    injection Hprep as <-. simpl.
    unfold receive_bound. rewrite Hs. reflexivity.
  - intros Hs raw. by apply bounds_without_slippage.
  - intros raw actual. unfold receive_check, pay_check.
    split; apply Z.leb_le.
  - repeat split; vm_compute; reflexivity.
Qed.

(** The tolerance 0.05 on the sample pool: the fixed-input swap quote of
    10,000 of [asset_1] is handed on as at most 10,500 in. *)
Lemma slippage_bounds_witness :
  let w := Sample.pool (Sample.bootstrapped 1000) in
  let amount := AssetAmount.mk Sample.ASSET_B 10000 in
  exists q : SwapQuote.t,
    fst (fetch_fixed_input_swap_quote Sample.helpers SpecFormulas.formulas
           amount (5 # 100) w) = Ok q
    /\ SwapTransactions.asset_in_amount
         (prepare_swap_transactions_from_quote (self w) q None) = 10500
    /\ SwapTransactions.asset_out_amount
         (prepare_swap_transactions_from_quote (self w) q None)
       = receive_bound (AssetAmount.amount (SwapQuote.amount_out q)) (5 # 100).
Proof.
  cbv zeta. eexists.
  split; [vm_compute; reflexivity | ].
  destruct (slippage_bounds Sample.helpers SpecFormulas.formulas (5 # 100))
    as [H _]; [discriminate | reflexivity | ].
  match goal with
  | |- SwapTransactions.asset_in_amount (prepare_swap_transactions_from_quote ?p ?q ?a) = _ /\ _ =>
    destruct (H (Sample.pool (Sample.bootstrapped 1000))
                (AssetAmount.mk Sample.ASSET_B 10000) q p a)
      as (Hceil & Hfloor & _)
  end.
  - left. vm_compute. reflexivity.
  - split; [rewrite Hceil; vm_compute; reflexivity | rewrite Hfloor; reflexivity].
Defined.

(** * Further properties of the controller *)

(** ** The refresh *)

(** A replacement of the snapshot does not move the place the object reads
    its snapshot from. *)
Lemma snapshot_source_updated (h : Helpers) (p : Pool.t) (i : Info.t) :
  snapshot_source h (updated p i) = snapshot_source h p.
Proof. reflexivity. Qed.

Lemma snapshot_source_refreshed (h : Helpers) (p : Pool.t) :
  snapshot_source h (refreshed h p) = snapshot_source h p.
Proof.
  unfold refreshed. destruct (snapshot_source h p) as [e | [ | i]] eqn:Hsrc;
    exact Hsrc.
Qed.

Lemma updated_updated (p : Pool.t) (i : Info.t) :
  updated (updated p i) i = updated p i.
Proof.
  unfold updated. simpl. destruct (Info.pool_token_asset_id i); reflexivity.
Qed.

Lemma refreshed_refreshed (h : Helpers) (p : Pool.t) :
  refreshed h (refreshed h p) = refreshed h p.
Proof.
  unfold refreshed at 1. rewrite snapshot_source_refreshed.
  destruct (snapshot_source h p) as [e | [ | i]] eqn:Hsrc; try reflexivity.
  unfold refreshed. rewrite Hsrc. apply updated_updated.
Qed.

(** X1. Refreshing twice in a row on an unchanged ledger is refreshing once:
    the second [refresh()] has the outcome of the first and leaves the
    object as the first left it. *)
Theorem refresh_idempotent (h : Helpers) (w : World) :
  let once := refresh h None w in
  let twice := refresh h None (snd once) in
  fst twice = fst once /\ self (snd twice) = self (snd once).
Proof.
  cbv zeta. rewrite !refresh_None_run. simpl.
  rewrite snapshot_source_refreshed, refreshed_refreshed. split; reflexivity.
Qed.

(** X2. An explicit empty dictionary is not the empty answer of the snapshot
    source: [refresh(info={})] and [update_from_info({})] raise [KeyError]
    on the first key they read, where [refresh()] on an empty answer returns
    silently; the object is untouched in all three cases. *)
Theorem explicit_empty_info_raises (h : Helpers) (w : World) :
  fst (refresh h (Some EmptyDict) w) = Raise (KeyError "pool_token_asset_id")
  /\ self (snd (refresh h (Some EmptyDict) w)) = self w
  /\ update_from_info EmptyDict w = (Raise (KeyError "pool_token_asset_id"), w)
  /\ (snapshot_source h (self w) = Ok EmptyDict ->
      fst (refresh h None w) = Ok tt /\ self (snd (refresh h None w)) = self w).
Proof.
  split; [reflexivity | split; [reflexivity | split; [reflexivity | ]]].
  intros Hsrc. rewrite refresh_None_run. unfold refreshed. rewrite Hsrc.
  split; reflexivity.
Qed.

(** The unbootstrapped account of the sample ledger. *)
Lemma explicit_empty_info_raises_witness :
  let w := Sample.pool Sample.unbootstrapped in
  fst (refresh Sample.helpers (Some EmptyDict) w) = Raise (KeyError "pool_token_asset_id")
  /\ fst (refresh Sample.helpers None w) = Ok tt.
Proof.
  intros w.
  destruct (explicit_empty_info_raises Sample.helpers w) as (H1 & _ & _ & H4).
  split; [exact H1 | ]. destruct (H4 eq_refl) as [H5 _]. exact H5.
Defined.

(** X3. A refresh composes the read of the pool account, its decoding and the
    replacement of the snapshot: when the account at the pool address has
    local state and bears the address derived from its decoded state, the
    object exists afterwards and its snapshot attributes are the decoded
    integers of the first local state, the round and the balance those of
    the account. The asset pair of the object is not compared with the
    decoded asset ids and is not replaced by them. *)
Theorem refresh_reads_pool_account (h : Helpers) (w : World)
    (app : AppLocalState.t) (rest : list AppLocalState.t) :
  let p := self w in
  let account := Client.algod (Pool.client p) (address h p) in
  let state := state_of_key_values (AppLocalState.key_value app) in
  AccountInfo.apps_local_state account = app :: rest ->
  AccountInfo.address account
  = LogicSigAccount.address
      (get_pool_logicsig h (AppLocalState.id app)
         (get_state_int h state "asset_1_id") (get_state_int h state "asset_2_id")) ->
  let p' := self (snd (refresh h None w)) in
  fst (refresh h None w) = Ok tt
  /\ Pool.exists_ p' = Some true
  /\ Pool.pool_token_asset p'
     = Some (Client.fetch_asset (Pool.client p)
               (Some (get_state_int h state "pool_token_asset_id")))
  /\ Pool.asset_1_reserves p' = Some (get_state_int h state "asset_1_reserves")
  /\ Pool.asset_2_reserves p' = Some (get_state_int h state "asset_2_reserves")
  /\ Pool.issued_pool_tokens p' = Some (get_state_int h state "issued_pool_tokens")
  /\ Pool.total_fee_share p' = Some (get_state_int h state "total_fee_share")
  /\ Pool.protocol_fee_ratio p' = Some (get_state_int h state "protocol_fee_ratio")
  /\ Pool.last_refreshed_round p' = Some (AccountInfo.round account)
  /\ Pool.algo_balance p' = Some (AccountInfo.amount account)
  /\ Pool.asset_1 p' = Pool.asset_1 p
  /\ Pool.asset_2 p' = Pool.asset_2 p.
Proof.
  cbv zeta. intros Happs Haddr.
  rewrite refresh_None_run. unfold refreshed, snapshot_source, get_pool_info,
    get_pool_info_from_account_info. simpl.
  unfold address, get_logicsig in Happs, Haddr. rewrite Happs. cbv zeta.
  rewrite Haddr, String.eqb_refl. simpl. repeat split.
Qed.

(** The sample pool account with 1000 issued pool tokens. *)
Lemma refresh_reads_pool_account_witness :
  let w := Sample.pool Sample.unbootstrapped in
  let w1 := with_ledger (fun _ => Sample.bootstrapped 1000) w in
  Pool.exists_ (self w1) = None
  /\ Pool.exists_ (self (snd (refresh Sample.helpers None w1))) = Some true
  /\ Pool.asset_1_reserves (self (snd (refresh Sample.helpers None w1))) = Some 1000000
  /\ Pool.issued_pool_tokens (self (snd (refresh Sample.helpers None w1))) = Some 1000.
Proof.
  intros w w1.
  destruct (refresh_reads_pool_account Sample.helpers w1 (Sample.local_state 1000) []
              eq_refl eq_refl)
    as (_ & Hex & _ & Hr1 & _ & Hn & _).
  split; [reflexivity | ].
  split; [exact Hex | ]. split; [rewrite Hr1; reflexivity | rewrite Hn; reflexivity].
Defined.

(** ** The decoded application state *)

(** X4. The dictionary built from a key-value list holds, under each key, the
    value of the last entry with that key, and nothing under a key no entry
    has. *)
Theorem state_of_key_values_lookup (kvs : list KeyValue.t) (key : string) :
  state_of_key_values kvs !! key = last (entries_of key kvs).
Proof.
  unfold state_of_key_values, entries_of.
  induction kvs as [ | x kvs IH] using rev_ind; [reflexivity | ].
  rewrite fold_left_app, filter_app, fmap_app, last_app. simpl.
  rewrite filter_cons, filter_nil.
  destruct (decide (KeyValue.key x = key)) as [Heq | Hne]; simpl.
  - rewrite <- Heq. apply lookup_insert_eq.
  - rewrite lookup_insert_ne by exact Hne. exact IH.
Qed.

(** ** What no operation undoes *)

(** X5. Once an object exists it exists for good: no operation, and no change
    of the ledger, clears [exists], not even a refresh that finds the pool
    account without local state. *)
Theorem exists_is_never_cleared (h : Helpers) (F : Formulas) (steps : list Step)
    (w : World) :
  truthy_flag (Pool.exists_ (self w)) = true ->
  truthy_flag (Pool.exists_ (self (run h F steps w))) = true.
Proof.
  apply (preserves_run (fun p => truthy_flag (Pool.exists_ p) = true)).
  - intros p i Hp. simpl. destruct (Info.pool_token_asset_id i); [reflexivity | exact Hp].
  - intros algod w0 Hw0. exact Hw0.
Qed.

(** The sample pool, after its account has lost its local state and the
    object has been refreshed and asked for a quote. *)
Lemma exists_is_never_cleared_witness :
  truthy_flag
    (Pool.exists_
       (self (run Sample.helpers SpecFormulas.formulas
                [LedgerMoves (fun _ => Sample.unbootstrapped);
                 Call (OpRefresh None);
                 Call (OpRemove (inr 100) (5 # 100))]
                (Sample.pool (Sample.bootstrapped 1000))))) = true.
Proof.
  apply (exists_is_never_cleared Sample.helpers SpecFormulas.formulas
           [LedgerMoves (fun _ => Sample.unbootstrapped);
            Call (OpRefresh None);
            Call (OpRemove (inr 100) (5 # 100))]
           (Sample.pool (Sample.bootstrapped 1000))).
  reflexivity.
Defined.



(** ** What a quote does to the object *)

Lemma stable_ret {A} (a : A) : stable (ret a).
Proof. intros w. reflexivity. Qed.

Lemma stable_raise {A} (e : exn) : stable (@raise A e).
Proof. intros w. reflexivity. Qed.

Lemma stable_lift {A} (r : result A) : stable (lift r).
Proof. intros w. reflexivity. Qed.

Lemma stable_get_self : stable get_self.
Proof. intros w. reflexivity. Qed.

Lemma stable_log (e : Event) : stable (log e).
Proof. intros w. reflexivity. Qed.

Lemma stable_bind {A B} (m : M A) (k : A -> M B) :
  stable m -> (forall a, stable (k a)) -> stable (bind m k).
Proof.
  intros Hm Hk w. unfold bind. specialize (Hm w).
  destruct (m w) as [[e | a] w1]; simpl in *; [exact Hm | ].
  rewrite Hk. exact Hm.
Qed.

Ltac stable_solve :=
  lazymatch goal with
  | |- stable (bind _ _) => apply stable_bind; [stable_solve | intros ?; stable_solve]
  | |- stable (if ?b then _ else _) => destruct b; stable_solve
  | |- stable (match ?x with _ => _ end) => destruct x; stable_solve
  | |- stable (ret _) => apply stable_ret
  | |- stable (raise _) => apply stable_raise
  | |- stable (lift _) => apply stable_lift
  | |- stable get_self => apply stable_get_self
  | |- stable (log _) => apply stable_log
  end.

Lemma changes_of_stable (h : Helpers) {A B} (m : M A) (k : A -> M B) :
  stable m -> (forall a, changes_by_refresh h (k a)) -> changes_by_refresh h (bind m k).
Proof.
  intros Hm Hk w. unfold bind. specialize (Hm w).
  destruct (m w) as [[e | a] w1]; simpl in *; [left; auto | ].
  destruct (Hk a w1) as [[H1 H2] | H1]; [left | right]; rewrite <- ?Hm; auto.
Qed.

Lemma changes_of_refresh (h : Helpers) {B} (k : unit -> M B) :
  (forall a, stable (k a)) -> changes_by_refresh h (bind (refresh h None) k).
Proof.
  intros Hk w. right. unfold bind. rewrite refresh_None_run.
  destruct (snapshot_source h (self w)) as [e | info]; simpl; [reflexivity | ].
  rewrite Hk. reflexivity.
Qed.

Lemma changes_of_raise (h : Helpers) {A} (e : exn) : changes_by_refresh h (@raise A e).
Proof. intros w. left. split; reflexivity. Qed.

Lemma changes_of_discard (h : Helpers) {A} (m : M A) :
  changes_by_refresh h m -> changes_by_refresh h (discard m).
Proof.
  intros Hm w. unfold discard, bind. specialize (Hm w).
  destruct (m w) as [[e | a] w1]; simpl in *; exact Hm.
Qed.

Ltac changes_solve :=
  lazymatch goal with
  | |- changes_by_refresh _ (bind (refresh _ None) _) =>
    apply changes_of_refresh; intros ?; stable_solve
  | |- changes_by_refresh _ (bind _ _) =>
    apply changes_of_stable; [stable_solve | intros ?; changes_solve]
  | |- changes_by_refresh _ (if ?b then _ else _) => destruct b; changes_solve
  | |- changes_by_refresh _ (match ?x with _ => _ end) => destruct x; changes_solve
  | |- changes_by_refresh _ (raise _) => apply changes_of_raise
  end.

(** X8. A quote changes the pool object by its one refresh and by nothing
    else: after any quote-fetching operation the object is either as it was
    (and the operation has raised) or as a [refresh()] would have left it;
    a quote that is returned always comes with the refreshed object. *)
Theorem quote_changes_object_by_refresh_only (h : Helpers) (F : Formulas)
    (op : Operation) (w : World) :
  fetches_quote op = true ->
  let w' := snd (perform h F op w) in
  (self w' = self w \/ self w' = refreshed h (self w))
  /\ (is_ok (fst (perform h F op w)) = true -> self w' = refreshed h (self w)).
Proof.
  intros Hq. cbv zeta.
  assert (H : changes_by_refresh h (perform h F op)).
  { destruct op; try discriminate; simpl; apply changes_of_discard;
      unfold fetch_flexible_add_liquidity_quote,
        fetch_single_asset_add_liquidity_quote, fetch_initial_add_liquidity_quote,
        fetch_remove_liquidity_quote, fetch_single_asset_remove_liquidity_quote,
        fetch_fixed_input_swap_quote, fetch_fixed_output_swap_quote,
        call, require_exists, require_liquidity, require_no_liquidity,
        as_pool_token_amount, pool_token_amount;
      changes_solve. }
  destruct (H w) as [[H1 H2] | H1].
  - split; [left; exact H1 | ]. intros Hok. congruence.
  - split; [right; exact H1 | ]. intros _. exact H1.
Qed.

(** The fixed-output swap quote on the stale sample object. *)
Lemma quote_changes_object_by_refresh_only_witness :
  let op := OpFixedOutputSwap (AssetAmount.mk Sample.ASSET_A 10000) (5 # 100) in
  self (snd (perform Sample.helpers SpecFormulas.formulas op Sample.stale_pool))
  = refreshed Sample.helpers (self Sample.stale_pool).
Proof.
  intros op.
  destruct (quote_changes_object_by_refresh_only Sample.helpers SpecFormulas.formulas
              op Sample.stale_pool eq_refl) as [_ H].
  apply H. reflexivity.
Defined.

(** ** Asking the same quote again *)

Lemma reads_ret {A} (a : A) : reads_pool_only (ret a).
Proof. intros w1 w2 Hw. split; [reflexivity | exact Hw]. Qed.

Lemma reads_raise {A} (e : exn) : reads_pool_only (@raise A e).
Proof. intros w1 w2 Hw. split; [reflexivity | exact Hw]. Qed.

Lemma reads_lift {A} (r : result A) : reads_pool_only (lift r).
Proof. intros w1 w2 Hw. split; [reflexivity | exact Hw]. Qed.

Lemma reads_get_self : reads_pool_only get_self.
Proof. intros w1 w2 Hw. simpl. rewrite Hw. split; reflexivity. Qed.

Lemma reads_set_self (p : Pool.t) : reads_pool_only (set_self p).
Proof. intros w1 w2 Hw. split; reflexivity. Qed.

Lemma reads_log (e : Event) : reads_pool_only (log e).
Proof. intros w1 w2 Hw. split; [reflexivity | exact Hw]. Qed.

Lemma reads_bind {A B} (m : M A) (k : A -> M B) :
  reads_pool_only m -> (forall a, reads_pool_only (k a)) -> reads_pool_only (bind m k).
Proof.
  intros Hm Hk w1 w2 Hw. unfold bind.
  destruct (Hm w1 w2 Hw) as [Hfst Hself].
  destruct (m w1) as [[e1 | a1] w1'], (m w2) as [[e2 | a2] w2']; simpl in *;
    try discriminate.
  - injection Hfst as ->. split; [reflexivity | exact Hself].
  - injection Hfst as ->. by apply Hk.
Qed.

Ltac reads_solve :=
  lazymatch goal with
  | |- reads_pool_only (bind _ _) => apply reads_bind; [reads_solve | intros ?; reads_solve]
  | |- reads_pool_only (if ?b then _ else _) => destruct b; reads_solve
  | |- reads_pool_only (match ?x with _ => _ end) => destruct x; reads_solve
  | |- reads_pool_only (ret _) => apply reads_ret
  | |- reads_pool_only (raise _) => apply reads_raise
  | |- reads_pool_only (lift _) => apply reads_lift
  | |- reads_pool_only get_self => apply reads_get_self
  | |- reads_pool_only (set_self _) => apply reads_set_self
  | |- reads_pool_only (log _) => apply reads_log
  | |- reads_pool_only _ => solve [eauto]
  end.

Lemma reads_update_from_info (info : InfoDict) : reads_pool_only (update_from_info info).
Proof. unfold update_from_info. reads_solve. Qed.

Lemma reads_refresh (h : Helpers) (info : option InfoDict) :
  reads_pool_only (refresh h info).
Proof.
  unfold refresh. apply reads_bind; [apply reads_log | intros _].
  destruct info as [info | ]; [apply reads_update_from_info | ].
  apply reads_bind; [apply reads_get_self | intros p].
  apply reads_bind; [apply reads_lift | intros info].
  destruct (truthy_dict info); [apply reads_update_from_info | apply reads_ret].
Qed.

(** A computation that starts with the refresh gives the same outcome on
    an object and on the refreshed object. *)
Lemma refresh_absorbs {B} (h : Helpers) (k : unit -> M B) (w1 w2 : World) :
  (forall a, reads_pool_only (k a)) ->
  self w2 = refreshed h (self w1) ->
  fst (bind (refresh h None) k w1) = fst (bind (refresh h None) k w2).
Proof.
  intros Hk Hw. unfold bind. rewrite !refresh_None_run.
  rewrite Hw, snapshot_source_refreshed, refreshed_refreshed.
  destruct (snapshot_source h (self w1)) as [e | info]; simpl; [reflexivity | ].
  by apply Hk.
Qed.

(** What makes a second call repeat the first: the computation reads the
    object only, changes it by one refresh at most, and gives the same
    outcome on an object and on the refreshed object. *)
Lemma same_again_of (h : Helpers) {A} (m : M A) (w : World) :
  reads_pool_only m -> changes_by_refresh h m ->
  (forall w1 w2 : World, self w2 = refreshed h (self w1) -> fst (m w1) = fst (m w2)) ->
  same_again m w.
Proof.
  intros Hreads Hchg Habs. unfold same_again.
  destruct (Hchg w) as [[Hsame _] | Href].
  - destruct (Hreads (snd (m w)) w Hsame) as [H1 H2]. split; [exact H1 | exact H2].
  - split.
    + symmetry. by apply Habs.
    + destruct (Hchg (snd (m w))) as [[H _] | H]; [exact H | ].
      rewrite H, Href. apply refreshed_refreshed.
Qed.

Ltac unfold_refreshing_quote :=
  unfold fetch_flexible_add_liquidity_quote, fetch_single_asset_add_liquidity_quote,
    fetch_initial_add_liquidity_quote, fetch_fixed_input_swap_quote,
    fetch_fixed_output_swap_quote.

Ltac unfold_checks :=
  unfold call, require_exists, require_liquidity, require_no_liquidity,
    pool_token_amount.

Ltac same_again_solve h :=
  apply (same_again_of h);
  [ pose proof (reads_refresh h); unfold_refreshing_quote; unfold_checks; reads_solve
  | unfold_refreshing_quote; unfold_checks; changes_solve
  | let w1 := fresh "w1" in
    let w2 := fresh "w2" in
    let Hw := fresh "Hw" in
    let Ha1 := fresh "Ha1" in
    let Ha2 := fresh "Ha2" in
    intros w1 w2 Hw; unfold_refreshing_quote;
    rewrite ?bind_get_self; rewrite ?Hw;
    destruct (refreshed_assets h (self w1)) as [Ha1 Ha2]; rewrite ?Ha1, ?Ha2;
    try match goal with
        | |- context [bool_decide ?P] => destruct (bool_decide P); [ | reflexivity]
        end;
    (apply refresh_absorbs; [ | exact Hw]); intros ?;
    pose proof (reads_refresh h); unfold_checks; reads_solve ].

Lemma flexible_add_quote_same_again (h : Helpers) (F : Formulas)
    (amount_a amount_b : AssetAmount.t) (slippage : Q) (w : World) :
  same_again (fetch_flexible_add_liquidity_quote h F amount_a amount_b slippage) w.
Proof. same_again_solve h. Qed.

Lemma single_asset_add_quote_same_again (h : Helpers) (F : Formulas)
    (amount_a : AssetAmount.t) (slippage : Q) (w : World) :
  same_again (fetch_single_asset_add_liquidity_quote h F amount_a slippage) w.
Proof. same_again_solve h. Qed.

Lemma initial_add_quote_same_again (h : Helpers) (F : Formulas)
    (amount_a amount_b : AssetAmount.t) (w : World) :
  same_again (fetch_initial_add_liquidity_quote h F amount_a amount_b) w.
Proof. same_again_solve h. Qed.

Lemma fixed_input_swap_quote_same_again (h : Helpers) (F : Formulas)
    (amount_in : AssetAmount.t) (slippage : Q) (w : World) :
  same_again (fetch_fixed_input_swap_quote h F amount_in slippage) w.
Proof. same_again_solve h. Qed.

Lemma fixed_output_swap_quote_same_again (h : Helpers) (F : Formulas)
    (amount_out : AssetAmount.t) (slippage : Q) (w : World) :
  same_again (fetch_fixed_output_swap_quote h F amount_out slippage) w.
Proof. same_again_solve h. Qed.

(** X9. On an unchanged ledger, an add-liquidity or swap quote asked a second
    time right after the first gives what the first call gave, the very
    same quote or the same exception, and leaves the object as the first
    call left it, although the first call has replaced the snapshot in
    place. *)
Theorem quote_repeated (h : Helpers) (F : Formulas) (w : World)
    (amount_a amount_b : AssetAmount.t) (slippage : Q) :
  let flexible := fetch_flexible_add_liquidity_quote h F amount_a amount_b slippage in
  let single := fetch_single_asset_add_liquidity_quote h F amount_a slippage in
  let initial := fetch_initial_add_liquidity_quote h F amount_a amount_b in
  let fixed_input := fetch_fixed_input_swap_quote h F amount_a slippage in
  let fixed_output := fetch_fixed_output_swap_quote h F amount_a slippage in
  (fst (flexible (snd (flexible w))) = fst (flexible w)
   /\ self (snd (flexible (snd (flexible w)))) = self (snd (flexible w)))
  /\ (fst (single (snd (single w))) = fst (single w)
      /\ self (snd (single (snd (single w)))) = self (snd (single w)))
  /\ (fst (initial (snd (initial w))) = fst (initial w)
      /\ self (snd (initial (snd (initial w)))) = self (snd (initial w)))
  /\ (fst (fixed_input (snd (fixed_input w))) = fst (fixed_input w)
      /\ self (snd (fixed_input (snd (fixed_input w)))) = self (snd (fixed_input w)))
  /\ (fst (fixed_output (snd (fixed_output w))) = fst (fixed_output w)
      /\ self (snd (fixed_output (snd (fixed_output w)))) = self (snd (fixed_output w))).
Proof.
  cbv zeta.
  split; [apply flexible_add_quote_same_again | ].
  split; [apply single_asset_add_quote_same_again | ].
  split; [apply initial_add_quote_same_again | ].
  split; [apply fixed_input_swap_quote_same_again | ].
  apply fixed_output_swap_quote_same_again.
Qed.

(** The fixed-output swap quote, twice on the stale sample object: the
    second call returns the quote of the first. *)
Lemma quote_repeated_witness :
  let m :=
    fetch_fixed_output_swap_quote Sample.helpers SpecFormulas.formulas
      (AssetAmount.mk Sample.ASSET_A 10000) (5 # 100) in
  is_ok (fst (m Sample.stale_pool)) = true
  /\ fst (m (snd (m Sample.stale_pool))) = fst (m Sample.stale_pool).
Proof.
  cbv zeta. split; [reflexivity | ].
  destruct (quote_repeated Sample.helpers SpecFormulas.formulas Sample.stale_pool
              (AssetAmount.mk Sample.ASSET_A 10000) (AssetAmount.mk Sample.ASSET_B 0)
              (5 # 100)) as (_ & _ & _ & _ & H & _).
  exact H.
Defined.

(** ** The two-sided add quotes *)

Lemma asset_set_comm (a b : Asset.t) : asset_set a b = asset_set b a.
Proof. unfold asset_set. set_solver. Qed.

(** Which of two amounts is in a pool asset does not depend on the order
    they come in, when they cover a pair of distinct assets. *)
Lemma pick_by_asset (a b : AssetAmount.t) (x y : Asset.t) :
  Asset.id x <> Asset.id y ->
  asset_set x y = asset_set (AssetAmount.asset a) (AssetAmount.asset b) ->
  (if Asset.eqb (AssetAmount.asset a) x then a else b)
  = (if Asset.eqb (AssetAmount.asset b) x then b else a)
  /\ (if Asset.eqb (AssetAmount.asset a) y then a else b)
     = (if Asset.eqb (AssetAmount.asset b) y then b else a).
Proof.
  intros Hxy Hset. apply asset_set_eq in Hset.
  destruct Hset as (Hx & Hy & Ha & Hb).
  unfold Asset.eqb.
  destruct (Z.eqb_spec (Asset.id (AssetAmount.asset a)) (Asset.id x)),
           (Z.eqb_spec (Asset.id (AssetAmount.asset b)) (Asset.id x)),
           (Z.eqb_spec (Asset.id (AssetAmount.asset a)) (Asset.id y)),
           (Z.eqb_spec (Asset.id (AssetAmount.asset b)) (Asset.id y));
    split; try reflexivity; exfalso; intuition congruence.
Qed.

(** X10. The flexible and the initial add quote do not depend on the order of
    their two amounts, on a pool of two distinct assets: the outcome, the
    object and the log are the same for [(a, b)] and for [(b, a)]. *)
Theorem two_sided_add_quotes_symmetric (h : Helpers) (F : Formulas) (w : World)
    (amount_a amount_b : AssetAmount.t) (slippage : Q) :
  Asset.id (Pool.asset_1 (self w)) <> Asset.id (Pool.asset_2 (self w)) ->
  fetch_flexible_add_liquidity_quote h F amount_a amount_b slippage w
  = fetch_flexible_add_liquidity_quote h F amount_b amount_a slippage w
  /\ fetch_initial_add_liquidity_quote h F amount_a amount_b w
     = fetch_initial_add_liquidity_quote h F amount_b amount_a w.
Proof.
  intros Hne.
  unfold fetch_flexible_add_liquidity_quote, fetch_initial_add_liquidity_quote.
  rewrite !bind_get_self.
  rewrite (asset_set_comm (AssetAmount.asset amount_b) (AssetAmount.asset amount_a)).
  destruct (decide (asset_set (Pool.asset_1 (self w)) (Pool.asset_2 (self w))
                    = asset_set (AssetAmount.asset amount_a) (AssetAmount.asset amount_b)))
    as [Hset | Hset].
  - rewrite !bool_decide_eq_true_2 by exact Hset.
    destruct (pick_by_asset amount_a amount_b _ _ Hne Hset) as [-> ->].
    split; reflexivity.
  - rewrite !bool_decide_eq_false_2 by exact Hset. split; reflexivity.
Qed.

(** The sample pool, with a deposit of 700 of asset 20 and 500 of asset 10
    given in both orders. *)
Lemma two_sided_add_quotes_symmetric_witness :
  let w := Sample.pool (Sample.bootstrapped 1000) in
  let a := AssetAmount.mk Sample.ASSET_A 500 in
  let b := AssetAmount.mk Sample.ASSET_B 700 in
  fetch_flexible_add_liquidity_quote Sample.helpers SpecFormulas.formulas a b (5 # 100) w
  = fetch_flexible_add_liquidity_quote Sample.helpers SpecFormulas.formulas b a (5 # 100) w
  /\ is_ok (fst (fetch_flexible_add_liquidity_quote Sample.helpers SpecFormulas.formulas
                   a b (5 # 100) w)) = true.
Proof.
  intros w a b.
  destruct (two_sided_add_quotes_symmetric Sample.helpers SpecFormulas.formulas
              (Sample.pool (Sample.bootstrapped 1000))
              (AssetAmount.mk Sample.ASSET_A 500) (AssetAmount.mk Sample.ASSET_B 700)
              (5 # 100)) as [H _].
  - simpl. lia.
  - split; [exact H | vm_compute; reflexivity].
Defined.

(** What follows the checks in the initial add quote never raises a state
    error. *)
Lemma initial_add_tail_not_state_error (F : Formulas)
    (amount_1 amount_2 : AssetAmount.t) (w : World) (e : exn) :
  e = BootstrapIsRequired \/ e = PoolAlreadyHasLiquidity ->
  fst ((let! p := get_self in
        let! pool_token_asset_amount :=
          call InitialAdd
            (of_formula (calculate_initial_add_liquidity F
                           (AssetAmount.amount amount_1) (AssetAmount.amount amount_2))) in
        let! minted := pool_token_amount pool_token_asset_amount in
        ret {| InitialAddLiquidityQuote.amounts_in :=
                 asset_dict (Pool.asset_1 p) amount_1 (Pool.asset_2 p) amount_2;
               InitialAddLiquidityQuote.pool_token_asset_amount := minted |}) w)
  <> Raise e.
Proof.
  intros He. unfold_M. simpl. unfold of_formula.
  destruct (calculate_initial_add_liquidity F _ _) as [err | minted]; simpl;
    try (destruct He; subst; discriminate).
  destruct (Pool.pool_token_asset (self w)); simpl; destruct He; subst; discriminate.
Qed.

(** The opening of the initial add quote: refresh, existence check, then
    the check that no pool token is issued. *)
Lemma refresh_then_checks_empty {B} (h : Helpers) (K : M B) (w : World) :
  (let! _ := refresh h None in
   let! _ := require_exists in
   let! _ := require_no_liquidity in
   K) w
  = let p' := refreshed h (self w) in
    match snapshot_source h (self w) with
    | inl e => (Raise e, {| self := p'; trace := trace w ++ [EvRefresh] |})
    | inr _ =>
      if negb (truthy_flag (Pool.exists_ p')) then
        (Raise BootstrapIsRequired,
         {| self := p'; trace := trace w ++ [EvRefresh; EvCheckExists] |})
      else if truthy_int (Pool.issued_pool_tokens p') then
        (Raise PoolAlreadyHasLiquidity,
         {| self := p';
            trace := trace w ++ [EvRefresh; EvCheckExists; EvCheckLiquidity] |})
      else
        K {| self := p';
             trace := trace w ++ [EvRefresh; EvCheckExists; EvCheckLiquidity] |}
    end.
Proof.
  unfold bind at 1. rewrite refresh_None_run. cbv zeta.
  destruct (snapshot_source h (self w)) as [e | info]; [reflexivity | ].
  unfold require_exists, require_no_liquidity. unfold_M. simpl.
  destruct (truthy_flag (Pool.exists_ (refreshed h (self w)))); simpl;
    [ | rewrite <- !app_assoc; reflexivity].
  destruct (truthy_int (Pool.issued_pool_tokens (refreshed h (self w)))); simpl;
    rewrite <- !app_assoc; reflexivity.
Qed.

(** X11. For a pair of amounts that covers the pool's assets and a snapshot
    read that succeeds, the initial add quote raises already-has-liquidity
    exactly when the refreshed pool is active and bootstrap-required
    exactly when it does not exist; on a bootstrapped pool without issued
    pool tokens it is the initial-mint formula applied to the amount in
    [asset_1] and the amount in [asset_2], whatever the reserves are. *)
Theorem initial_add_preconditions (h : Helpers) (F : Formulas) (w : World)
    (amount_a amount_b : AssetAmount.t) :
  is_ok (snapshot_source h (self w)) = true ->
  asset_set (Pool.asset_1 (self w)) (Pool.asset_2 (self w))
  = asset_set (AssetAmount.asset amount_a) (AssetAmount.asset amount_b) ->
  let p' := refreshed h (self w) in
  let out := fst (fetch_initial_add_liquidity_quote h F amount_a amount_b w) in
  let amount_1 :=
    if Asset.eqb (AssetAmount.asset amount_a) (Pool.asset_1 (self w))
    then amount_a else amount_b in
  let amount_2 :=
    if Asset.eqb (AssetAmount.asset amount_a) (Pool.asset_2 (self w))
    then amount_a else amount_b in
  (out = Raise PoolAlreadyHasLiquidity <-> Active p')
  /\ (out = Raise BootstrapIsRequired <-> Unbootstrapped p')
  /\ (BootstrappedEmpty p' ->
      forall t : Asset.t, Pool.pool_token_asset p' = Some t ->
        out
        = match calculate_initial_add_liquidity F
                  (AssetAmount.amount amount_1) (AssetAmount.amount amount_2) with
          | inl e => Raise (FormulaError e)
          | inr minted =>
            Ok {| InitialAddLiquidityQuote.amounts_in :=
                    asset_dict (Pool.asset_1 p') amount_1 (Pool.asset_2 p') amount_2;
                  InitialAddLiquidityQuote.pool_token_asset_amount :=
                    AssetAmount.mk t minted |}
          end).
Proof.
  intros Hsrc Hset. cbv zeta.
  unfold fetch_initial_add_liquidity_quote. rewrite !bind_get_self.
  rewrite !bool_decide_eq_true_2 by exact Hset.
  rewrite !refresh_then_checks_empty. cbv zeta.
  destruct (snapshot_source h (self w)) as [e | info]; [discriminate | ].
  unfold Active, Unbootstrapped, BootstrappedEmpty.
  destruct (truthy_flag (Pool.exists_ (refreshed h (self w)))) eqn:Hex; simpl.
  - destruct (truthy_int (Pool.issued_pool_tokens (refreshed h (self w)))) eqn:Hliq;
      simpl.
    + split; [ | split].
      * split; auto.
      * split; discriminate.
      * intros [_ ?]; discriminate.
    + split; [ | split].
      * split; [ | intros [_ ?]; discriminate].
        intros Hout. exfalso.
        eapply initial_add_tail_not_state_error; [ | exact Hout]. auto.
      * split; [ | discriminate].
        intros Hout. exfalso.
        eapply initial_add_tail_not_state_error; [ | exact Hout]. auto.
      * intros _ t Ht. unfold_M. simpl. unfold of_formula.
        destruct (calculate_initial_add_liquidity F _ _) as [err | minted]; simpl;
          rewrite ?Ht; reflexivity.
  - split; [ | split].
    + split; [discriminate | intros [? _]; discriminate].
    + split; auto.
    + intros [? _]; discriminate.
Qed.

(** The bootstrapped sample pool without issued pool tokens: the initial
    deposit of 400 and 900 mints 600. *)
Lemma initial_add_preconditions_witness :
  let w := Sample.pool (Sample.bootstrapped 0) in
  exists q : InitialAddLiquidityQuote.t,
    fst (fetch_initial_add_liquidity_quote Sample.helpers SpecFormulas.formulas
           (AssetAmount.mk Sample.ASSET_A 400) (AssetAmount.mk Sample.ASSET_B 900) w)
    = Ok q
    /\ AssetAmount.amount (InitialAddLiquidityQuote.pool_token_asset_amount q) = 600.
Proof.
  intros w.
  destruct (initial_add_preconditions Sample.helpers SpecFormulas.formulas
              (Sample.pool (Sample.bootstrapped 0))
              (AssetAmount.mk Sample.ASSET_A 400) (AssetAmount.mk Sample.ASSET_B 900)
              eq_refl) as (_ & _ & H).
  - vm_compute. reflexivity.
  - specialize (H (conj eq_refl eq_refl) (Asset.of_id 30) eq_refl).
    eexists. split; [exact H | reflexivity].
Defined.

(** ** The fixed-output swap quote *)

(** X12. On an active pool the fixed-output swap quote serves both assets: for
    an output in [asset_1] the input is in [asset_2] and the formula is
    called with the reserves of [asset_2] as input supply, for an output in
    [asset_2] the other way round; the fees are in the input asset. An
    output in a foreign asset fails the assertion after the refresh and the
    state checks, with no formula called. *)
Theorem fixed_output_swap_quote_by_asset (h : Helpers) (F : Formulas) (w : World)
    (amount_out : AssetAmount.t) (slippage : Q) (t : Asset.t) (r1 r2 n fee : Z) :
  is_ok (snapshot_source h (self w)) = true ->
  holds (refreshed h (self w)) t r1 r2 n fee -> n <> 0 ->
  let p := self w in
  let out := fetch_fixed_output_swap_quote h F amount_out slippage w in
  let quote_of (asset_in : Asset.t) (r : ArithmeticError + Z * Z * Q) :=
    match r with
    | inl e => Raise (FormulaError e)
    | inr (swap_input_amount, total_fee_amount, price_impact) =>
      Ok {| SwapQuote.swap_type := "fixed-output";
            SwapQuote.amount_in := AssetAmount.mk asset_in swap_input_amount;
            SwapQuote.amount_out := amount_out;
            SwapQuote.swap_fees := AssetAmount.mk asset_in total_fee_amount;
            SwapQuote.slippage := slippage;
            SwapQuote.price_impact := price_impact |}
    end in
  if Asset.eqb (AssetAmount.asset amount_out) (Pool.asset_1 p) then
    fst out
    = quote_of (Pool.asset_2 p)
        (calculate_fixed_output_swap F r2 r1 (AssetAmount.amount amount_out) fee)
  else if Asset.eqb (AssetAmount.asset amount_out) (Pool.asset_2 p) then
    fst out
    = quote_of (Pool.asset_1 p)
        (calculate_fixed_output_swap F r1 r2 (AssetAmount.amount amount_out) fee)
  else
    out = (Raise (AssertionError None),
           {| self := refreshed h p;
              trace := trace w ++ [EvRefresh; EvCheckExists; EvCheckLiquidity] |}).
Proof.
  intros Hsrc (Hex & Ht & Hr1 & Hr2 & Hn & Hfee) Hn0. cbv zeta.
  unfold fetch_fixed_output_swap_quote. rewrite !refresh_then_checks. cbv zeta.
  destruct (snapshot_source h (self w)) as [e | info]; [discriminate | ].
  rewrite Hex, Hn. simpl.
  destruct (Z.eqb_spec n 0) as [ | _]; [contradiction | ]. simpl.
  unfold_M. simpl.
  destruct (refreshed_assets h (self w)) as [-> ->].
  destruct (Asset.eqb (AssetAmount.asset amount_out) (Pool.asset_1 (self w))); simpl.
  - rewrite Hr1, Hr2, Hfee. unfold args4. simpl.
    destruct (calculate_fixed_output_swap F r2 r1 _ fee) as [e | [[x y] z]]; reflexivity.
  - destruct (Asset.eqb (AssetAmount.asset amount_out) (Pool.asset_2 (self w))); simpl.
    + rewrite Hr1, Hr2, Hfee. unfold args4. simpl.
      destruct (calculate_fixed_output_swap F r1 r2 _ fee) as [e | [[x y] z]]; reflexivity.
    + reflexivity.
Qed.

(** The sample pool: 10,000 of asset 10, the pool's [asset_2], is bought
    with asset 20. *)
Lemma fixed_output_swap_quote_by_asset_witness :
  let w := Sample.pool (Sample.bootstrapped 1000) in
  exists q : SwapQuote.t,
    fst (fetch_fixed_output_swap_quote Sample.helpers SpecFormulas.formulas
           (AssetAmount.mk Sample.ASSET_A 10000) (5 # 100) w) = Ok q
    /\ AssetAmount.asset (SwapQuote.amount_in q) = Sample.ASSET_B.
Proof.
  intros w.
  pose proof (fixed_output_swap_quote_by_asset Sample.helpers SpecFormulas.formulas
                (Sample.pool (Sample.bootstrapped 1000))
                (AssetAmount.mk Sample.ASSET_A 10000) (5 # 100)
                (Asset.of_id 30) 1000000 2000000 1000 3 eq_refl
                (conj eq_refl (conj eq_refl (conj eq_refl
                   (conj eq_refl (conj eq_refl eq_refl)))))
                ltac:(discriminate)) as H.
  cbv zeta in H. change (Asset.eqb _ _) with false in H at 1.
  change (Asset.eqb _ _) with true in H at 1. cbv iota in H.
  eexists. split; [exact H | reflexivity].
Defined.

(** ** The single-asset add quote *)

(** X13. In the single-asset add quote the state of the pool is judged before
    the asset of the amount: on a pool that does not exist, or that has no
    issued pool tokens, the quote raises the state error even for an amount
    in a foreign asset, and on an active pool an amount in a foreign asset
    fails the assertion only after the refresh and both checks, with no
    formula called. *)
Theorem single_asset_add_checks_state_first (h : Helpers) (F : Formulas) (w : World)
    (amount_a : AssetAmount.t) (slippage : Q) :
  is_ok (snapshot_source h (self w)) = true ->
  let p' := refreshed h (self w) in
  let out := fetch_single_asset_add_liquidity_quote h F amount_a slippage w in
  (Unbootstrapped p' -> fst out = Raise BootstrapIsRequired)
  /\ (BootstrappedEmpty p' -> fst out = Raise PoolHasNoLiquidity)
  /\ (Active p' ->
      Asset.eqb (AssetAmount.asset amount_a) (Pool.asset_1 p') = false ->
      Asset.eqb (AssetAmount.asset amount_a) (Pool.asset_2 p') = false ->
      out = (Raise (AssertionError (Some "Given asset doesn't belong to the pool assets.")),
             {| self := p';
                trace := trace w ++ [EvRefresh; EvCheckExists; EvCheckLiquidity] |})).
Proof.
  intros Hsrc. cbv zeta.
  unfold fetch_single_asset_add_liquidity_quote. rewrite !refresh_then_checks. cbv zeta.
  destruct (snapshot_source h (self w)) as [e | info]; [discriminate | ].
  unfold Unbootstrapped, BootstrappedEmpty, Active.
  split; [ | split].
  - intros ->. reflexivity.
  - intros [-> ->]. reflexivity.
  - intros [-> ->] H1 H2. simpl. unfold_M. simpl. rewrite H1, H2. reflexivity.
Qed.

(** The sample pool without issued pool tokens, asked about an amount of
    asset 40, which is not one of its assets. *)
Lemma single_asset_add_checks_state_first_witness :
  fst (fetch_single_asset_add_liquidity_quote Sample.helpers SpecFormulas.formulas
         (AssetAmount.mk Sample.ASSET_C 10) (5 # 100) (Sample.pool (Sample.bootstrapped 0)))
  = Raise PoolHasNoLiquidity.
Proof.
  destruct (single_asset_add_checks_state_first Sample.helpers SpecFormulas.formulas
              (Sample.pool (Sample.bootstrapped 0)) (AssetAmount.mk Sample.ASSET_C 10)
              (5 # 100) eq_refl) as (_ & H & _).
  apply H. split; reflexivity.
Defined.

(** ** The remove quotes and the asset of the burnt amount *)

(** X14. The remove quote does not look at the asset of the [AssetAmount] it is
    given: on an object that exists, an amount in any asset is quoted as
    the same number of pool tokens, with the same amounts out, and is
    echoed in the quote as it came. *)
Theorem remove_quote_ignores_asset (h : Helpers) (F : Formulas) (w : World)
    (given : AssetAmount.t) (slippage : Q) (t0 : Asset.t) :
  truthy_flag (Pool.exists_ (self w)) = true ->
  Pool.pool_token_asset (self w) = Some t0 ->
  let as_amount := fst (fetch_remove_liquidity_quote h F (inl given) slippage w) in
  let as_int :=
    fst (fetch_remove_liquidity_quote h F (inr (AssetAmount.amount given)) slippage w) in
  rmap RemoveLiquidityQuote.amounts_out as_amount
  = rmap RemoveLiquidityQuote.amounts_out as_int
  /\ (forall q, as_amount = Ok q -> RemoveLiquidityQuote.pool_token_asset_amount q = given)
  /\ (forall q, as_int = Ok q ->
        RemoveLiquidityQuote.pool_token_asset_amount q
        = AssetAmount.mk t0 (AssetAmount.amount given)).
Proof.
  intros Hex Ht0. cbv zeta.
  unfold fetch_remove_liquidity_quote, require_exists, as_pool_token_amount,
    pool_token_amount, call.
  unfold_M. simpl. rewrite Hex. simpl. rewrite Ht0. rewrite !refresh_None_run. simpl.
  destruct (snapshot_source h (self w)) as [e | info]; simpl.
  - repeat split; intros q Hq; discriminate.
  - destruct (args4 (calculate_remove_liquidity_output_amounts F) _ _ _ _)
      as [e | [o1 o2]]; simpl.
    + repeat split; intros q Hq; discriminate.
    + repeat split; intros q Hq; injection Hq as <-; reflexivity.
Qed.

(** The sample pool, asked to quote the removal of "100 of asset 40". *)
Lemma remove_quote_ignores_asset_witness :
  let w := Sample.pool (Sample.bootstrapped 1000) in
  rmap RemoveLiquidityQuote.amounts_out
    (fst (fetch_remove_liquidity_quote Sample.helpers SpecFormulas.formulas
            (inl (AssetAmount.mk Sample.ASSET_C 100)) (5 # 100) w))
  = rmap RemoveLiquidityQuote.amounts_out
      (fst (fetch_remove_liquidity_quote Sample.helpers SpecFormulas.formulas
              (inr 100) (5 # 100) w)).
Proof.
  intros w.
  destruct (remove_quote_ignores_asset Sample.helpers SpecFormulas.formulas
              (Sample.pool (Sample.bootstrapped 1000))
              (AssetAmount.mk Sample.ASSET_C 100) (5 # 100) (Asset.of_id 30)
              eq_refl eq_refl) as [H _].
  exact H.
Defined.

(** ** Bootstrapping *)

Lemma prepare_bootstrap_run (h : Helpers) (c : Constants)
    (suggested_params : SuggestedParams.t) (pooler_address : option string)
    (w : World) :
  prepare_bootstrap_transactions h c suggested_params pooler_address w
  = let p' := refreshed h (self w) in
    let fee :=
      (if Z.eqb (Asset.id (Pool.asset_2 p')) 0 then 6 else 7)
      * SuggestedParams.min_fee suggested_params in
    let minimum :=
      if Z.eqb (Asset.id (Pool.asset_2 p')) 0
      then MIN_POOL_BALANCE_ASA_ALGO_PAIR c else MIN_POOL_BALANCE_ASA_ASA_PAIR c in
    match snapshot_source h (self w) with
    | inl e => (Raise e, {| self := p'; trace := trace w ++ [EvRefresh] |})
    | inr _ =>
      if truthy_flag (Pool.exists_ p') then
        (Raise AlreadyBootstrapped,
         {| self := p'; trace := trace w ++ [EvRefresh; EvCheckExists] |})
      else
        (Ok {| BootstrapTransactions.validator_app_id := Pool.validator_app_id p';
               BootstrapTransactions.asset_1_id := Asset.id (Pool.asset_1 p');
               BootstrapTransactions.asset_2_id := Asset.id (Pool.asset_2 p');
               BootstrapTransactions.sender :=
                 or_else pooler_address (Client.user_address (Pool.client p'));
               BootstrapTransactions.app_call_fee := fee;
               BootstrapTransactions.required_algo :=
                 Z.max (minimum + fee + 100000
                        - AccountInfo.amount
                            (Client.algod (Pool.client p') (address h p'))) 0 |},
         {| self := p'; trace := trace w ++ [EvRefresh; EvCheckExists] |})
    end.
Proof.
  unfold prepare_bootstrap_transactions. unfold bind at 1. rewrite refresh_None_run.
  cbv zeta.
  destruct (snapshot_source h (self w)) as [e | info]; [reflexivity | ].
  unfold_M. simpl. rewrite <- !app_assoc. simpl.
  destruct (truthy_flag (Pool.exists_ (refreshed h (self w)))); [reflexivity | ].
  destruct (Z.eqb (Asset.id (Pool.asset_2 (refreshed h (self w)))) 0); reflexivity.
Qed.

(** X15. [prepare_bootstrap_transactions] judges the pool on the refreshed
    snapshot: it raises already-bootstrapped exactly when the pool exists
    after the refresh. Otherwise it asks for the funding that brings the
    balance of the pool account up to the minimum balance of the pair, plus
    the fee of the application call, plus 100,000: the funding is never
    negative, it is zero when the balance already suffices, and the fee
    pays for six transactions when [asset_2] is the native asset (id 0) and
    for seven otherwise. *)
Theorem bootstrap_funding (h : Helpers) (c : Constants)
    (suggested_params : SuggestedParams.t) (pooler_address : option string)
    (w : World) :
  is_ok (snapshot_source h (self w)) = true ->
  let p' := refreshed h (self w) in
  let out := prepare_bootstrap_transactions h c suggested_params pooler_address w in
  let balance := AccountInfo.amount (Client.algod (Pool.client p') (address h p')) in
  let minimum :=
    if Z.eqb (Asset.id (Pool.asset_2 p')) 0
    then MIN_POOL_BALANCE_ASA_ALGO_PAIR c else MIN_POOL_BALANCE_ASA_ASA_PAIR c in
  (fst out = Raise AlreadyBootstrapped <-> truthy_flag (Pool.exists_ p') = true)
  /\ (Unbootstrapped p' ->
      exists txns : BootstrapTransactions.t,
        fst out = Ok txns
        /\ BootstrapTransactions.app_call_fee txns
           = (if Z.eqb (Asset.id (Pool.asset_2 p')) 0 then 6 else 7)
             * SuggestedParams.min_fee suggested_params
        /\ 0 <= BootstrapTransactions.required_algo txns
        /\ minimum + BootstrapTransactions.app_call_fee txns + 100000
           <= balance + BootstrapTransactions.required_algo txns
        /\ (minimum + BootstrapTransactions.app_call_fee txns + 100000 <= balance ->
            BootstrapTransactions.required_algo txns = 0)
        /\ (balance <= minimum + BootstrapTransactions.app_call_fee txns + 100000 ->
            balance + BootstrapTransactions.required_algo txns
            = minimum + BootstrapTransactions.app_call_fee txns + 100000)).
Proof.
  intros Hsrc. cbv zeta. unfold Unbootstrapped.
  rewrite !prepare_bootstrap_run. cbv zeta.
  destruct (snapshot_source h (self w)) as [e | info]; [discriminate | ].
  destruct (truthy_flag (Pool.exists_ (refreshed h (self w)))) eqn:Hex; simpl.
  - split; [split; reflexivity | discriminate].
  - split; [split; discriminate | ]. intros _.
    eexists. split; [reflexivity | ]. simpl.
    destruct (Z.eqb (Asset.id (Pool.asset_2 (refreshed h (self w)))) 0);
      repeat split; lia.
Qed.

(** The pool object made before the pool account held anything: with a
    minimum balance of 400,000 and a minimum fee of 1000, the funding asked
    for is 400,000 + 7,000 + 100,000. *)
Lemma bootstrap_funding_witness :
  exists txns : BootstrapTransactions.t,
    fst (prepare_bootstrap_transactions Sample.helpers sample_constants sample_params
           None (Sample.pool Sample.unbootstrapped)) = Ok txns
    /\ BootstrapTransactions.required_algo txns = 507000.
Proof.
  destruct (bootstrap_funding Sample.helpers sample_constants sample_params None
              (Sample.pool Sample.unbootstrapped) eq_refl) as [_ H].
  destruct (H eq_refl) as (txns & Hout & Hfee & _ & _ & _ & Heq).
  exists txns. split; [exact Hout | ].
  rewrite Hfee in Heq. vm_compute in Heq. apply Heq. discriminate.
Defined.

(** ** Preparing transactions *)

(** X16. [prepare_remove_liquidity_transactions] fails on the first thing it
    misses, in the order it reads them: the amount of [asset_1], the amount
    of [asset_2], the pool token of the object. When all are there it
    passes on the two amounts and the number of pool tokens, whether that
    number came as an integer or inside an [AssetAmount] of any asset. *)
Theorem prepare_remove_reads_in_order (p : Pool.t)
    (pool_token_asset_amount : AssetAmount.t + Z)
    (amounts_out : gmap Z AssetAmount.t) (pooler_address : option string) :
  let out :=
    prepare_remove_liquidity_transactions p pool_token_asset_amount amounts_out
      pooler_address in
  match amounts_out !! Asset.id (Pool.asset_1 p),
        amounts_out !! Asset.id (Pool.asset_2 p),
        Pool.pool_token_asset p with
  | None, _, _ => out = inl (MissingAsset (Pool.asset_1 p))
  | Some _, None, _ => out = inl (MissingAsset (Pool.asset_2 p))
  | Some _, Some _, None => out = inl NoPoolTokenAsset
  | Some a1, Some a2, Some t =>
    exists txns : RemoveTransactions.t,
      out = inr txns
      /\ RemoveTransactions.min_asset_1_amount txns = AssetAmount.amount a1
      /\ RemoveTransactions.min_asset_2_amount txns = AssetAmount.amount a2
      /\ RemoveTransactions.pool_token_asset_id txns = Asset.id t
      /\ RemoveTransactions.pool_token_asset_amount txns
         = match pool_token_asset_amount with
           | inl a => AssetAmount.amount a
           | inr n => n
           end
  end.
Proof.
  cbv zeta. unfold prepare_remove_liquidity_transactions, dict_get, pool_token_asset_id.
  destruct (amounts_out !! Asset.id (Pool.asset_1 p)) as [a1 | ]; simpl; [ | reflexivity].
  destruct (amounts_out !! Asset.id (Pool.asset_2 p)) as [a2 | ]; simpl; [ | reflexivity].
  destruct (Pool.pool_token_asset p) as [t | ]; simpl; [ | reflexivity].
  eexists. split; [reflexivity | ]. simpl. repeat split.
Qed.

(** X17. [prepare_single_asset_add_liquidity_transactions] never refuses an
    amount for its asset: it sets the amount on the side of each pool asset
    the amount's asset equals. On a pool of two distinct assets at most one
    side is set, and an amount in a foreign asset goes out with both sides
    empty. *)
Theorem prepare_single_asset_add_sides (p : Pool.t) (amount_in : AssetAmount.t)
    (min_pool_token_asset_amount : option Z) (pooler_address : option string)
    (t : Asset.t) :
  Pool.pool_token_asset p = Some t ->
  exists txns : SingleAssetAddTransactions.t,
    prepare_single_asset_add_liquidity_transactions p amount_in
      min_pool_token_asset_amount pooler_address = inr txns
    /\ (SingleAssetAddTransactions.asset_1_amount txns
        = if Asset.eqb (AssetAmount.asset amount_in) (Pool.asset_1 p)
          then Some (AssetAmount.amount amount_in) else None)
    /\ (SingleAssetAddTransactions.asset_2_amount txns
        = if Asset.eqb (AssetAmount.asset amount_in) (Pool.asset_2 p)
          then Some (AssetAmount.amount amount_in) else None)
    /\ (Asset.id (Pool.asset_1 p) <> Asset.id (Pool.asset_2 p) ->
        SingleAssetAddTransactions.asset_1_amount txns = None
        \/ SingleAssetAddTransactions.asset_2_amount txns = None)
    /\ (Asset.eqb (AssetAmount.asset amount_in) (Pool.asset_1 p) = false ->
        Asset.eqb (AssetAmount.asset amount_in) (Pool.asset_2 p) = false ->
        SingleAssetAddTransactions.asset_1_amount txns = None
        /\ SingleAssetAddTransactions.asset_2_amount txns = None).
Proof.
  intros Ht. unfold prepare_single_asset_add_liquidity_transactions, pool_token_asset_id.
  rewrite Ht. simpl. eexists. split; [reflexivity | ]. simpl.
  split; [reflexivity | split; [reflexivity | split]].
  - intros Hne. unfold Asset.eqb.
    destruct (Z.eqb_spec (Asset.id (AssetAmount.asset amount_in)) (Asset.id (Pool.asset_1 p))),
             (Z.eqb_spec (Asset.id (AssetAmount.asset amount_in)) (Asset.id (Pool.asset_2 p)));
      auto. congruence.
  - intros -> ->. split; reflexivity.
Qed.

(** The sample pool and an amount of asset 40. *)
Lemma prepare_single_asset_add_sides_witness :
  exists txns : SingleAssetAddTransactions.t,
    prepare_single_asset_add_liquidity_transactions
      (self (Sample.pool (Sample.bootstrapped 1000)))
      (AssetAmount.mk Sample.ASSET_C 10) (Some 1) None = inr txns
    /\ SingleAssetAddTransactions.asset_1_amount txns = None
    /\ SingleAssetAddTransactions.asset_2_amount txns = None.
Proof.
  destruct (prepare_single_asset_add_sides (self (Sample.pool (Sample.bootstrapped 1000)))
              (AssetAmount.mk Sample.ASSET_C 10) (Some 1) None (Asset.of_id 30) eq_refl)
    as (txns & Hout & _ & _ & _ & Hnone).
  exists txns. split; [exact Hout | ]. apply Hnone; reflexivity.
Defined.

(** X18. The flexible add quote of a pool of two distinct assets can always be
    turned into transactions on the refreshed object: both lookups in
    [amounts_in] succeed, and the amounts go out in the canonical order of
    the pool, the amount in [asset_1] first, whatever the order the caller
    gave them in; the pool token is that of the object and the minimum is
    the protected amount of the quote. *)
Theorem flexible_add_quote_prepares (h : Helpers) (F : Formulas) (w : World)
    (amount_a amount_b : AssetAmount.t) (slippage : Q) (pooler_address : option string)
    (t : Asset.t) (r1 r2 n fee : Z)
    (minted : Z) (direction : bool) (swap_in swap_out swap_fee : Z) (impact : Q) :
  is_ok (snapshot_source h (self w)) = true ->
  holds (refreshed h (self w)) t r1 r2 n fee -> n <> 0 ->
  Asset.id (Pool.asset_1 (self w)) <> Asset.id (Pool.asset_2 (self w)) ->
  asset_set (Pool.asset_1 (self w)) (Pool.asset_2 (self w))
  = asset_set (AssetAmount.asset amount_a) (AssetAmount.asset amount_b) ->
  let amount_1 :=
    if Asset.eqb (AssetAmount.asset amount_a) (Pool.asset_1 (self w))
    then amount_a else amount_b in
  let amount_2 :=
    if Asset.eqb (AssetAmount.asset amount_a) (Pool.asset_2 (self w))
    then amount_a else amount_b in
  calculate_subsequent_add_liquidity F r1 r2 n fee
    (AssetAmount.amount amount_1) (AssetAmount.amount amount_2)
  = inr (minted, direction, swap_in, swap_out, swap_fee, impact) ->
  exists (q : FlexibleAddLiquidityQuote.t) (txns : FlexibleAddTransactions.t),
    fst (fetch_flexible_add_liquidity_quote h F amount_a amount_b slippage w) = Ok q
    /\ prepare_add_liquidity_transactions_from_quote (refreshed h (self w))
         (QFlexibleAdd q) pooler_address = inr (FlexibleAdd txns)
    /\ FlexibleAddTransactions.asset_1_amount txns = AssetAmount.amount amount_1
    /\ FlexibleAddTransactions.asset_2_amount txns = AssetAmount.amount amount_2
    /\ Asset.id (AssetAmount.asset amount_1) = FlexibleAddTransactions.asset_1_id txns
    /\ Asset.id (AssetAmount.asset amount_2) = FlexibleAddTransactions.asset_2_id txns
    /\ FlexibleAddTransactions.pool_token_asset_id txns = Asset.id t
    /\ FlexibleAddTransactions.min_pool_token_asset_amount txns
       = flexible_min_pool_token_asset_amount_with_slippage q.
Proof.
  intros Hsrc Hholds Hn0 Hne Hset. cbv zeta. intros Hcalc.
  pose proof (flexible_add_active h F w amount_a amount_b slippage t r1 r2 n fee
                Hsrc Hholds Hn0 Hset) as Hq.
  cbv zeta in Hq. rewrite Hcalc in Hq.
  destruct Hholds as (_ & Ht & _).
  destruct (refreshed_assets h (self w)) as [Ha1 Ha2].
  eexists. eexists. split; [exact Hq | ].
  unfold prepare_add_liquidity_transactions_from_quote,
    prepare_flexible_add_liquidity_transactions, pool_token_asset_id. simpl.
  destruct (dict_get_asset_dict (Pool.asset_1 (refreshed h (self w)))
              (Pool.asset_2 (refreshed h (self w)))
              (if Asset.eqb (AssetAmount.asset amount_a) (Pool.asset_1 (self w))
               then amount_a else amount_b)
              (if Asset.eqb (AssetAmount.asset amount_a) (Pool.asset_2 (self w))
               then amount_a else amount_b)) as [Hd2 Hd1].
  rewrite Hd1, Hd2, Ht. simpl. rewrite Ha1, Ha2.
  assert (H12 : Asset.eqb (Pool.asset_1 (self w)) (Pool.asset_2 (self w)) = false)
    by (apply Asset_eqb_neq; exact Hne).
  rewrite H12. split; [reflexivity | ]. simpl.
  apply asset_set_eq in Hset. destruct Hset as (Hx & Hy & Ha & Hb).
  unfold Asset.eqb.
  destruct (Z.eqb_spec (Asset.id (AssetAmount.asset amount_a)) (Asset.id (Pool.asset_1 (self w)))),
           (Z.eqb_spec (Asset.id (AssetAmount.asset amount_a)) (Asset.id (Pool.asset_2 (self w))));
    repeat split; try reflexivity; try congruence; intuition congruence.
Qed.

(** The sample pool, with 500 of asset 10 named before 700 of asset 20:
    the transactions carry 700 as the amount of [asset_1] and 500 as that
    of [asset_2]. *)
Lemma flexible_add_quote_prepares_witness :
  let w := Sample.pool (Sample.bootstrapped 1000) in
  exists (q : FlexibleAddLiquidityQuote.t) (txns : FlexibleAddTransactions.t),
    fst (fetch_flexible_add_liquidity_quote Sample.helpers SpecFormulas.formulas
           (AssetAmount.mk Sample.ASSET_A 500) (AssetAmount.mk Sample.ASSET_B 700)
           (5 # 100) w) = Ok q
    /\ prepare_add_liquidity_transactions_from_quote (refreshed Sample.helpers (self w))
         (QFlexibleAdd q) None = inr (FlexibleAdd txns)
    /\ FlexibleAddTransactions.asset_1_amount txns = 700
    /\ FlexibleAddTransactions.asset_2_amount txns = 500.
Proof.
  intros w.
  assert (Hcalc :
    exists minted direction swap_in swap_out swap_fee impact,
      SpecFormulas.calculate_subsequent_add_liquidity 1000000 2000000 1000 3 700 500
      = inr (minted, direction, swap_in, swap_out, swap_fee, impact)).
  { vm_compute. eexists _, _, _, _, _, _. reflexivity. }
  destruct Hcalc as (minted & direction & swap_in & swap_out & swap_fee & impact & Hcalc).
  destruct (flexible_add_quote_prepares Sample.helpers SpecFormulas.formulas
              (Sample.pool (Sample.bootstrapped 1000))
              (AssetAmount.mk Sample.ASSET_A 500) (AssetAmount.mk Sample.ASSET_B 700)
              (5 # 100) None (Asset.of_id 30) 1000000 2000000 1000 3
              minted direction swap_in swap_out swap_fee impact
              eq_refl
              (conj eq_refl (conj eq_refl (conj eq_refl
                 (conj eq_refl (conj eq_refl eq_refl)))))
              ltac:(discriminate) ltac:(simpl; lia) ltac:(vm_compute; reflexivity) Hcalc)
    as (q & txns & Hq & Hp & H1 & H2 & _).
  exists q, txns. repeat split; assumption.
Defined.

(** X19. Each dispatcher takes the quotes of its own kind only, and tells by its
    own error: the add dispatcher raises its [Exception] exactly for a
    quote that is not one of the three add quotes, the remove dispatcher
    raises [NotImplementedError] exactly for a quote that is not one of the
    two remove quotes; neither error comes from a quote of the right kind,
    whatever it holds. *)
Theorem dispatchers_take_their_own_quotes (p : Pool.t) (quote : AnyQuote)
    (pooler_address : option string) :
  (prepare_add_liquidity_transactions_from_quote p quote pooler_address
   = inl InvalidQuoteType
   <-> match quote with
       | QFlexibleAdd _ | QSingleAssetAdd _ | QInitialAdd _ => False
       | _ => True
       end)
  /\ (prepare_remove_liquidity_transactions_from_quote p quote pooler_address
      = inl UnsupportedQuote
      <-> match quote with
          | QRemove _ | QSingleAssetRemove _ => False
          | _ => True
          end).
Proof.
  split.
  - destruct quote as [q | q | q | q | q | q]; simpl; try (split; [auto | reflexivity]);
      (split; [ | contradiction]);
      unfold prepare_flexible_add_liquidity_transactions,
        prepare_single_asset_add_liquidity_transactions,
        prepare_initial_add_liquidity_transactions, dict_get, pool_token_asset_id,
        pbind, pmap;
      repeat match goal with
             | |- context [@lookup _ _ _ _ ?k ?m] => destruct (@lookup _ _ _ _ k m); simpl
             end;
      destruct (Pool.pool_token_asset p); simpl; discriminate.
  - destruct quote as [q | q | q | q | q | q]; simpl; try (split; [auto | reflexivity]);
      (split; [ | contradiction]);
      unfold prepare_remove_liquidity_transactions,
        prepare_single_asset_remove_liquidity_transactions, dict_get,
        pool_token_asset_id, pbind, pmap;
      repeat match goal with
             | |- context [@lookup _ _ _ _ ?k ?m] => destruct (@lookup _ _ _ _ k m); simpl
             end;
      destruct (Pool.pool_token_asset p); simpl; discriminate.
Qed.

(** X20. The remove quote of a pool of two distinct assets can always be turned
    into transactions on the refreshed object: the minimum amounts handed
    on are the protected amounts of the two outputs, each under its own
    asset, and the pool tokens are those of the quote. *)
Theorem remove_quote_prepares (h : Helpers) (F : Formulas) (w : World)
    (x : AssetAmount.t + Z) (slippage : Q) (pooler_address : option string)
    (t0 t : Asset.t) (r1 r2 n fee out_1 out_2 : Z) :
  truthy_flag (Pool.exists_ (self w)) = true ->
  Pool.pool_token_asset (self w) = Some t0 ->
  is_ok (snapshot_source h (self w)) = true ->
  holds (refreshed h (self w)) t r1 r2 n fee ->
  Asset.id (Pool.asset_1 (self w)) <> Asset.id (Pool.asset_2 (self w)) ->
  calculate_remove_liquidity_output_amounts F (amount_of x) r1 r2 n = inr (out_1, out_2) ->
  exists (q : RemoveLiquidityQuote.t) (txns : RemoveTransactions.t),
    fst (fetch_remove_liquidity_quote h F x slippage w) = Ok q
    /\ prepare_remove_liquidity_transactions_from_quote (refreshed h (self w))
         (QRemove q) pooler_address = inr (Remove txns)
    /\ RemoveTransactions.min_asset_1_amount txns = receive_bound out_1 slippage
    /\ RemoveTransactions.min_asset_2_amount txns = receive_bound out_2 slippage
    /\ RemoveTransactions.pool_token_asset_amount txns = amount_of x
    /\ RemoveTransactions.pool_token_asset_id txns = Asset.id t.
Proof.
  intros Hex Ht0 Hsrc (_ & Ht & Hr1 & Hr2 & Hn & _) Hne Hcalc.
  destruct (refreshed_assets h (self w)) as [Ha1 Ha2].
  assert (Hburn : AssetAmount.amount (burn_of t0 x) = amount_of x)
    by (destruct x; reflexivity).
  assert (Hq :
    fst (fetch_remove_liquidity_quote h F x slippage w)
    = Ok {| RemoveLiquidityQuote.amounts_out :=
              asset_dict
                (Pool.asset_1 (self w)) (AssetAmount.mk (Pool.asset_1 (self w)) out_1)
                (Pool.asset_2 (self w)) (AssetAmount.mk (Pool.asset_2 (self w)) out_2);
            RemoveLiquidityQuote.pool_token_asset_amount := burn_of t0 x;
            RemoveLiquidityQuote.slippage := slippage |}).
  { unfold fetch_remove_liquidity_quote.
    rewrite (check_then_refresh h x t0 _ w Hex Ht0 Hsrc).
    unfold_M. simpl. rewrite Hr1, Hr2, Hn, Ha1, Ha2. unfold args4. simpl.
    rewrite Hburn, Hcalc. reflexivity. }
  eexists. eexists. split; [exact Hq | ].
  unfold prepare_remove_liquidity_transactions_from_quote,
    prepare_remove_liquidity_transactions, remove_amounts_out_with_slippage,
    dict_get, pool_token_asset_id, asset_dict. simpl.
  rewrite Ha1, Ha2, Ht.
  rewrite !lookup_fmap.
  rewrite (lookup_insert_ne _ (Asset.id (Pool.asset_2 (self w)))
             (Asset.id (Pool.asset_1 (self w)))) by congruence.
  rewrite !lookup_insert_eq. simpl.
  rewrite (lookup_insert_ne _ (Asset.id (Pool.asset_2 (self w)))
             (Asset.id (Pool.asset_1 (self w)))) by congruence.
  rewrite !lookup_insert_eq. simpl.
  split; [reflexivity | ]. simpl. repeat split. exact Hburn.
Qed.

(** The sample pool: burning 100 of its 1000 pool tokens with a tolerance
    of 0.05 asks for at least 95,000 and 190,000. *)
Lemma remove_quote_prepares_witness :
  let w := Sample.pool (Sample.bootstrapped 1000) in
  exists (q : RemoveLiquidityQuote.t) (txns : RemoveTransactions.t),
    fst (fetch_remove_liquidity_quote Sample.helpers SpecFormulas.formulas
           (inr 100) (5 # 100) w) = Ok q
    /\ prepare_remove_liquidity_transactions_from_quote (refreshed Sample.helpers (self w))
         (QRemove q) None = inr (Remove txns)
    /\ RemoveTransactions.min_asset_1_amount txns = 95000
    /\ RemoveTransactions.min_asset_2_amount txns = 190000.
Proof.
  intros w.
  destruct (remove_quote_prepares Sample.helpers SpecFormulas.formulas
              (Sample.pool (Sample.bootstrapped 1000)) (inr 100) (5 # 100) None
              (Asset.of_id 30) (Asset.of_id 30) 1000000 2000000 1000 3 100000 200000
              eq_refl eq_refl eq_refl
              (conj eq_refl (conj eq_refl (conj eq_refl
                 (conj eq_refl (conj eq_refl eq_refl)))))
              ltac:(simpl; lia) eq_refl)
    as (q & txns & Hq & Hp & H1 & H2 & _).
  exists q, txns. split; [exact Hq | split; [exact Hp | split]].
  - rewrite H1. reflexivity.
  - rewrite H2. reflexivity.
Defined.

(** ** Building a pool object from account information *)

(** X21. [Pool.from_account_info] takes from the account information the two
    asset ids and the application id only. On an account without local
    state it raises [KeyError]. Otherwise the constructor runs with its
    default [fetch=True], so the decoded dictionary it is handed is not
    used: the snapshot of the new object is what a refresh reads through
    the client, and the object exists only if the client's ledger says
    so. *)
Theorem from_account_info_reads_the_ledger (h : Helpers) (account_info : AccountInfo.t)
    (client : Client.t) :
  match get_pool_info_from_account_info h account_info with
  | inl e => from_account_info h account_info client = Raise e
  | inr EmptyDict => from_account_info h account_info client = Raise (KeyError "asset_1_id")
  | inr (FullDict i) =>
    let blank :=
      Pool_attributes client (ById (Info.asset_1_id i)) (ById (Info.asset_2_id i))
        (Some (Info.validator_app_id i)) in
    exists (r : result unit) (w : World),
      from_account_info h account_info client = Ok (r, w)
      /\ self w = refreshed h blank
      /\ trace w = [EvRefresh]
      /\ (snapshot_source h blank = Ok EmptyDict ->
          r = Ok tt /\ Pool.exists_ (self w) = None /\ Pool.asset_1_reserves (self w) = None)
  end.
Proof.
  unfold from_account_info.
  destruct (get_pool_info_from_account_info h account_info) as [e | [ | i]]; simpl;
    try reflexivity.
  unfold Pool_init. rewrite refresh_None_run. simpl.
  eexists _, _. split; [reflexivity | ]. simpl.
  split; [reflexivity | split; [reflexivity | ]].
  intros Hsrc. unfold refreshed. rewrite Hsrc. repeat split.
Qed.

(** The account information of the bootstrapped sample pool, with a client
    whose ledger shows the pool account without local state: the object
    does not exist. *)
Lemma from_account_info_reads_the_ledger_witness :
  exists (r : result unit) (w : World),
    from_account_info Sample.helpers (Sample.bootstrapped 1000)
      (Sample.client Sample.unbootstrapped) = Ok (r, w)
    /\ Pool.exists_ (self w) = None.
Proof.
  pose proof (from_account_info_reads_the_ledger Sample.helpers (Sample.bootstrapped 1000)
                (Sample.client Sample.unbootstrapped)) as H.
  revert H.
  destruct (get_pool_info_from_account_info Sample.helpers (Sample.bootstrapped 1000))
    as [e | [ | i]] eqn:Hdec; try (vm_compute in Hdec; discriminate).
  intros (r & w & Hout & _ & _ & Hempty).
  exists r, w. split; [exact Hout | ].
  apply Hempty. reflexivity.
Defined.

(** ** The fixed-input swap quote of an amount in [asset_1] *)

(** X22. On an active pool, the fixed-input swap quote of an amount in
    [asset_1] is the outcome of [calculate_fixed_input_swap] called with
    the reserves of [asset_1] as input supply and those of [asset_2] as
    output supply, after the refresh and the two state checks: the formula's
    error if it raises, and otherwise a quote whose output is in [asset_2]
    and whose fees are in the asset of the input. *)
Theorem fixed_input_swap_quote_in_asset_1 (h : Helpers) (F : Formulas) (w : World)
    (amount_in : AssetAmount.t) (slippage : Q) (t : Asset.t) (r1 r2 n fee : Z) :
  is_ok (snapshot_source h (self w)) = true ->
  holds (refreshed h (self w)) t r1 r2 n fee -> n <> 0 ->
  Asset.eqb (AssetAmount.asset amount_in) (Pool.asset_1 (self w)) = true ->
  fetch_fixed_input_swap_quote h F amount_in slippage w
  = (match calculate_fixed_input_swap F r1 r2 (AssetAmount.amount amount_in) fee with
     | inl e => Raise (FormulaError e)
     | inr (swap_output_amount, total_fee_amount, price_impact) =>
       Ok {| SwapQuote.swap_type := "fixed-input";
             SwapQuote.amount_in := amount_in;
             SwapQuote.amount_out :=
               AssetAmount.mk (Pool.asset_2 (self w)) swap_output_amount;
             SwapQuote.swap_fees :=
               AssetAmount.mk (AssetAmount.asset amount_in) total_fee_amount;
             SwapQuote.slippage := slippage;
             SwapQuote.price_impact := price_impact |}
     end,
     {| self := refreshed h (self w);
        trace := trace w ++ [EvRefresh; EvCheckExists; EvCheckLiquidity;
                             EvFormula FixedInputSwap] |}).
Proof.
  intros Hsrc (Hex & Ht & Hr1 & Hr2 & Hn & Hfee) Hn0 Heq.
  unfold fetch_fixed_input_swap_quote. rewrite refresh_then_checks. cbv zeta.
  destruct (snapshot_source h (self w)) as [e | info]; [discriminate | ].
  rewrite Hex, Hn. simpl.
  destruct (Z.eqb_spec n 0) as [ | _]; [contradiction | ]. simpl.
  unfold_M. simpl.
  destruct (refreshed_assets h (self w)) as [-> ->].
  rewrite Heq. simpl. rewrite Hr1, Hr2, Hfee. simpl. unfold args4. simpl.
  rewrite <- app_assoc. simpl.
  destruct (calculate_fixed_input_swap F r1 r2 _ fee) as [e | [[x y] z]]; reflexivity.
Qed.

(** The sample pool: 10,000 of asset 20, the pool's [asset_1], buys 19,743
    of asset 10 at a fee of 30. *)
Lemma fixed_input_swap_quote_in_asset_1_witness :
  exists q : SwapQuote.t,
    fst (fetch_fixed_input_swap_quote Sample.helpers SpecFormulas.formulas
           (AssetAmount.mk Sample.ASSET_B 10000) (5 # 100)
           (Sample.pool (Sample.bootstrapped 1000))) = Ok q
    /\ SwapQuote.amount_out q = AssetAmount.mk Sample.ASSET_A 19743
    /\ SwapQuote.swap_fees q = AssetAmount.mk Sample.ASSET_B 30.
Proof.
  rewrite (fixed_input_swap_quote_in_asset_1 Sample.helpers SpecFormulas.formulas
             (Sample.pool (Sample.bootstrapped 1000))
             (AssetAmount.mk Sample.ASSET_B 10000) (5 # 100)
             (Asset.of_id 30) 1000000 2000000 1000 3
             eq_refl
             (conj eq_refl (conj eq_refl (conj eq_refl
                (conj eq_refl (conj eq_refl eq_refl)))))
             ltac:(discriminate) eq_refl).
  eexists. split; [reflexivity | split; reflexivity].
Defined.
